(** * Exposure (livetime) correction of light curves

    A shallow embedding of [maltpynt/exposure.py]: the livetime binner
    [get_livetime_per_bin] and the consumer [correct_lightcurve].

    Number model.  The source computes with numpy [float64] arrays.  Here a
    finite float is an exact rational ([Q]); rounding is abstracted away, so
    every statement below is a statement of exact arithmetic.  The only
    non-finite value the binner can meet, the [nan] that [np.median] returns
    on an empty array, is kept explicit ([None] in [option Q]).
    Equality of numbers is [Qeq] ([==]); arrays are compared with
    [Forall2 Qeq] or element by element.

    Exceptions are values: a computation returns [Ok v] or [Raise e]. *)

From Stdlib Require Import QArith Qminmax Lqa ZArith Lia Sorted.
From stdpp Require Import base list gmap strings.

(** ** Exceptions *)

Inductive exn : Type :=
| AssertionError | IndexError | ValueError | KeyError | TypeError.

Inductive result (A : Type) : Type :=
| Ok (a : A)
| Raise (e : exn).
Arguments Ok {A} a.
Arguments Raise {A} e.

Definition rbind {A B : Type} (k : A -> result B) (c : result A) : result B :=
  match c with
  | Ok a => k a
  | Raise e => Raise e
  end.

#[export] Instance result_bind : MBind result := @rbind.
#[export] Instance result_ret : MRet result := @Ok.

Definition py_assert (b : bool) : result unit :=
  if b then Ok tt else Raise AssertionError.

Definition is_ok {A : Type} (r : result A) : bool :=
  match r with Ok _ => true | Raise _ => false end.

(** ** The numpy and Python primitives the module uses *)

Module np.

(** [x < y] on floats. *)
Definition Qltb (x y : Q) : bool := negb (Qle_bool y x).

(** [np.diff(a)]. *)
Fixpoint diff (a : list Q) : list Q :=
  match a with
  | x :: (y :: _) as t => (y - x)%Q :: diff t
  | _ => []
  end.

Fixpoint insert_sorted (x : Q) (l : list Q) : list Q :=
  match l with
  | [] => [x]
  | y :: l' => if Qle_bool x y then x :: l else y :: insert_sorted x l'
  end.

Definition sort (l : list Q) : list Q := foldr insert_sorted [] l.

(** [np.median(a)]: the middle element of the sorted array, or the mean of
    the two middle ones; [nan] ([None]) on an empty array. *)
Definition median (a : list Q) : option Q :=
  let s := sort a in
  let n := length a in
  if (n =? 0)%nat then None
  else if Nat.even n
       then Some ((nth (n / 2 - 1) s 0 + nth (n / 2) s 0) / 2)%Q
       else Some (nth (n / 2) s 0%Q).

(** Python's index normalisation on a sequence of length [n]: [-n <= i < n],
    negative indices count from the end, anything else is an IndexError. *)
Definition norm_index (n : nat) (i : Z) : result nat :=
  if ((0 <=? i) && (i <? Z.of_nat n))%Z then Ok (Z.to_nat i)
  else if ((- Z.of_nat n <=? i) && (i <? 0))%Z then Ok (Z.to_nat (i + Z.of_nat n))
  else Raise IndexError.

(** [a[i]]. *)
Definition getitem {A : Type} (a : list A) (i : Z) : result A :=
  k ← norm_index (length a) i;
  match a !! k with
  | Some x => Ok x
  | None => Raise IndexError
  end.

Fixpoint map_result {A B : Type} (f : A -> result B) (l : list A) : result (list B) :=
  match l with
  | [] => Ok []
  | x :: l' => y ← f x; ys ← map_result f l'; Ok (y :: ys)
  end.

(** [a[idx]] for an integer index array [idx]. *)
Definition take_at {A : Type} (a : list A) (idx : list Z) : result (list A) :=
  map_result (getitem a) idx.

(** [a[ks] = vs]: the assignments are carried out one after the other, so
    for a repeated index the last value stays. *)
Fixpoint put_at {A : Type} (a : list A) (ks : list nat) (vs : list A) : list A :=
  match ks, vs with
  | k :: ks', v :: vs' => put_at (<[k:=v]> a) ks' vs'
  | _, _ => a
  end.

(** [a[idx] += v] for an integer index array: numpy reads [a[idx]], adds [v]
    to that copy and writes the copy back with [a[idx] = ...]; a repeated
    index is therefore incremented once (by the last value), not
    accumulated. *)
Definition iadd_at (a : list Q) (idx : list Z) (v : list Q) : result (list Q) :=
  ks ← map_result (norm_index (length a)) idx;
  old ← take_at a idx;
  Ok (put_at a ks (zip_with Qplus old v)).

(** Elementwise binary operation on two 1-d arrays with numpy broadcasting:
    equal lengths, or one of the operands has length one. *)
Definition broadcast2 {A B C : Type} (f : A -> B -> C) (a : list A) (b : list B)
  : result (list C) :=
  if (length a =? length b)%nat then Ok (zip_with f a b)
  else match a, b with
       | [x], _ => Ok (map (f x) b)
       | _, [y] => Ok (map (fun x => f x y) a)
       | _, _ => Raise ValueError
       end.

(** [a += b] in place: [b] must broadcast to the shape of [a]. *)
Definition iadd (a b : list Q) : result (list Q) :=
  if (length a =? length b)%nat then Ok (zip_with Qplus a b)
  else match b with
       | [y] => Ok (map (fun x => x + y)%Q a)
       | _ => Raise ValueError
       end.

(** [a[m]] for a boolean mask [m] of the length of [a]. *)
Fixpoint select {A : Type} (m : list bool) (a : list A) : list A :=
  match m, a with
  | b :: m', x :: a' => if b then x :: select m' a' else select m' a'
  | _, _ => []
  end.

(** [a[m] = v] for a scalar [v]. *)
Fixpoint assign_scalar {A : Type} (m : list bool) (a : list A) (v : A) : list A :=
  match m, a with
  | b :: m', x :: a' => (if b then v else x) :: assign_scalar m' a' v
  | _, _ => a
  end.

(** [a[m] = vs] where [vs] has one value per [True] of the mask. *)
Fixpoint assign (m : list bool) (a vs : list Q) : list Q :=
  match m, a with
  | true :: m', x :: a' =>
      match vs with
      | v :: vs' => v :: assign m' a' vs'
      | [] => a
      end
  | false :: m', x :: a' => x :: assign m' a' vs
  | _, _ => a
  end.

(** [np.searchsorted(a, v, 'right')] on an array sorted in ascending order:
    the index [i] with [a[i-1] <= v < a[i]].  (Unsorted bin edges never reach
    an index computation that is used: [histogram] rejects them.) *)
Fixpoint searchsorted_right (a : list Q) (v : Q) : Z :=
  match a with
  | [] => 0
  | x :: a' => if Qle_bool x v then (1 + searchsorted_right a' v)%Z else 0%Z
  end.

(** The bin edges of [np.histogram] must not decrease. *)
Fixpoint monotone (b : list Q) : bool :=
  match b with
  | x :: (y :: _) as t => Qle_bool x y && monotone t
  | _ => true
  end.

(** Sum of the weights of the samples selected by [inb]. *)
Fixpoint sumw (inb : Q -> bool) (a w : list Q) : Q :=
  match a, w with
  | x :: a', y :: w' => ((if inb x then y else 0) + sumw inb a' w')%Q
  | _, _ => 0%Q
  end.

(** Bin [i] of the histogram is half open, [edges[i] <= x < edges[i+1]],
    except the last one, which is closed. *)
Definition in_bin (lo hi : Q) (last : bool) (x : Q) : bool :=
  Qle_bool lo x && (if last then Qle_bool x hi else Qltb x hi).

Fixpoint bin_sums (bins a w : list Q) : list Q :=
  match bins with
  | lo :: (hi :: rest) as t =>
      sumw (in_bin lo hi (match rest with [] => true | _ => false end)) a w
      :: bin_sums t a w
  | _ => []
  end.

(** [np.histogram(a, bins=bins, weights=w)[0]] for an explicit edge array. *)
Definition histogram (a bins w : list Q) : result (list Q) :=
  if monotone bins then Ok (bin_sums bins a w) else Raise ValueError.

(** [np.all(a)]: every element is truthy, that is, non-zero. *)
Definition all (a : list Q) : bool := forallb (fun x => negb (Qeq_bool x 0)) a.

(** [np.all(a >= 0)]. *)
Definition all_nonneg (a : list Q) : bool := forallb (Qle_bool 0) a.

(** [np.max(a)] on an integer array; a ValueError on an empty one. *)
Definition max (a : list Z) : result Z :=
  match a with
  | [] => Raise ValueError
  | x :: a' => Ok (foldl Z.max x a')
  end.

(** [range(start, stop)]. *)
Definition range (start stop : Z) : list Z :=
  map (fun k => (start + Z.of_nat k)%Z) (seq 0 (Z.to_nat (stop - start))).

(** [range(start, 0, -1)]. *)
Definition range_down (start : Z) : list Z :=
  map (fun k => (start - Z.of_nat k)%Z) (seq 0 (Z.to_nat start)).

(** [a[:-1]]. *)
Definition but_last {A : Type} (a : list A) : list A := take (length a - 1) a.

(** [sum(a)]. *)
Definition sum (a : list Q) : Q := foldr Qplus 0%Q a.

End np.

(** ** get_livetime_per_bin *)

(** The [dt] argument: a single float ([None] is [nan]) or an array. *)
Inductive dt_value : Type :=
| Scalar (x : option Q)
| Array (a : list Q).

(** The Python values that are stored in a light-curve file or passed as
    [gti]: floats, float arrays (a finite entry is [Some q], [inf] and [nan]
    are [None]), lists of good time intervals
    [[g0_0, g0_1], [g1_0, g1_1], ...] and strings. *)
Inductive value : Type :=
| VFloat (x : Q)
| VArray (a : list Q)
| VRates (a : list (option Q))
| VGti (g : list (Q * Q))
| VStr (s : string).

(** Modelled from the spec: [_assign_value_if_none] is defined in
    maltpynt/base.py, which is not among the sources. "If [dt] is not
    supplied, derive it as the median of consecutive differences of
    [times]": the value when there is one, the default otherwise. *)
Definition _assign_value_if_none {A : Type} (value : option A) (default : A) : A :=
  match value with
  | Some v => v
  | None => default
  end.

(** Lines 51-54: [len(dt)] fails on a float, which is then added to
    [np.zeros(len(times))].  A [nan] scalar gives an all-[nan] array
    ([None]). *)
Definition broadcast_dt (dt : dt_value) (times : list Q) : option (list Q) :=
  match dt with
  | Array a => Some a
  | Scalar (Some d) => Some (map (fun z => d + z)%Q (repeat 0%Q (length times)))
  | Scalar None => None
  end.

(** Lines 65-67: the bin edges, in the frame of the first event. *)
Definition bin_edges (times dt : list Q) (e0 : Q) : result (list Q) :=
  lefts ← np.broadcast2 Qminus times (map (fun d => d / 2)%Q dt);
  t_last ← np.getitem times (-1);
  dt_last ← np.getitem dt (-1);
  Ok (map (fun x => x - e0)%Q (lefts ++ [(t_last + dt_last / 2)%Q])).

Definition eps : Q := 1 # 1000000000.

(** Lines 72-89: drop the events outside of the light curve and clamp the
    livetime intervals that stick out of it.  Returns
    [(ev_fl, pr_fl, livetime_starts)]. *)
Definition clip_to_axis (tbins ev_fl pr_fl livetime_starts : list Q)
  : result (list Q * list Q * list Q) :=
  let tbin_starts := np.but_last tbins in
  t_first ← np.getitem tbins 0;
  t_end ← np.getitem tbins (-1);
  let filter :=
    zip_with andb (map (fun e => np.Qltb t_first e) ev_fl)
                  (map (fun l => np.Qltb l t_end) livetime_starts) in
  let ev_fl := np.select filter ev_fl in
  let pr_fl := np.select filter pr_fl in
  let livetime_starts := np.select filter livetime_starts in
  ts0 ← np.getitem tbin_starts 0;
  let before_start :=
    zip_with andb (map (fun l => np.Qltb l ts0) livetime_starts)
                  (map (fun e => np.Qltb ts0 e) ev_fl) in
  let livetime_starts := np.assign_scalar before_start livetime_starts (t_first + eps)%Q in
  let pr_fl :=
    np.assign before_start pr_fl
      (zip_with Qminus (np.select before_start ev_fl)
                       (np.select before_start livetime_starts)) in
  let after_end :=
    zip_with andb (map (fun l => np.Qltb l t_end) livetime_starts)
                  (map (fun e => np.Qltb t_end e) ev_fl) in
  let ev_fl := np.assign_scalar after_end ev_fl (t_end - eps)%Q in
  let pr_fl :=
    np.assign after_end pr_fl
      (zip_with Qminus (np.select after_end ev_fl)
                       (np.select after_end livetime_starts)) in
  Ok (ev_fl, pr_fl, livetime_starts).

(** [np.searchsorted(tbin_starts, x, 'right') - 1]. *)
Definition bin_of (tbin_starts : list Q) (x : Q) : Z :=
  (np.searchsorted_right tbin_starts x - 1)%Z.

(** Lines 134-136: the interior bins of the events of one span class. *)
Definition complete_bins (dt : list Q) (lts_bin_good : list Z)
    (livetime_array : list Q) (i : Z) : result (list Q) :=
  let idx := map (fun b => (b + i)%Z) lts_bin_good in
  w ← np.take_at dt idx;
  np.iadd_at livetime_array idx w.

Fixpoint for_each {A S : Type} (body : S -> A -> result S) (s : S) (l : list A)
  : result S :=
  match l with
  | [] => Ok s
  | x :: l' => s' ← body s x; for_each body s' l'
  end.

(** Lines 110-136: the body of the loop over [bin_diff]. *)
Definition span_pass (tbin_starts dt : list Q) (ev_bin lts_bin : list Z)
    (ev_fl livetime_starts : list Q) (livetime_array : list Q) (bin_diff : Z)
  : result (list Q) :=
  let idxs := zip_with (fun e l => (e =? l + bin_diff)%Z) ev_bin lts_bin in
  let ev_bin_good := np.select idxs ev_bin in
  let lts_bin_good := np.select idxs lts_bin in
  let ev_good := np.select idxs ev_fl in
  let lt_good := np.select idxs livetime_starts in
  let e_idx := map (bin_of tbin_starts) ev_good in
  _tbins ← np.take_at tbin_starts e_idx;
  livetime_array ← np.iadd_at livetime_array ev_bin_good (zip_with Qminus ev_good _tbins);
  _ ← py_assert (np.all_nonneg (zip_with Qminus ev_good _tbins));
  let l_idx := map (np.searchsorted_right tbin_starts) lt_good in
  _tbins ← np.take_at tbin_starts l_idx;
  livetime_array ← np.iadd_at livetime_array lts_bin_good (zip_with Qminus _tbins lt_good);
  _ ← py_assert (np.all_nonneg (zip_with Qminus _tbins lt_good));
  if (1 <? bin_diff)%Z
  then for_each (complete_bins dt lts_bin_good) livetime_array (np.range 1 bin_diff)
  else Ok livetime_array.

(** Lines 77 and 93-138: assign the clipped events to the bins. *)
Definition accumulate (n_times : nat) (tbins dt ev_fl pr_fl livetime_starts : list Q)
  : result (list Q) :=
  let tbin_starts := np.but_last tbins in
  let livetime_array := repeat 0%Q n_times in
  let lts_bin := map (bin_of tbin_starts) livetime_starts in
  let ev_bin := map (bin_of tbin_starts) ev_fl in
  let first_pass := zip_with Z.eqb ev_bin lts_bin in
  expo ← np.histogram (np.select first_pass ev_fl) tbins (np.select first_pass pr_fl);
  (* [assert np.all(expo) >= 0]: the comparison is applied to the boolean *)
  _ ← py_assert (0 <=? Z.b2z (np.all expo))%Z;
  livetime_array ← np.iadd livetime_array expo;
  max_bin_diff ← np.max (zip_with Z.sub ev_bin lts_bin);
  for_each (span_pass tbin_starts dt ev_bin lts_bin ev_fl livetime_starts)
           livetime_array (np.range_down max_bin_diff).

Definition get_livetime_per_bin (times events priors : list Q)
    (dt : option dt_value) (gti : option value) : result (list Q) :=
  _ ← py_assert (length events =? length priors)%nat;
  let dt := _assign_value_if_none dt (Scalar (np.median (np.diff times))) in
  e0 ← np.getitem events 0;
  match broadcast_dt dt times with
  | None =>
      (* every bin edge is nan: all comparisons of the range filter are
         false, no event is left, and [np.max] of the empty array raises *)
      _ ← np.getitem times (-1);
      Raise ValueError
  | Some dt =>
      let ev_fl := map (fun e => e - e0)%Q events in
      let pr_fl := priors in
      let livetime_starts := zip_with Qminus ev_fl pr_fl in
      tbins ← bin_edges times dt e0;
      '(ev_fl, pr_fl, livetime_starts) ← clip_to_axis tbins ev_fl pr_fl livetime_starts;
      accumulate (length times) tbins dt ev_fl pr_fl livetime_starts
  end.

(** ** get_exposure_from_uf and correct_lightcurve

    The unfiltered event file is read by [load_events_and_gtis] and the light
    curve by [get_file_type] (maltpynt/io.py, not among the sources): the
    event list and the PRIOR column of the one, and the dictionary of the
    other, are parameters here.  [save_lcurve] writes the result to disk and
    does not change it. *)

Definition get_exposure_from_uf (time : list Q) (uf_events uf_priors : list Q)
    (dt : option dt_value) (gti : option value) : result (list Q) :=
  let dt := _assign_value_if_none dt (Scalar (np.median (np.diff time))) in
  let events := uf_events in
  let priors := uf_priors in
  let expo := get_livetime_per_bin time events priors (Some dt) gti in
  expo.

(** [contents[k]]. *)
Definition get_key (contents : gmap string value) (k : string) : result value :=
  match contents !! k with
  | Some v => Ok v
  | None => Raise KeyError
  end.

Definition as_array (v : value) : result (list Q) :=
  match v with
  | VArray a => Ok a
  | _ => Raise TypeError
  end.

Definition as_dt (v : value) : result dt_value :=
  match v with
  | VFloat x => Ok (Scalar (Some x))
  | VArray a => Ok (Array a)
  | _ => Raise TypeError
  end.

(** Float division and multiplication; a division by zero gives [inf] or
    [nan], which stay non-finite under a multiplication. *)
Definition fdiv (x y : Q) : option Q :=
  if Qeq_bool y 0 then None else Some (x / y)%Q.

Definition fmul (x : option Q) (y : Q) : option Q :=
  match x with
  | Some a => Some (a * y)%Q
  | None => None
  end.

(** [r * dt] for the float or array [dt] of the light curve. *)
Definition times_dt (r : list (option Q)) (dt : dt_value) : result (list (option Q)) :=
  match dt with
  | Scalar (Some d) => Ok (map (fun x => fmul x d) r)
  | Scalar None => Ok (map (fun _ => None) r)
  | Array a => np.broadcast2 fmul r a
  end.

(** [a[m] = v] for a boolean mask, which must have the length of [a]. *)
Definition mask_assign_scalar {A : Type} (m : list bool) (a : list A) (v : A)
  : result (list A) :=
  if (length m =? length a)%nat then Ok (np.assign_scalar m a v)
  else Raise IndexError.

Definition correct_lightcurve (contents : gmap string value)
    (uf_events uf_priors : list Q) (expo_limit : Q)
  : result (gmap string value) :=
  time_v ← get_key contents "time";
  lc_v ← get_key contents "lc";
  dt_v ← get_key contents "dt";
  gti ← get_key contents "GTI";
  time ← as_array time_v;
  dt ← as_dt dt_v;
  expo ← get_exposure_from_uf time uf_events uf_priors (Some dt) (Some gti);
  let outdata := contents in
  lc ← as_array lc_v;
  ratio ← np.broadcast2 fdiv lc expo;
  newlc ← times_dt ratio dt;
  newlc ← mask_assign_scalar (map (fun e => np.Qltb e expo_limit) expo) newlc (Some 0%Q);
  let outdata := <["lc" := VRates newlc]> outdata in
  let outdata := <["expo" := VArray expo]> outdata in
  Ok outdata.

(** ** Specification-side notions *)

(** Two float arrays agree entry by entry. *)
Definition arrays_eq (a b : list Q) : Prop := Forall2 Qeq a b.

Definition result_eq (r : result (list Q)) (a : list Q) : Prop :=
  match r with
  | Ok b => arrays_eq b a
  | Raise _ => False
  end.

(** The time a livetime interval [[lts, ev)] spends in the bin [[lo, hi)]. *)
Definition overlap (lo hi lts ev : Q) : Q :=
  Qmax 0 (Qmin ev hi - Qmax lts lo).

(** The body of [clip_to_axis] once the three edges it reads are known. *)
Definition clip_body (t_first t_end ts0 : Q) (ev_fl pr_fl livetime_starts : list Q)
  : list Q * list Q * list Q :=
  let filter :=
    zip_with andb (map (fun e => np.Qltb t_first e) ev_fl)
                  (map (fun l => np.Qltb l t_end) livetime_starts) in
  let ev_fl := np.select filter ev_fl in
  let pr_fl := np.select filter pr_fl in
  let livetime_starts := np.select filter livetime_starts in
  let before_start :=
    zip_with andb (map (fun l => np.Qltb l ts0) livetime_starts)
                  (map (fun e => np.Qltb ts0 e) ev_fl) in
  let livetime_starts := np.assign_scalar before_start livetime_starts (t_first + eps)%Q in
  let pr_fl :=
    np.assign before_start pr_fl
      (zip_with Qminus (np.select before_start ev_fl)
                       (np.select before_start livetime_starts)) in
  let after_end :=
    zip_with andb (map (fun l => np.Qltb l t_end) livetime_starts)
                  (map (fun e => np.Qltb t_end e) ev_fl) in
  let ev_fl := np.assign_scalar after_end ev_fl (t_end - eps)%Q in
  let pr_fl :=
    np.assign after_end pr_fl
      (zip_with Qminus (np.select after_end ev_fl)
                       (np.select after_end livetime_starts)) in
  (ev_fl, pr_fl, livetime_starts).

(** Componentwise concatenation of three parallel arrays. *)
Definition app3 (x y : list Q * list Q * list Q) : list Q * list Q * list Q :=
  (x.1.1 ++ y.1.1, x.1.2 ++ y.1.2, x.2 ++ y.2).

(** The width of bin [i] for the [dt] of a light curve. *)
Definition dt_at (dt : dt_value) (i : nat) : option Q :=
  match dt with
  | Scalar x => x
  | Array a => a !! i
  end.

(** Edge [i] of an edge array, and width [i] of a width array. *)
Definition edge (tbins : list Q) (i : nat) : Q := nth i tbins 0%Q.

(** A contiguous axis: one edge more than bins, strictly increasing edges,
    and every bin as wide as the distance of its two edges. *)
Definition contiguous_axis (tbins dt : list Q) : Prop :=
  length tbins = S (length dt)
  /\ forall i, (i < length dt)%nat ->
       (edge tbins i < edge tbins (S i))%Q
       /\ (nth i dt 0 == edge tbins (S i) - edge tbins i)%Q.

(** Sum of [f] over a list. *)
Definition msum {X : Type} (f : X -> Q) (l : list X) : Q := np.sum (map f l).

(** The events, as pairs of an event time and a prior, whose livetime starts
    [bin_diff] bins before the bin of the event. *)
Definition span_class (tbin_starts : list Q) (bin_diff : Z) (x : Q * Q) : bool :=
  (bin_of tbin_starts x.1 =? bin_of tbin_starts (x.1 - x.2) + bin_diff)%Z.

(** The bin of a time, as a natural number. *)
Definition binn (tbin_starts : list Q) (x : Q) : nat := Z.to_nat (bin_of tbin_starts x).

(** The part of the livetime interval of the event [x] that lies in bin [b]. *)
Definition ov (tbins : list Q) (b : nat) (x : Q * Q) : Q :=
  overlap (edge tbins b) (edge tbins (S b)) (x.1 - x.2) x.1.

(** An event (time, prior) whose livetime interval lies on the axis. *)
Definition on_axis (tbins : list Q) (x : Q * Q) : Prop :=
  (0 <= x.2 /\ edge tbins 0 <= x.1 - x.2 /\ x.1 <= edge tbins (length tbins - 1))%Q.

(** Livetime intervals that follow one another without overlap: every prior
    is non-negative and every interval starts at or after [c] and at or after
    the event before it. *)
Fixpoint disjoint_from (c : Q) (l : list (Q * Q)) : Prop :=
  match l with
  | [] => True
  | x :: l' => (c <= x.1 - x.2 /\ 0 <= x.2)%Q /\ disjoint_from x.1 l'
  end.

(** [y] is the time [x] seen in a frame whose origin is moved by [c]. *)
Definition shifted (c x y : Q) : Prop := y == x - c.

(** * Properties *)

Local Open Scope Q_scope.

(** ** Booleans and the exception monad *)

Lemma Qltb_lt (x y : Q) : np.Qltb x y = true <-> x < y.
Proof.
  unfold np.Qltb. rewrite negb_true_iff, <- not_true_iff_false, Qle_bool_iff.
  split; [apply Qnot_le_lt | apply Qlt_not_le].
Qed.

Lemma Qltb_ge (x y : Q) : np.Qltb x y = false <-> y <= x.
Proof.
  unfold np.Qltb. rewrite negb_false_iff. apply Qle_bool_iff.
Qed.

Lemma Qle_bool_gt (x y : Q) : Qle_bool x y = false <-> y < x.
Proof.
  rewrite <- not_true_iff_false, Qle_bool_iff.
  split; [apply Qnot_le_lt | apply Qlt_not_le].
Qed.

Lemma bind_Ok {A B : Type} (c : result A) (k : A -> result B) (a : A) :
  c = Ok a -> (x ← c; k x) = k a.
Proof. intros ->. reflexivity. Qed.

Lemma bind_Raise {A B : Type} (c : result A) (k : A -> result B) (e : exn) :
  c = Raise e -> (x ← c; k x) = Raise e.
Proof. intros ->. reflexivity. Qed.

(** The assertion of line 102 compares a boolean with zero: it cannot fail. *)
Lemma same_bin_assert_vacuous (expo : list Q) :
  py_assert (0 <=? Z.b2z (np.all expo))%Z = Ok tt.
Proof. destruct (np.all expo); reflexivity. Qed.

(** ** The scenario of the specification *)

(** C2: one event at 2.2 with prior 1.5 on the axis with edges 0, 1, 2, 3
    gives the livetimes 0.3, 1.0 and 0.2, which add up to the prior. *)
Theorem scenario_three_bins :
  exists arr,
    get_livetime_per_bin [1#2; 3#2; 5#2] [22#10] [3#2] (Some (Scalar (Some 1))) None
      = Ok arr
    /\ arrays_eq arr [3#10; 1; 2#10]
    /\ np.sum arr == 3#2.
Proof.
  eexists. split; [vm_compute; reflexivity |].
  split; [repeat constructor; reflexivity | reflexivity].
Qed.

(** ** The gti argument *)

(** C9: the returned livetimes are the same for every value of [gti]; two
    runs that differ only in [gti] cannot be told apart. *)
Theorem gti_noninterference (times events priors : list Q) (dt : option dt_value)
    (gti : option value) :
  get_livetime_per_bin times events priors dt gti
  = get_livetime_per_bin times events priors dt None.
Proof. reflexivity. Qed.

(** ** Indexing *)

Lemma norm_index_nonneg (n : nat) (k : nat) :
  (k < n)%nat -> np.norm_index n (Z.of_nat k) = Ok k.
Proof.
  intros H. unfold np.norm_index.
  replace ((0 <=? Z.of_nat k)%Z && (Z.of_nat k <? Z.of_nat n)%Z) with true.
  - by rewrite Nat2Z.id.
  - symmetry. apply andb_true_iff. split; [apply Z.leb_le | apply Z.ltb_lt]; lia.
Qed.

Lemma norm_index_minus_one (n : nat) :
  np.norm_index (S n) (-1) = Ok n.
Proof.
  unfold np.norm_index.
  replace ((0 <=? -1)%Z && (-1 <? Z.of_nat (S n))%Z) with false by reflexivity.
  replace ((- Z.of_nat (S n) <=? -1)%Z && (-1 <? 0)%Z) with true.
  - f_equal. lia.
  - symmetry. apply andb_true_iff. split; [apply Z.leb_le | apply Z.ltb_lt]; lia.
Qed.

Lemma getitem_lookup {A : Type} (a : list A) (k : nat) (x : A) :
  a !! k = Some x -> np.getitem a (Z.of_nat k) = Ok x.
Proof.
  intros H. unfold np.getitem.
  rewrite norm_index_nonneg by (eapply lookup_lt_Some; eauto).
  simpl. by rewrite H.
Qed.

Lemma getitem_head {A : Type} (a : list A) (x : A) :
  head a = Some x -> np.getitem a 0 = Ok x.
Proof.
  destruct a as [|y a]; [discriminate |]. simpl. intros [= ->]. reflexivity.
Qed.

Lemma getitem_last {A : Type} (a : list A) (x : A) :
  last a = Some x -> np.getitem a (-1) = Ok x.
Proof.
  intros H. destruct a as [|y a]; [discriminate |].
  unfold np.getitem. cbn [length]. rewrite norm_index_minus_one. simpl.
  rewrite last_lookup in H. simpl in H. by rewrite H.
Qed.

Lemma norm_index_zero (i : Z) : np.norm_index 0 i = Raise IndexError.
Proof.
  unfold np.norm_index. change (Z.of_nat 0) with 0%Z. change (- 0)%Z with 0%Z.
  destruct (Z.leb_spec 0 i), (Z.ltb_spec i 0); cbn [andb]; try reflexivity; lia.
Qed.

Lemma getitem_nil {A : Type} (i : Z) : np.getitem (@nil A) i = Raise IndexError.
Proof. unfold np.getitem. cbn [length]. by rewrite norm_index_zero. Qed.

(** ** Clipping to the axis *)

Lemma but_last_head {A : Type} (a : list A) (x : A) :
  (2 <= length a)%nat -> head a = Some x -> head (np.but_last a) = Some x.
Proof.
  destruct a as [|y [|z a]]; simpl; try lia. intros _ [= ->]. reflexivity.
Qed.

Lemma clip_to_axis_body (tbins ev pr lts : list Q) (t_first t_end : Q) :
  (2 <= length tbins)%nat -> head tbins = Some t_first -> last tbins = Some t_end ->
  clip_to_axis tbins ev pr lts = Ok (clip_body t_first t_end t_first ev pr lts).
Proof.
  intros Hlen Hh Hl. unfold clip_to_axis.
  rewrite (getitem_head _ _ Hh). cbn [mbind result_bind rbind].
  rewrite (getitem_last _ _ Hl). cbn [mbind result_bind rbind].
  rewrite (getitem_head _ _ (but_last_head _ _ Hlen Hh)). reflexivity.
Qed.




Lemma app3_assoc x y z : app3 (app3 x y) z = app3 x (app3 y z).
Proof. unfold app3. simpl. by rewrite <- !app_assoc. Qed.

Lemma app3_nil_l x : app3 ([], [], []) x = x.
Proof. by destruct x as [[? ?] ?]. Qed.

Lemma clip_body_nil f l ts0 : clip_body f l ts0 [] [] [] = ([], [], []).
Proof. reflexivity. Qed.

Lemma clip_body_cons (f l ts0 e p s : Q) (ev pr lts : list Q) :
  clip_body f l ts0 (e :: ev) (p :: pr) (s :: lts)
  = app3 (clip_body f l ts0 [e] [p] [s]) (clip_body f l ts0 ev pr lts).
Proof.
  unfold clip_body, app3. cbn [map zip_with np.select].
  destruct (np.Qltb f e), (np.Qltb s l); cbn [andb np.select]; try reflexivity.
  cbn [map zip_with np.select np.assign np.assign_scalar].
  destruct (np.Qltb s ts0), (np.Qltb ts0 e);
    cbn [andb map zip_with np.select np.assign np.assign_scalar fst snd app];
    destruct (np.Qltb l e);
    try destruct (np.Qltb (f + eps) l);
    try destruct (np.Qltb s l);
    cbn [andb map zip_with np.select np.assign np.assign_scalar fst snd app];
    reflexivity.
Qed.

Lemma clip_body_app (f l ts0 : Q) (ev1 pr1 lts1 ev2 pr2 lts2 : list Q) :
  length ev1 = length pr1 -> length ev1 = length lts1 ->
  clip_body f l ts0 (ev1 ++ ev2) (pr1 ++ pr2) (lts1 ++ lts2)
  = app3 (clip_body f l ts0 ev1 pr1 lts1) (clip_body f l ts0 ev2 pr2 lts2).
Proof.
  revert pr1 lts1. induction ev1 as [|e ev1 IH]; intros pr1 lts1 H1 H2.
  - destruct pr1; [|discriminate]. destruct lts1; [|discriminate].
    rewrite clip_body_nil, app3_nil_l. reflexivity.
  - destruct pr1 as [|p pr1]; [discriminate|]. destruct lts1 as [|s lts1]; [discriminate|].
    injection H1 as H1. injection H2 as H2.
    change ((e :: ev1) ++ ev2) with (e :: (ev1 ++ ev2)).
    change ((p :: pr1) ++ pr2) with (p :: (pr1 ++ pr2)).
    change ((s :: lts1) ++ lts2) with (s :: (lts1 ++ lts2)).
    rewrite (clip_body_cons f l ts0 e p s (ev1 ++ ev2)).
    rewrite (IH pr1 lts1 H1 H2).
    rewrite (clip_body_cons f l ts0 e p s ev1).
    rewrite app3_assoc. reflexivity.
Qed.

Lemma clip_body_single (f l e p s : Q) :
  clip_body f l f [e] [p] [s]
  = if np.Qltb f e && np.Qltb s l then
      let s' := if np.Qltb s f then f + eps else s in
      let e' := if np.Qltb s' l && np.Qltb l e then l - eps else e in
      let p' := if np.Qltb s' l && np.Qltb l e then e' - s'
                else if np.Qltb s f then e - s' else p in
      ([e'], [p'], [s'])
    else ([], [], []).
Proof.
  unfold clip_body. cbn [map zip_with np.select].
  destruct (np.Qltb f e) eqn:E1, (np.Qltb s l) eqn:E2; cbn [andb np.select]; try reflexivity.
  cbn [map zip_with np.select np.assign np.assign_scalar]. rewrite E1.
  destruct (np.Qltb s f);
    cbn [andb map zip_with np.select np.assign np.assign_scalar];
    destruct (np.Qltb l e);
    try destruct (np.Qltb (f + eps) l);
    try rewrite E2;
    cbn [andb map zip_with np.select np.assign np.assign_scalar];
    reflexivity.
Qed.

Lemma clip_body_inside (f l : Q) (ev pr : list Q) :
  Forall2 (fun e p => f <= e - p /\ e - p < l /\ f < e /\ e <= l) ev pr ->
  clip_body f l f ev pr (zip_with Qminus ev pr) = (ev, pr, zip_with Qminus ev pr).
Proof.
  induction 1 as [|e p ev pr (H1 & H2 & H3 & H4) _ IH]; [reflexivity |].
  cbn [zip_with]. rewrite clip_body_cons, IH, clip_body_single. cbv zeta.
  apply Qltb_lt in H3 as ->. apply Qltb_lt in H2 as E2. rewrite E2.
  apply Qltb_ge in H1 as ->. apply Qltb_ge in H4 as ->.
  rewrite ?E2. reflexivity.
Qed.

Lemma getitem_last_inv {A : Type} (a : list A) (x : A) :
  np.getitem a (-1) = Ok x -> last a = Some x.
Proof.
  destruct a as [|y a]; [by rewrite getitem_nil |].
  unfold np.getitem. cbn [length]. rewrite norm_index_minus_one.
  cbn [mbind result_bind rbind]. rewrite last_lookup. cbn [length pred].
  destruct ((y :: a) !! length a); congruence.
Qed.

Lemma getitem_head_inv {A : Type} (a : list A) (x : A) :
  np.getitem a 0 = Ok x -> head a = Some x.
Proof.
  destruct a as [|y a]; [by rewrite getitem_nil |].
  unfold np.getitem. rewrite (norm_index_nonneg _ 0) by (cbn [length]; lia).
  cbn. congruence.
Qed.

Lemma bind_Ok_inv {A B : Type} (c : result A) (k : A -> result B) (b : B) :
  (x ← c; k x) = Ok b -> exists a, c = Ok a /\ k a = Ok b.
Proof. destruct c; cbn; [eauto | discriminate]. Qed.

Lemma broadcast2_nonempty {A B C : Type} (f : A -> B -> C) a b c :
  np.broadcast2 f a b = Ok c -> a <> [] -> b <> [] -> c <> [].
Proof.
  unfold np.broadcast2. destruct a as [|x a], b as [|y b]; try congruence.
  intros H _ _. destruct (length (x :: a) =? length (y :: b))%nat.
  - injection H as <-. discriminate.
  - destruct a, b; try discriminate; injection H as <-; discriminate.
Qed.

Lemma bin_edges_inv (times dt : list Q) (e0 : Q) (tbins : list Q) :
  bin_edges times dt e0 = Ok tbins ->
  exists lefts t_last dt_last,
    np.broadcast2 Qminus times (map (fun d => d / 2) dt) = Ok lefts
    /\ last times = Some t_last /\ last dt = Some dt_last /\ lefts <> []
    /\ tbins = map (fun x => x - e0) (lefts ++ [t_last + dt_last / 2]).
Proof.
  unfold bin_edges. intros H.
  apply bind_Ok_inv in H as (lefts & Hb & H).
  apply bind_Ok_inv in H as (tl & Htl & H).
  apply bind_Ok_inv in H as (dl & Hdl & H).
  injection H as <-. apply getitem_last_inv in Htl, Hdl.
  exists lefts, tl, dl. repeat split; try done.
  eapply broadcast2_nonempty; [exact Hb | |].
  - intros ->. discriminate.
  - intros E. apply map_eq_nil in E. subst. discriminate.
Qed.

Lemma bin_edges_shape (times dt : list Q) (e0 : Q) (tbins : list Q) :
  bin_edges times dt e0 = Ok tbins ->
  (2 <= length tbins)%nat /\ is_Some (head tbins) /\ is_Some (last tbins).
Proof.
  intros H. apply bin_edges_inv in H as (lefts & tl & dl & _ & _ & _ & Hne & ->).
  destruct lefts as [|x lefts]; [done |]. split; [|split].
  - rewrite length_map, length_app. simpl. lia.
  - simpl. eauto.
  - rewrite map_app. cbn [map]. rewrite last_snoc. eauto.
Qed.

Lemma get_livetime_per_bin_unfold (times events priors : list Q)
    (dt : option dt_value) (gti : option value) (e0 : Q) (dta : list Q) :
  length events = length priors ->
  head events = Some e0 ->
  broadcast_dt (_assign_value_if_none dt (Scalar (np.median (np.diff times)))) times
    = Some dta ->
  get_livetime_per_bin times events priors dt gti
  = (tbins ← bin_edges times dta e0;
     '(ev_fl, pr_fl, livetime_starts) ←
        clip_to_axis tbins (map (fun e => e - e0) events) priors
          (zip_with Qminus (map (fun e => e - e0) events) priors);
     accumulate (length times) tbins dta ev_fl pr_fl livetime_starts).
Proof.
  intros Hlen Hh Hdt. unfold get_livetime_per_bin.
  apply Nat.eqb_eq in Hlen as ->. cbn [py_assert mbind result_bind rbind].
  rewrite (getitem_head _ _ Hh). cbn [mbind result_bind rbind].
  rewrite Hdt. reflexivity.
Qed.

(** ** Bin edges *)

Lemma broadcast2_same_length {A B C : Type} (f : A -> B -> C) (a : list A) (b : list B) :
  length a = length b -> np.broadcast2 f a b = Ok (zip_with f a b).
Proof. intros H. unfold np.broadcast2. apply Nat.eqb_eq in H as ->. reflexivity. Qed.

Lemma bin_edges_same_length (times dt : list Q) (e0 t_last dt_last : Q) :
  length dt = length times -> last times = Some t_last -> last dt = Some dt_last ->
  bin_edges times dt e0
  = Ok (map (fun x => x - e0)
          (zip_with Qminus times (map (fun d => d / 2) dt) ++ [t_last + dt_last / 2])).
Proof.
  intros Hlen Ht Hd. unfold bin_edges.
  rewrite broadcast2_same_length by (by rewrite length_map).
  cbn [mbind result_bind rbind].
  rewrite (getitem_last _ _ Ht). cbn [mbind result_bind rbind].
  rewrite (getitem_last _ _ Hd). reflexivity.
Qed.

Lemma bin_edges_length (times dt : list Q) (e0 : Q) (tbins : list Q) :
  length dt = length times -> bin_edges times dt e0 = Ok tbins ->
  length tbins = S (length times).
Proof.
  intros Hlen H. apply bin_edges_inv in H as (lefts & tl & dl & Hb & _ & _ & _ & ->).
  rewrite broadcast2_same_length in Hb by (by rewrite length_map).
  injection Hb as <-.
  rewrite length_map, length_app, length_zip_with, length_map. cbn [length]. lia.
Qed.

Lemma bin_edges_lookup (times dt : list Q) (e0 : Q) (tbins : list Q) (i : nat) (t d : Q) :
  length dt = length times -> bin_edges times dt e0 = Ok tbins ->
  times !! i = Some t -> dt !! i = Some d ->
  tbins !! i = Some (t - d / 2 - e0).
Proof.
  intros Hlen H Ht Hd. apply bin_edges_inv in H as (lefts & tl & dl & Hb & _ & _ & _ & ->).
  rewrite broadcast2_same_length in Hb by (by rewrite length_map).
  injection Hb as <-.
  rewrite list_lookup_fmap, lookup_app_l.
  - rewrite lookup_zip_with, Ht. cbn. rewrite list_lookup_fmap, Hd. reflexivity.
  - rewrite length_zip_with, length_map. apply lookup_lt_Some in Ht, Hd. lia.
Qed.

Lemma bin_edges_lookup_last (times dt : list Q) (e0 : Q) (tbins : list Q) (t d : Q) :
  length dt = length times -> bin_edges times dt e0 = Ok tbins ->
  last times = Some t -> last dt = Some d ->
  tbins !! length times = Some (t + d / 2 - e0).
Proof.
  intros Hlen H Ht Hd. rewrite (bin_edges_same_length _ _ _ _ _ Hlen Ht Hd) in H.
  injection H as <-.
  rewrite list_lookup_fmap, lookup_app_r; rewrite length_zip_with, length_map.
  - replace (length times - length times `min` length dt)%nat with 0%nat by lia.
    reflexivity.
  - lia.
Qed.

Lemma monotone_lookup (b : list Q) (i : nat) (x y : Q) :
  np.monotone b = true -> b !! i = Some x -> b !! S i = Some y -> x <= y.
Proof.
  revert i. induction b as [|z b IH]; intros i Hm Hx Hy; [discriminate |].
  destruct b as [|z' b]; [destruct i; discriminate |].
  cbn [np.monotone] in Hm. apply andb_true_iff in Hm as [Hz Hm].
  destruct i as [|i].
  - cbn in Hx, Hy. injection Hx as <-. injection Hy as <-. by apply Qle_bool_iff.
  - apply (IH i Hm Hx Hy).
Qed.

(** ** Events outside of the light curve *)

Lemma clip_body_all_dropped (f l : Q) (ev pr lts : list Q) :
  length pr = length ev ->
  Forall2 (fun e s => e <= f \/ l <= s) ev lts ->
  clip_body f l f ev pr lts = ([], [], []).
Proof.
  intros Hlen H. revert pr Hlen.
  induction H as [|e s ev lts Hes _ IH]; intros pr Hlen.
  - destruct pr; [reflexivity | discriminate].
  - destruct pr as [|p pr]; [discriminate |]. injection Hlen as Hlen.
    rewrite clip_body_cons, (IH pr Hlen), clip_body_single.
    destruct Hes as [He | Hs].
    + apply Qltb_ge in He as ->. reflexivity.
    + apply Qltb_ge in Hs as ->. rewrite andb_false_r. reflexivity.
Qed.

Lemma iadd_raises_ValueError (a b : list Q) (e : exn) :
  np.iadd a b = Raise e -> e = ValueError.
Proof.
  unfold np.iadd. destruct (length a =? length b)%nat; [discriminate |].
  destruct b as [|y [|z b]]; congruence.
Qed.

Lemma accumulate_nil (n : nat) (tbins dt : list Q) :
  accumulate n tbins dt [] [] [] = Raise ValueError.
Proof.
  unfold accumulate. cbn [map zip_with np.select].
  unfold np.histogram. destruct (np.monotone tbins); [|reflexivity].
  cbn [mbind result_bind rbind]. rewrite same_bin_assert_vacuous.
  cbn [mbind result_bind rbind].
  destruct (np.iadd _ _) as [la | e] eqn:E; cbn [mbind result_bind rbind].
  - reflexivity.
  - by rewrite (iadd_raises_ValueError _ _ _ E).
Qed.

Lemma accumulate_not_monotone (n : nat) (tbins dt ev pr lts : list Q) :
  np.monotone tbins = false -> accumulate n tbins dt ev pr lts = Raise ValueError.
Proof. intros H. unfold accumulate, np.histogram. rewrite H. reflexivity. Qed.

(** C10: with no event at all the function fails on [events[0]]; when the
    range filter removes every event it fails with the ValueError of
    [np.max] on an empty array.  No array of zeros is returned. *)
Theorem no_event_in_range_raises (times events priors : list Q)
    (dt : option dt_value) (gti : option value) :
  (events = [] ->
   get_livetime_per_bin times events priors dt gti
   = Raise (match priors with [] => IndexError | _ => AssertionError end))
  /\ (forall (e0 : Q) (dta tbins : list Q) (t_first t_end : Q),
        length events = length priors ->
        head events = Some e0 ->
        broadcast_dt (_assign_value_if_none dt (Scalar (np.median (np.diff times)))) times
          = Some dta ->
        bin_edges times dta e0 = Ok tbins ->
        head tbins = Some t_first ->
        last tbins = Some t_end ->
        Forall2 (fun e p => e - e0 <= t_first \/ t_end <= e - e0 - p) events priors ->
        get_livetime_per_bin times events priors dt gti = Raise ValueError).
Proof.
  split.
  - intros ->. destruct priors; reflexivity.
  - intros e0 dta tbins t_first t_end Hlen Hh Hdt Hb Hf Hl Hout.
    rewrite (get_livetime_per_bin_unfold _ _ _ _ _ _ _ Hlen Hh Hdt), Hb.
    cbn [mbind result_bind rbind].
    destruct (bin_edges_shape _ _ _ _ Hb) as (H2 & _ & _).
    rewrite (clip_to_axis_body _ _ _ _ _ _ H2 Hf Hl).
    cbn [mbind result_bind rbind].
    rewrite clip_body_all_dropped; [apply accumulate_nil | by rewrite length_map |].
    clear -Hout. induction Hout as [|e p ev pr H _ IH]; cbn [map zip_with]; constructor; done.
Qed.

Lemma no_event_in_range_raises_witness :
  get_livetime_per_bin [1#2; 3#2; 5#2] [10; 11] [1; 2#5] (Some (Scalar (Some 1))) None
  = Raise ValueError.
Proof.
  eapply (proj2 (no_event_in_range_raises _ _ _ _ _)).
  - reflexivity.
  - reflexivity.
  - reflexivity.
  - vm_compute. reflexivity.
  - reflexivity.
  - reflexivity.
  - constructor; [right; vm_compute; discriminate |].
    constructor; [right; vm_compute; discriminate | constructor].
Defined.

(** ** What is checked and what is not *)

Lemma lookup_repeat {A : Type} (x : A) (n i : nat) :
  (i < n)%nat -> repeat x n !! i = Some x.
Proof.
  revert i. induction n as [|n IH]; intros i H; [lia |].
  destruct i as [|i]; [reflexivity |]. cbn. apply IH. lia.
Qed.

Lemma broadcast_dt_scalar (d : Q) (times : list Q) (dta : list Q) :
  broadcast_dt (Scalar (Some d)) times = Some dta ->
  length dta = length times /\ forall i x, dta !! i = Some x -> x = d + 0.
Proof.
  intros [= <-]. split.
  - by rewrite length_map, repeat_length.
  - intros i x H. rewrite list_lookup_fmap in H.
    destruct (repeat 0 (length times) !! i) as [z|] eqn:E; [|discriminate].
    injection H as <-. f_equal.
    assert (Hi : (i < length times)%nat).
    { apply lookup_lt_Some in E. by rewrite repeat_length in E. }
    rewrite (lookup_repeat _ _ _ Hi) in E. congruence.
Qed.

Lemma last_is_Some {A : Type} (l : list A) (i : nat) (x : A) :
  l !! i = Some x -> is_Some (last l).
Proof.
  intros H. destruct l as [|y l]; [discriminate |].
  rewrite last_lookup. apply lookup_lt_is_Some. cbn. lia.
Qed.

Lemma descent_rejected (times events priors : list Q) (d : option Q)
    (dt : option dt_value) (gti : option value) (i : nat) (x y : Q) :
  _assign_value_if_none dt (Scalar (np.median (np.diff times))) = Scalar d ->
  times !! i = Some x -> times !! S i = Some y -> y < x ->
  exists e, get_livetime_per_bin times events priors dt gti = Raise e.
Proof.
  intros Hdt Hx Hy Hlt.
  destruct (decide (length events = length priors)) as [Hlen | Hlen].
  2: { exists AssertionError. unfold get_livetime_per_bin.
       apply Nat.eqb_neq in Hlen as ->. reflexivity. }
  destruct events as [|e0 events].
  { exists IndexError. unfold get_livetime_per_bin. rewrite <- Hlen. reflexivity. }
  destruct d as [d|].
  2: { unfold get_livetime_per_bin. apply Nat.eqb_eq in Hlen as ->.
       rewrite Hdt. cbn [py_assert mbind result_bind rbind broadcast_dt].
       rewrite (getitem_head (e0 :: events) e0 eq_refl).
       cbn [mbind result_bind rbind].
       destruct (np.getitem times (-1)); cbn [mbind result_bind rbind]; eauto. }
  destruct (broadcast_dt (Scalar (Some d)) times) as [dta|] eqn:Hb; [|discriminate].
  destruct (broadcast_dt_scalar _ _ _ Hb) as [Hl Hd].
  rewrite (get_livetime_per_bin_unfold _ _ _ _ _ e0 dta Hlen eq_refl)
    by (by rewrite Hdt).
  destruct (last_is_Some _ _ _ Hx) as [tl Htl].
  destruct (lookup_lt_is_Some_2 dta i) as [di Hdi].
  { rewrite Hl. by eapply lookup_lt_Some. }
  destruct (lookup_lt_is_Some_2 dta (S i)) as [dj Hdj].
  { rewrite Hl. by eapply lookup_lt_Some. }
  destruct (last_is_Some _ _ _ Hdi) as [dl Hdl].
  pose proof (bin_edges_same_length times dta e0 tl dl Hl Htl Hdl) as Hbe.
  rewrite Hbe. cbn [mbind result_bind rbind].
  set (tbins := map _ _) in *.
  destruct (bin_edges_shape _ _ _ _ Hbe) as (H2 & [tf Hf] & [te He]).
  rewrite (clip_to_axis_body _ _ _ _ _ _ H2 Hf He).
  cbn [mbind result_bind rbind].
  destruct (clip_body _ _ _ _ _ _) as [[ev pr] lts].
  exists ValueError. apply accumulate_not_monotone.
  apply not_true_is_false. intros Hm.
  pose proof (bin_edges_lookup _ _ _ _ _ _ _ Hl Hbe Hx Hdi) as Hi.
  pose proof (bin_edges_lookup _ _ _ _ _ _ _ Hl Hbe Hy Hdj) as Hj.
  pose proof (monotone_lookup _ _ _ _ Hm Hi Hj) as Hle.
  rewrite (Hd _ _ Hdi), (Hd _ _ Hdj) in Hle. lra.
Qed.

(** C5, as the code has it: the one precondition that is checked up front is
    [len(events) == len(priors)].  A times axis with a descent is not
    checked by the function itself; with a scalar or omitted [dt] it is
    still refused, later, by the bin-edge check of the histogram.  The sign
    of the priors is not checked up front. *)
Theorem only_lengths_checked_up_front (times events priors : list Q)
    (dt : option dt_value) (gti : option value) :
  (length events <> length priors ->
   get_livetime_per_bin times events priors dt gti = Raise AssertionError)
  /\ (forall (d : option Q) (i : nat) (x y : Q),
        _assign_value_if_none dt (Scalar (np.median (np.diff times))) = Scalar d ->
        times !! i = Some x -> times !! S i = Some y -> y < x ->
        exists e, get_livetime_per_bin times events priors dt gti = Raise e).
Proof.
  split.
  - intros H. unfold get_livetime_per_bin. apply Nat.eqb_neq in H as ->. reflexivity.
  - intros d i x y. apply descent_rejected.
Qed.

Lemma only_lengths_checked_up_front_witness :
  get_livetime_per_bin [1#2] [1; 2] [1#10] None None = Raise AssertionError
  /\ exists e, get_livetime_per_bin [5#2; 3#2; 1#2] [1] [1#10] (Some (Scalar (Some 1))) None
               = Raise e.
Proof.
  split.
  - apply (proj1 (only_lengths_checked_up_front _ _ _ _ _)). cbn. lia.
  - apply (proj2 (only_lengths_checked_up_front _ _ _ _ _) (Some 1) 0%nat (5#2) (3#2));
      [reflexivity | reflexivity | reflexivity | reflexivity].
Defined.

(** Against C5 as stated: neither the sign of the priors nor the order of
    [times] is checked.  A negative prior next to a larger positive one in the
    same bin lowers the livetime of that bin, which stays non-negative: the
    histogram of the same-bin events has no negative entry, so the input is
    accepted whatever the check on the histogram is.  With a per-bin [dt]
    array a descending times axis goes through. *)
Lemma negative_prior_and_unsorted_times_accepted :
  (exists arr tbins ev pr lts expo,
      get_livetime_per_bin [1#2; 3#2; 5#2] [1#2; 6#10] [3#10; -1#20]
        (Some (Scalar (Some 1))) None = Ok arr
      /\ arrays_eq arr [1#4; 0; 0]
      /\ Exists (fun p => p < 0) [3#10; -1#20]
      /\ bin_edges [1#2; 3#2; 5#2] [1 + 0; 1 + 0; 1 + 0] (1#2) = Ok tbins
      /\ clip_to_axis tbins (map (fun e => e - (1#2)) [1#2; 6#10]) [3#10; -1#20]
           (zip_with Qminus (map (fun e => e - (1#2)) [1#2; 6#10]) [3#10; -1#20])
         = Ok (ev, pr, lts)
      /\ (let first_pass :=
             zip_with Z.eqb (map (bin_of (np.but_last tbins)) ev)
                            (map (bin_of (np.but_last tbins)) lts) in
           np.histogram (np.select first_pass ev) tbins (np.select first_pass pr) = Ok expo)
      /\ np.all_nonneg expo = true)
  /\ (exists arr,
        get_livetime_per_bin [1; 9#10] [1] [1#10] (Some (Array [1; 2#10])) None = Ok arr
        /\ arrays_eq arr [0; 1#10]).
Proof.
  split.
  - do 6 eexists.
    split; [vm_compute; reflexivity |].
    split; [repeat constructor; reflexivity |].
    split; [right; left; reflexivity |].
    split; [vm_compute; reflexivity |].
    split; [vm_compute; reflexivity |].
    split; [vm_compute; reflexivity | reflexivity].
  - eexists. split; [vm_compute; reflexivity | repeat constructor; reflexivity].
Qed.

(** C4 at the failing input: the event lies half a nanosecond after the first
    edge, the clamped prior is negative, it is binned on the same-bin path,
    and the function returns it: no assertion fires. *)
Theorem negative_same_bin_contribution_returned :
  exists arr,
    get_livetime_per_bin [1#2] [1#2000000000] [1] (Some (Scalar (Some 1))) None = Ok arr
    /\ arrays_eq arr [-1#2000000000]
    /\ Exists (fun x => x < 0) arr.
Proof.
  eexists. split; [vm_compute; reflexivity |].
  split; [repeat constructor; reflexivity | constructor; reflexivity].
Qed.

(** ** Boundary handling *)

Lemma clip_body_dropped_middle (f l : Q) (g : Q -> Q) (ev1 ev2 pr1 pr2 : list Q) (e p : Q) :
  length ev1 = length pr1 ->
  g e <= f \/ l <= g e - p ->
  clip_body f l f (map g (ev1 ++ e :: ev2)) (pr1 ++ p :: pr2)
    (zip_with Qminus (map g (ev1 ++ e :: ev2)) (pr1 ++ p :: pr2))
  = clip_body f l f (map g (ev1 ++ ev2)) (pr1 ++ pr2)
      (zip_with Qminus (map g (ev1 ++ ev2)) (pr1 ++ pr2)).
Proof.
  intros Hlen Hout.
  assert (Hl1 : length (map g ev1) = length pr1) by (by rewrite length_map).
  rewrite !map_app. cbn [map].
  rewrite (zip_with_app Qminus (map g ev1) (g e :: map g ev2) pr1 (p :: pr2) Hl1).
  rewrite (zip_with_app Qminus (map g ev1) (map g ev2) pr1 pr2 Hl1).
  cbn [zip_with].
  rewrite !clip_body_app by (by rewrite ?length_zip_with, ?Hl1, ?Nat.min_id).
  f_equal.
  rewrite clip_body_cons, clip_body_single.
  destruct Hout as [He | Hs].
  - apply Qltb_ge in He as ->. cbn [andb]. apply app3_nil_l.
  - apply Qltb_ge in Hs as ->. rewrite andb_false_r. apply app3_nil_l.
Qed.

(** ** Bin geometry *)

(** ** Differences, sorting and the median *)

Lemma diff_length (a : list Q) : length (np.diff a) = (length a - 1)%nat.
Proof.
  induction a as [|x [|y a] IH]; [reflexivity | reflexivity |].
  cbn [np.diff length] in *. lia.
Qed.

Lemma diff_nth (a : list Q) (i : nat) :
  (S i < length a)%nat -> nth i (np.diff a) 0 = nth (S i) a 0 - nth i a 0.
Proof.
  revert i. induction a as [|x [|y a] IH]; intros i Hi; cbn [length] in Hi; try lia.
  destruct i as [|i]; [reflexivity |].
  cbn [np.diff]. cbn [nth]. rewrite IH by (cbn [length]; lia). reflexivity.
Qed.

Lemma insert_sorted_perm (x : Q) (l : list Q) : Permutation (np.insert_sorted x l) (x :: l).
Proof.
  induction l as [|y l IH]; [reflexivity |].
  cbn [np.insert_sorted]. destruct (Qle_bool x y); [reflexivity |].
  rewrite IH. apply perm_swap.
Qed.

Lemma sort_perm (l : list Q) : Permutation (np.sort l) l.
Proof.
  induction l as [|x l IH]; [reflexivity |].
  unfold np.sort in *. cbn [foldr]. rewrite insert_sorted_perm. by constructor.
Qed.

Lemma insert_sorted_sorted (x : Q) (l : list Q) :
  StronglySorted Qle l -> StronglySorted Qle (np.insert_sorted x l).
Proof.
  induction 1 as [|y l Hs IH Hy]; [repeat constructor |].
  cbn [np.insert_sorted]. destruct (Qle_bool x y) eqn:E.
  - apply Qle_bool_iff in E. constructor; [by constructor |].
    constructor; [exact E |].
    eapply List.Forall_impl; [|exact Hy]. intros z Hz. cbv beta in Hz. lra.
  - apply Qle_bool_gt in E. constructor; [exact IH |].
    eapply Permutation_Forall; [symmetry; apply insert_sorted_perm |].
    constructor; [lra | exact Hy].
Qed.

Lemma sort_sorted (l : list Q) : StronglySorted Qle (np.sort l).
Proof.
  induction l as [|x l IH]; [constructor |].
  unfold np.sort in *. cbn [foldr]. by apply insert_sorted_sorted.
Qed.

Lemma sorted_nth (s : list Q) :
  StronglySorted Qle s ->
  forall i j, (i <= j < length s)%nat -> nth i s 0 <= nth j s 0.
Proof.
  induction 1 as [|x s Hs IH Hx]; intros i j Hij; [cbn in Hij; lia |].
  destruct j as [|j].
  - replace i with 0%nat by lia. cbn. lra.
  - destruct i as [|i].
    + cbn [nth]. rewrite List.Forall_forall in Hx. apply Hx, nth_In. cbn in Hij. lia.
    + cbn [nth]. apply IH. cbn in Hij. lia.
Qed.

(** The median is the middle element of the sorted array, or the mean of
    the two middle ones. *)
Lemma median_spec (a : list Q) :
  a <> [] ->
  exists s m,
    Permutation s a
    /\ (forall i j, (i <= j < length s)%nat -> nth i s 0 <= nth j s 0)
    /\ np.median a = Some m
    /\ m = if Nat.even (length a)
           then (nth (length a / 2 - 1) s 0 + nth (length a / 2) s 0) / 2
           else nth (length a / 2) s 0.
Proof.
  intros Hne. unfold np.median.
  destruct (length a =? 0)%nat eqn:E.
  { apply Nat.eqb_eq in E. destruct a; [done | discriminate]. }
  exists (np.sort a). destruct (Nat.even (length a)); eexists;
    (split; [apply sort_perm |]; split; [apply sorted_nth, sort_sorted |];
     split; reflexivity).
Qed.

Lemma median_nil : np.median [] = None.
Proof. reflexivity. Qed.

(** The median of equal numbers is that number. *)
Lemma median_uniform (a : list Q) (d : Q) :
  a <> [] -> Forall (fun x => x == d) a ->
  exists m, np.median a = Some m /\ m == d.
Proof.
  intros Hne Hd.
  destruct (median_spec a Hne) as (s & m & Hp & _ & Hm & ->).
  exists (if Nat.even (length a)
          then (nth (length a / 2 - 1) s 0 + nth (length a / 2) s 0) / 2
          else nth (length a / 2) s 0).
  split; [exact Hm |].
  assert (Hs : forall k, (k < length a)%nat -> nth k s 0 == d).
  { intros k Hk.
    assert (HF : List.Forall (fun x => x == d) s)
      by (eapply Permutation_Forall; [symmetry; exact Hp | exact Hd]).
    rewrite List.Forall_forall in HF. apply HF, nth_In.
    by rewrite (Permutation_length Hp). }
  assert (Hpos : (0 < length a)%nat) by (destruct a; [done | cbn; lia]).
  assert (H2 : (length a / 2 < length a)%nat) by (apply Nat.div_lt; lia).
  destruct (Nat.even (length a)).
  - rewrite (Hs (length a / 2 - 1)%nat) by lia. rewrite (Hs _ H2). field.
  - apply Hs, H2.
Qed.

(** C7: an omitted [dt] is the median of the differences of [times], that is,
    the middle element of the sorted differences [times[i+1] - times[i]] (the
    mean of the two middle ones when their number is even), which is the
    spacing of a uniformly spaced axis and [nan] when there is no difference;
    a scalar [dt] becomes an array of the length of [times]; the edges are
    [times[i] - dt[i]/2] followed by [times[-1] + dt[-1]/2]; and the edges and
    the events are taken relative to [events[0]], which becomes time zero. *)
Theorem bin_geometry (times events priors : list Q) (gti : option value) :
  (get_livetime_per_bin times events priors None gti
   = get_livetime_per_bin times events priors
       (Some (Scalar (np.median (np.diff times)))) gti
   /\ length (np.diff times) = (length times - 1)%nat
   /\ (forall i, (S i < length times)%nat ->
                 nth i (np.diff times) 0 = nth (S i) times 0 - nth i times 0)
   /\ ((length times <= 1)%nat -> np.median (np.diff times) = None)
   /\ ((2 <= length times)%nat ->
       exists s m,
         Permutation s (np.diff times)
         /\ (forall i j, (i <= j < length s)%nat -> nth i s 0 <= nth j s 0)
         /\ np.median (np.diff times) = Some m
         /\ m = if Nat.even (length times - 1)
                then (nth ((length times - 1) / 2 - 1) s 0
                      + nth ((length times - 1) / 2) s 0) / 2
                else nth ((length times - 1) / 2) s 0)
   /\ (forall d, (2 <= length times)%nat ->
                 (forall i, (S i < length times)%nat ->
                            nth (S i) times 0 - nth i times 0 == d) ->
                 exists m, np.median (np.diff times) = Some m /\ m == d))
  /\ (forall (d : Q) (dta : list Q),
        broadcast_dt (Scalar (Some d)) times = Some dta ->
        length dta = length times /\ Forall (fun x => x == d) dta)
  /\ (forall (dta : list Q) (e0 : Q),
        length dta = length times -> times <> [] ->
        exists tbins,
          bin_edges times dta e0 = Ok tbins
          /\ length tbins = S (length times)
          /\ (forall i t d, times !! i = Some t -> dta !! i = Some d ->
                            tbins !! i = Some (t - d / 2 - e0))
          /\ (forall t d, last times = Some t -> last dta = Some d ->
                          tbins !! length times = Some (t + d / 2 - e0)))
  /\ (forall (dt : option dt_value) (e0 : Q) (dta : list Q),
        length events = length priors ->
        head events = Some e0 ->
        broadcast_dt (_assign_value_if_none dt (Scalar (np.median (np.diff times)))) times
          = Some dta ->
        get_livetime_per_bin times events priors dt gti
        = (tbins ← bin_edges times dta e0;
           '(ev_fl, pr_fl, livetime_starts) ←
              clip_to_axis tbins (map (fun e => e - e0) events) priors
                (zip_with Qminus (map (fun e => e - e0) events) priors);
           accumulate (length times) tbins dta ev_fl pr_fl livetime_starts)
        /\ exists z, map (fun e => e - e0) events !! 0%nat = Some z /\ z == 0).
Proof.
  split; [|split; [|split]].
  - split; [reflexivity |]. split; [apply diff_length |]. split; [apply diff_nth |].
    assert (Hdne : (2 <= length times)%nat -> np.diff times <> []).
    { intros H2 E. pose proof (diff_length times) as Hl. rewrite E in Hl. cbn in Hl. lia. }
    split; [|split].
    + intros H1. destruct times as [|x [|y times]]; [reflexivity | reflexivity |].
      cbn in H1. lia.
    + intros H2. destruct (median_spec (np.diff times) (Hdne H2)) as (s & m & H).
      rewrite diff_length in H. by exists s, m.
    + intros d H2 Hu. apply median_uniform; [by apply Hdne |].
      apply List.Forall_forall. intros x Hx.
      apply (In_nth _ _ 0) in Hx as (i & Hi & <-). rewrite diff_length in Hi.
      rewrite diff_nth by lia. apply Hu. lia.
  - intros d dta H. destruct (broadcast_dt_scalar _ _ _ H) as [Hl Hd].
    split; [exact Hl |]. apply Forall_lookup_2. intros i x Hx.
    rewrite (Hd _ _ Hx). lra.
  - intros dta e0 Hl Hne.
    destruct (last times) as [tl|] eqn:Htl.
    2: { apply last_None in Htl. contradiction. }
    destruct (last dta) as [dl|] eqn:Hdl.
    2: { apply last_None in Hdl. subst dta. destruct times; [contradiction | discriminate]. }
    pose proof (bin_edges_same_length times dta e0 tl dl Hl Htl Hdl) as Hb.
    eexists. split; [exact Hb |]. split; [|split].
    + by apply (bin_edges_length _ _ _ _ Hl Hb).
    + intros i t d. by apply bin_edges_lookup.
    + intros t d [= <-] [= <-]. by apply (bin_edges_lookup_last times dta).
  - intros dt e0 dta Hlen Hh Hdt. split.
    + by apply get_livetime_per_bin_unfold.
    + destruct events as [|e events]; [discriminate |]. injection Hh as ->.
      exists (e0 - e0). split; [reflexivity | lra].
Qed.

Lemma bin_geometry_witness :
  exists m dta tbins,
    np.median (np.diff [1#2; 3#2; 5#2]) = Some m /\ m == 1
    /\ broadcast_dt (Scalar (Some m)) [1#2; 3#2; 5#2] = Some dta
    /\ length dta = 3%nat
    /\ bin_edges [1#2; 3#2; 5#2] dta (22#10) = Ok tbins
    /\ length tbins = 4%nat
    /\ tbins !! 3%nat = Some ((5#2) + nth 2 dta 0 / 2 - (22#10)).
Proof.
  destruct (bin_geometry [1#2; 3#2; 5#2] [22#10] [3#2] None)
    as ((_ & _ & _ & _ & _ & H1) & H2 & H3 & _).
  destruct (H1 1) as (m & Hm & Hm1).
  { cbn. lia. }
  { intros [|[|i]] Hi; cbn in Hi; try lia; reflexivity. }
  destruct (broadcast_dt (Scalar (Some m)) [1#2; 3#2; 5#2]) as [dta|] eqn:Hdt;
    [|discriminate].
  destruct (H2 m dta Hdt) as [Hl _].
  destruct (H3 dta (22#10) Hl ltac:(discriminate)) as (tb & Hb & Hlt & _ & Hlast).
  exists m, dta, tb.
  split; [exact Hm |]. split; [exact Hm1 |]. split; [exact Hdt |]. split; [exact Hl |].
  split; [exact Hb |]. split; [exact Hlt |].
  apply Hlast; [reflexivity |].
  clear -Hl. destruct dta as [|a [|b [|c [|x dta]]]]; cbn in Hl; try lia. reflexivity.
Defined.

(** ** The exposure correction *)

Lemma assign_scalar_length {A : Type} (m : list bool) (a : list A) (v : A) :
  length (np.assign_scalar m a v) = length a.
Proof.
  revert a. induction m as [|b m IH]; intros [|x a]; cbn; try reflexivity.
  by rewrite IH.
Qed.

Lemma assign_scalar_lookup {A : Type} (m : list bool) (a : list A) (v : A)
    (i : nat) (b : bool) (x : A) :
  m !! i = Some b -> a !! i = Some x ->
  np.assign_scalar m a v !! i = Some (if b then v else x).
Proof.
  revert a i. induction m as [|b' m IH]; intros [|x' a] [|i] Hm Ha; try discriminate.
  - cbn in Hm, Ha. injection Hm as ->. injection Ha as ->. reflexivity.
  - cbn in Hm, Ha. cbn. by apply IH.
Qed.

Lemma times_dt_lookup (r : list (option Q)) (dt : dt_value) (out : list (option Q))
    (i : nat) (x : option Q) (d : Q) :
  times_dt r dt = Ok out ->
  match dt with Array a => length a = length r | Scalar _ => True end ->
  r !! i = Some x -> dt_at dt i = Some d ->
  length out = length r /\ out !! i = Some (fmul x d).
Proof.
  intros H Hshape Hr Hd. destruct dt as [[q|] | a]; cbn in *; try discriminate.
  - injection H as <-. injection Hd as ->. rewrite length_map, list_lookup_fmap, Hr.
    done.
  - rewrite broadcast2_same_length in H by done. injection H as <-.
    rewrite length_zip_with, lookup_zip_with, Hr, Hd. cbn. split; [lia | done].
Qed.

(** C8: bin by bin, the corrected rate is zero where the exposure is below the
    limit and [lc / expo * dt] elsewhere; apart from the new "lc" and the
    added "expo", the output dictionary is the input dictionary. *)
Theorem exposure_correction (contents : gmap string value)
    (uf_events uf_priors : list Q) (expo_limit : Q) (outdata : gmap string value) :
  correct_lightcurve contents uf_events uf_priors expo_limit = Ok outdata ->
  exists (time lc expo : list Q) (dt : dt_value) (gti : value) (newlc : list (option Q)),
    contents !! "time" = Some (VArray time)
    /\ contents !! "lc" = Some (VArray lc)
    /\ (exists v, contents !! "dt" = Some v /\ as_dt v = Ok dt)
    /\ contents !! "GTI" = Some gti
    /\ get_exposure_from_uf time uf_events uf_priors (Some dt) (Some gti) = Ok expo
    /\ outdata !! "lc" = Some (VRates newlc)
    /\ outdata !! "expo" = Some (VArray expo)
    /\ (forall k, k <> "lc" -> k <> "expo" -> outdata !! k = contents !! k)
    /\ (length lc = length expo ->
        match dt with Array a => length a = length lc | Scalar _ => True end ->
        length newlc = length lc
        /\ forall i l x d,
             lc !! i = Some l -> expo !! i = Some x -> dt_at dt i = Some d ->
             newlc !! i
             = Some (if np.Qltb x expo_limit then Some 0
                     else if Qeq_bool x 0 then None else Some (l / x * d))).
Proof.
  unfold correct_lightcurve. intros H.
  apply bind_Ok_inv in H as (time_v & Htime & H).
  apply bind_Ok_inv in H as (lc_v & Hlc & H).
  apply bind_Ok_inv in H as (dt_v & Hdt & H).
  apply bind_Ok_inv in H as (gti & Hgti & H).
  apply bind_Ok_inv in H as (time & Htime' & H).
  apply bind_Ok_inv in H as (dt & Hdt' & H).
  apply bind_Ok_inv in H as (expo & Hexpo & H).
  apply bind_Ok_inv in H as (lc & Hlc' & H).
  apply bind_Ok_inv in H as (ratio & Hratio & H).
  apply bind_Ok_inv in H as (newlc0 & Hnew0 & H).
  apply bind_Ok_inv in H as (newlc & Hnew & H).
  injection H as <-.
  unfold get_key in Htime, Hlc, Hdt, Hgti.
  destruct (contents !! "time") as [tv|] eqn:Et; [|discriminate]. injection Htime as ->.
  destruct (contents !! "lc") as [lv|] eqn:El; [|discriminate]. injection Hlc as ->.
  destruct (contents !! "dt") as [dv|] eqn:Ed; [|discriminate]. injection Hdt as ->.
  destruct (contents !! "GTI") as [gv|] eqn:Eg; [|discriminate]. injection Hgti as ->.
  destruct time_v; try discriminate. injection Htime' as ->.
  destruct lc_v; try discriminate. injection Hlc' as ->.
  exists time, lc, expo, dt, gti, newlc.
  split; [done |]. split; [done |]. split; [by exists dt_v |]. split; [done |].
  split; [done |]. split; [by rewrite lookup_insert_ne, lookup_insert_eq |].
  split; [by rewrite lookup_insert_eq |].
  split; [intros k H1 H2; by rewrite !lookup_insert_ne |].
  intros Hlen Hshape.
  rewrite broadcast2_same_length in Hratio by done. injection Hratio as <-.
  unfold mask_assign_scalar in Hnew.
  destruct (length (map _ expo) =? length newlc0)%nat eqn:E; [|discriminate].
  injection Hnew as <-. apply Nat.eqb_eq in E. rewrite length_map in E.
  split; [rewrite assign_scalar_length; lia |].
  intros i l x d Hl Hx Hd.
  assert (Hr : zip_with fdiv lc expo !! i = Some (fdiv l x)).
  { by rewrite lookup_zip_with, Hl; cbn; rewrite Hx. }
  assert (Hshape' : match dt with
                    | Array a => length a = length (zip_with fdiv lc expo)
                    | Scalar _ => True end).
  { destruct dt; [done |]. rewrite length_zip_with. lia. }
  destruct (times_dt_lookup _ _ _ _ _ _ Hnew0 Hshape' Hr Hd) as [_ Hn].
  replace (if Qeq_bool x 0 then None else Some (l / x * d)) with (fmul (fdiv l x) d)
    by (unfold fdiv; destruct (Qeq_bool x 0); reflexivity).
  apply assign_scalar_lookup; [|done].
  by rewrite list_lookup_fmap, Hx.
Qed.

Lemma exposure_correction_witness :
  exists outdata newlc r,
    correct_lightcurve
      (<["time" := VArray [1; 3; 5]]> (<["lc" := VArray [10; 20; 30]]>
         (<["dt" := VFloat 2]> (<["GTI" := VGti [(0, 3)]]> ∅))))
      [44#10] [3] (1#10000000) = Ok outdata
    /\ outdata !! "lc" = Some (VRates newlc)
    /\ newlc !! 0%nat = Some (Some r) /\ r == 10 / (6#10) * 2.
Proof.
  assert (exists o,
             correct_lightcurve
               (<["time" := VArray [1; 3; 5]]> (<["lc" := VArray [10; 20; 30]]>
                  (<["dt" := VFloat 2]> (<["GTI" := VGti [(0, 3)]]> ∅))))
               [44#10] [3] (1#10000000) = Ok o) as [o Ho].
  { vm_compute. eexists. reflexivity. }
  destruct (exposure_correction _ _ _ _ _ Ho)
    as (time & lc & expo & dt & gti & newlc & Ht & Hl & (v & Hv & Hdt) & Hg & He & Hn
        & _ & _ & Hrate).
  vm_compute in Ht. injection Ht as <-. vm_compute in Hl. injection Hl as <-.
  vm_compute in Hv. injection Hv as <-. injection Hdt as <-.
  vm_compute in Hg. injection Hg as <-.
  vm_compute in He. injection He as <-.
  destruct (Hrate eq_refl I) as [_ Hi].
  specialize (Hi 0%nat _ _ _ eq_refl eq_refl eq_refl).
  eexists o, newlc, _. split; [exact Ho |]. split; [exact Hn |].
  split; [rewrite Hi; vm_compute; reflexivity | vm_compute; reflexivity].
Defined.

(** ** Sums and sorted edges *)

Lemma sum_cons (x : Q) (l : list Q) : np.sum (x :: l) = x + np.sum l.
Proof. reflexivity. Qed.

Lemma sum_insert (l : list Q) (i : nat) (x y : Q) :
  l !! i = Some x -> np.sum (<[i:=y]> l) == np.sum l - x + y.
Proof.
  revert i. induction l as [|z l IH]; intros [|i] H; try discriminate.
  - injection H as ->. change (<[0%nat:=y]> (x :: l)) with (y :: l).
    rewrite !sum_cons. lra.
  - change (<[S i:=y]> (z :: l)) with (z :: <[i:=y]> l).
    rewrite !sum_cons, (IH i H). lra.
Qed.

Lemma sum_zip_zero (n : nat) (b : list Q) :
  length b = n -> np.sum (zip_with Qplus (repeat 0 n) b) == np.sum b.
Proof.
  revert b. induction n as [|n IH]; intros [|y b] H; try discriminate; [reflexivity |].
  cbn [repeat zip_with]. rewrite !sum_cons, IH by (by injection H). lra.
Qed.

Lemma searchsorted_right_range (a : list Q) (v : Q) :
  (0 <= np.searchsorted_right a v <= Z.of_nat (length a))%Z.
Proof.
  induction a as [|x a IH]; cbn [np.searchsorted_right length]; [lia |].
  destruct (Qle_bool x v); lia.
Qed.

Lemma searchsorted_right_below (a : list Q) (v : Q) (i : nat) :
  (Z.of_nat i < np.searchsorted_right a v)%Z -> nth i a 0 <= v.
Proof.
  revert i. induction a as [|x a IH]; intros i H; cbn [np.searchsorted_right] in H; [lia |].
  destruct (Qle_bool x v) eqn:E; [|lia].
  destruct i as [|i]; cbn [nth].
  - by apply Qle_bool_iff.
  - apply IH. lia.
Qed.

Lemma searchsorted_right_above (a : list Q) (v : Q) :
  (np.searchsorted_right a v < Z.of_nat (length a))%Z ->
  v < nth (Z.to_nat (np.searchsorted_right a v)) a 0.
Proof.
  induction a as [|x a IH]; cbn [np.searchsorted_right length]; [lia |].
  destruct (Qle_bool x v) eqn:E.
  - intros H. pose proof (searchsorted_right_range a v).
    replace (Z.to_nat (1 + np.searchsorted_right a v))
      with (S (Z.to_nat (np.searchsorted_right a v))) by lia.
    cbn [nth]. apply IH. lia.
  - intros _. cbn. by apply Qle_bool_gt.
Qed.

Lemma searchsorted_right_mono (a : list Q) (v w : Q) :
  v <= w -> (np.searchsorted_right a v <= np.searchsorted_right a w)%Z.
Proof.
  intros H. induction a as [|x a IH]; cbn [np.searchsorted_right]; [lia |].
  destruct (Qle_bool x v) eqn:E1.
  - apply Qle_bool_iff in E1.
    assert (E2 : Qle_bool x w = true) by (apply Qle_bool_iff; lra).
    rewrite E2. lia.
  - pose proof (searchsorted_right_range a w). destruct (Qle_bool x w); lia.
Qed.

Lemma searchsorted_right_pos (a : list Q) (v : Q) :
  a <> [] -> nth 0 a 0 <= v -> (1 <= np.searchsorted_right a v)%Z.
Proof.
  destruct a as [|x a]; [done |]. intros _ H. cbn in H.
  cbn [np.searchsorted_right]. apply Qle_bool_iff in H as ->.
  pose proof (searchsorted_right_range a v). lia.
Qed.

(** The index is determined by what lies below it and by its own entry. *)
Lemma searchsorted_right_unique (a : list Q) (v : Q) (k : nat) :
  (k <= length a)%nat ->
  (forall i, (i < k)%nat -> nth i a 0 <= v) ->
  ((k < length a)%nat -> v < nth k a 0) ->
  np.searchsorted_right a v = Z.of_nat k.
Proof.
  intros Hk Hlo Hhi.
  pose proof (searchsorted_right_range a v) as Hr.
  destruct (Z.lt_trichotomy (np.searchsorted_right a v) (Z.of_nat k)) as [H | [H | H]];
    [exfalso | done | exfalso].
  - assert (Hlt : (np.searchsorted_right a v < Z.of_nat (length a))%Z) by lia.
    pose proof (searchsorted_right_above a v Hlt) as Ha.
    specialize (Hlo (Z.to_nat (np.searchsorted_right a v)) ltac:(lia)). lra.
  - assert (Hk' : (k < length a)%nat) by lia.
    pose proof (searchsorted_right_below a v k H) as Hb.
    specialize (Hhi Hk'). lra.
Qed.

(** ** Contiguous axes *)

Lemma edge_le (tbins dt : list Q) (i j : nat) :
  contiguous_axis tbins dt -> (i <= j)%nat -> (j <= length dt)%nat ->
  edge tbins i <= edge tbins j.
Proof.
  intros [_ H] Hij Hj. induction Hij as [|j Hij IH]; [lra |].
  specialize (IH ltac:(lia)). destruct (H j ltac:(lia)) as [Hlt _]. lra.
Qed.

Lemma edge_lt (tbins dt : list Q) (i j : nat) :
  contiguous_axis tbins dt -> (i < j)%nat -> (j <= length dt)%nat ->
  edge tbins i < edge tbins j.
Proof.
  intros Hax Hij Hj. destruct (proj2 Hax i ltac:(lia)) as [Hlt _].
  pose proof (edge_le tbins dt (S i) j Hax ltac:(lia) Hj). lra.
Qed.

Lemma monotone_nth (l : list Q) :
  (forall i, (S i < length l)%nat -> nth i l 0 <= nth (S i) l 0) ->
  np.monotone l = true.
Proof.
  induction l as [|x l IH]; intros H; [reflexivity |].
  destruct l as [|y l]; [reflexivity |].
  cbn [np.monotone]. apply andb_true_iff. split.
  - apply Qle_bool_iff. apply (H 0%nat). cbn. lia.
  - apply IH. intros i Hi. apply (H (S i)). cbn in *. lia.
Qed.

Lemma axis_monotone (tbins dt : list Q) :
  contiguous_axis tbins dt -> np.monotone tbins = true.
Proof.
  intros [Hl H]. apply monotone_nth. intros i Hi.
  destruct (H i ltac:(lia)) as [Hlt _]. unfold edge in Hlt. lra.
Qed.

Lemma but_last_length {A : Type} (a : list A) :
  length (np.but_last a) = (length a - 1)%nat.
Proof. unfold np.but_last. rewrite length_take. lia. Qed.

Lemma but_last_nth (a : list Q) (i : nat) :
  (i < length a - 1)%nat -> nth i (np.but_last a) 0 = nth i a 0.
Proof.
  intros H. unfold np.but_last. rewrite !nth_lookup, lookup_take_lt by done. reflexivity.
Qed.

Lemma bin_of_unique (tbins dt : list Q) (x : Q) (j : nat) :
  contiguous_axis tbins dt -> (j < length dt)%nat ->
  edge tbins j <= x -> ((S j < length dt)%nat -> x < edge tbins (S j)) ->
  bin_of (np.but_last tbins) x = Z.of_nat j.
Proof.
  intros Hax Hj Hlo Hhi. unfold bin_of.
  rewrite (searchsorted_right_unique _ x (S j)); [lia | | |].
  - rewrite but_last_length, (proj1 Hax). lia.
  - intros i Hi. rewrite but_last_nth by (rewrite (proj1 Hax); lia).
    pose proof (edge_le tbins dt i j Hax ltac:(lia) ltac:(lia)). unfold edge in *. lra.
  - rewrite but_last_length, (proj1 Hax). intros H.
    rewrite but_last_nth by (rewrite (proj1 Hax); lia). apply Hhi. lia.
Qed.

Lemma bin_of_spec (tbins dt : list Q) (x : Q) :
  contiguous_axis tbins dt -> (1 <= length dt)%nat -> edge tbins 0 <= x ->
  exists b : nat,
    bin_of (np.but_last tbins) x = Z.of_nat b
    /\ (b < length dt)%nat
    /\ edge tbins b <= x
    /\ ((S b < length dt)%nat -> x < edge tbins (S b)).
Proof.
  intros Hax HN H0.
  set (a := np.but_last tbins).
  assert (Hla : length a = length dt).
  { unfold a. rewrite but_last_length, (proj1 Hax). lia. }
  pose proof (searchsorted_right_range a x) as Hr.
  assert (Hpos : (1 <= np.searchsorted_right a x)%Z).
  { apply searchsorted_right_pos.
    - intros E. rewrite E in Hla. cbn in Hla. lia.
    - unfold a. rewrite but_last_nth by (rewrite (proj1 Hax); lia). exact H0. }
  exists (Z.to_nat (np.searchsorted_right a x - 1)).
  split; [unfold bin_of; fold a; lia |]. split; [lia |].
  pose proof (proj1 Hax) as Hlt'. subst a. split.
  - pose proof (searchsorted_right_below (np.but_last tbins) x (Z.to_nat (np.searchsorted_right (np.but_last tbins) x - 1))
                  ltac:(lia)) as Hb.
    rewrite but_last_nth in Hb by lia. exact Hb.
  - intros Hlt.
    pose proof (searchsorted_right_above (np.but_last tbins) x ltac:(lia)) as Ha.
    replace (S (Z.to_nat (np.searchsorted_right (np.but_last tbins) x - 1)))
      with (Z.to_nat (np.searchsorted_right (np.but_last tbins) x)) by lia.
    rewrite but_last_nth in Ha by lia. exact Ha.
Qed.

(** ** Updates at integer indices *)

Lemma lookup_nth (l : list Q) (i : nat) :
  (i < length l)%nat -> l !! i = Some (nth i l 0).
Proof.
  intros H. destruct (lookup_lt_is_Some_2 l i H) as [x Hx].
  rewrite Hx. f_equal. symmetry. by apply nth_lookup_Some.
Qed.

Lemma take_at_single (a : list Q) (k : nat) :
  (k < length a)%nat -> np.take_at a [Z.of_nat k] = Ok [nth k a 0].
Proof.
  intros H. unfold np.take_at. cbn [np.map_result].
  rewrite (getitem_lookup a k _ (lookup_nth a k H)). reflexivity.
Qed.

Lemma iadd_at_single (la : list Q) (k : nat) (v : Q) :
  (k < length la)%nat ->
  np.iadd_at la [Z.of_nat k] [v] = Ok (<[k := nth k la 0 + v]> la).
Proof.
  intros H. unfold np.iadd_at. cbn [np.map_result].
  rewrite norm_index_nonneg by done. cbn [mbind result_bind rbind].
  rewrite take_at_single by done. reflexivity.
Qed.

Lemma sum_iadd_single (la : list Q) (k : nat) (v : Q) :
  (k < length la)%nat -> np.sum (<[k := nth k la 0 + v]> la) == np.sum la + v.
Proof. intros H. rewrite (sum_insert la k _ _ (lookup_nth la k H)). lra. Qed.

Lemma for_each_id {A S : Type} (body : S -> A -> result S) (s : S) (l : list A) :
  (forall x, body s x = Ok s) -> for_each body s l = Ok s.
Proof.
  intros H. induction l as [|x l IH]; [reflexivity |].
  cbn [for_each]. rewrite H. exact IH.
Qed.

(** A pass whose span class is empty leaves the array as it is. *)
Lemma span_pass_none (starts dt : list Q) (eb lb : Z) (ev lts : Q) (la : list Q) (bd : Z) :
  (eb =? lb + bd)%Z = false ->
  span_pass starts dt [eb] [lb] [ev] [lts] la bd = Ok la.
Proof.
  intros H. unfold span_pass. cbn [zip_with]. rewrite H.
  cbn [np.select map np.take_at np.map_result mbind result_bind rbind zip_with
       np.iadd_at np.put_at np.all_nonneg forallb py_assert].
  destruct (1 <? bd)%Z; [|reflexivity].
  apply for_each_id. intros i. reflexivity.
Qed.

(** ** One event that spans several bins *)

Lemma complete_bins_single (dt : list Q) (lb : nat) (la : list Q) (i : nat) :
  length la = length dt -> (lb + i < length dt)%nat ->
  complete_bins dt [Z.of_nat lb] la (Z.of_nat i)
  = Ok (<[(lb + i)%nat := nth (lb + i) la 0 + nth (lb + i) dt 0]> la).
Proof.
  intros Hla Hi. unfold complete_bins. cbn [map].
  replace (Z.of_nat lb + Z.of_nat i)%Z with (Z.of_nat (lb + i)) by lia.
  rewrite take_at_single by lia. cbn [mbind result_bind rbind].
  rewrite iadd_at_single by lia. reflexivity.
Qed.

Lemma complete_bins_loop (tbins dt : list Q) (lb : nat) (n : nat) :
  contiguous_axis tbins dt ->
  forall (m : nat) (la : list Q),
    length la = length dt -> (lb + 1 + m + n <= length dt)%nat ->
    exists la',
      for_each (complete_bins dt [Z.of_nat lb]) la
        (map (fun k => (1 + Z.of_nat k)%Z) (seq m n)) = Ok la'
      /\ length la' = length la
      /\ np.sum la' == np.sum la + (edge tbins (lb + 1 + m + n) - edge tbins (lb + 1 + m)).
Proof.
  intros Hax. induction n as [|n IH]; intros m la Hla Hb.
  - exists la. split; [reflexivity |]. split; [reflexivity |].
    rewrite Nat.add_0_r. lra.
  - cbn [seq map for_each].
    replace (1 + Z.of_nat m)%Z with (Z.of_nat (1 + m)) by lia.
    rewrite complete_bins_single by lia. cbn [mbind result_bind rbind].
    replace (lb + (1 + m))%nat with (lb + 1 + m)%nat by lia.
    destruct (IH (S m) (<[(lb + 1 + m)%nat := nth (lb + 1 + m) la 0 + nth (lb + 1 + m) dt 0]> la))
      as (la' & Hfe & Hl' & Hs'); [by rewrite length_insert | lia |].
    exists la'. split; [exact Hfe |]. split; [by rewrite Hl', length_insert |].
    rewrite Hs', sum_iadd_single by lia.
    destruct (proj2 Hax (lb + 1 + m)%nat ltac:(lia)) as [_ Hd]. rewrite Hd.
    replace (lb + 1 + S m + n)%nat with (lb + 1 + m + S n)%nat by lia.
    replace (lb + 1 + S m)%nat with (S (lb + 1 + m)) by lia. lra.
Qed.

Lemma span_pass_single (tbins dt : list Q) (ebn lbn : nat) (ev lts : Q) (la : list Q) :
  contiguous_axis tbins dt -> length la = length dt ->
  (lbn < ebn)%nat -> (ebn < length dt)%nat ->
  bin_of (np.but_last tbins) ev = Z.of_nat ebn ->
  bin_of (np.but_last tbins) lts = Z.of_nat lbn ->
  edge tbins ebn <= ev -> lts <= edge tbins (S lbn) ->
  exists la',
    span_pass (np.but_last tbins) dt [Z.of_nat ebn] [Z.of_nat lbn] [ev] [lts] la
      (Z.of_nat ebn - Z.of_nat lbn) = Ok la'
    /\ length la' = length la
    /\ np.sum la' == np.sum la + (ev - lts).
Proof.
  intros Hax Hla Hlt Heb Hbe Hbl Hev Hlts.
  pose proof (proj1 Hax) as Hlen.
  unfold span_pass. cbn [zip_with].
  replace (Z.of_nat ebn =? Z.of_nat lbn + (Z.of_nat ebn - Z.of_nat lbn))%Z with true
    by (symmetry; apply Z.eqb_eq; lia).
  cbn [np.select map]. rewrite Hbe.
  rewrite take_at_single by (rewrite but_last_length; lia).
  cbn [mbind result_bind rbind zip_with].
  rewrite but_last_nth by lia.
  rewrite iadd_at_single by lia. cbn [mbind result_bind rbind].
  assert (E1 : Qle_bool 0 (ev - nth ebn tbins 0) = true).
  { apply Qle_bool_iff. unfold edge in Hev. lra. }
  cbn [np.all_nonneg forallb]. rewrite E1. cbn [andb py_assert mbind result_bind rbind].
  assert (Hss : np.searchsorted_right (np.but_last tbins) lts = Z.of_nat (S lbn)).
  { unfold bin_of in Hbl. lia. }
  rewrite Hss.
  rewrite take_at_single by (rewrite but_last_length; lia).
  cbn [mbind result_bind rbind zip_with].
  rewrite but_last_nth by lia.
  set (la1 := <[ebn := nth ebn la 0 + (ev - nth ebn tbins 0)]> la).
  assert (Hla1 : length la1 = length dt) by (unfold la1; by rewrite length_insert).
  rewrite iadd_at_single by lia. cbn [mbind result_bind rbind].
  assert (E2 : Qle_bool 0 (nth (S lbn) tbins 0 - lts) = true).
  { apply Qle_bool_iff. unfold edge in Hlts. lra. }
  cbn [np.all_nonneg forallb]. rewrite E2. cbn [andb py_assert mbind result_bind rbind].
  set (la2 := <[lbn := nth lbn la1 0 + (nth (S lbn) tbins 0 - lts)]> la1).
  assert (Hla2 : length la2 = length dt) by (unfold la2; by rewrite length_insert).
  assert (Hs2 : np.sum la2 == np.sum la + (ev - edge tbins ebn) + (edge tbins (S lbn) - lts)).
  { unfold la2. rewrite sum_iadd_single by lia.
    unfold la1. rewrite sum_iadd_single by lia. unfold edge. lra. }
  destruct (1 <? Z.of_nat ebn - Z.of_nat lbn)%Z eqn:E.
  - apply Z.ltb_lt in E. unfold np.range.
    destruct (complete_bins_loop tbins dt lbn (Z.to_nat (Z.of_nat ebn - Z.of_nat lbn - 1))
                Hax 0%nat la2 Hla2 ltac:(lia)) as (la' & Hfe & Hl' & Hs').
    exists la'. split; [exact Hfe |]. split; [congruence |].
    rewrite Hs', Hs2.
    replace (lbn + 1 + 0 + Z.to_nat (Z.of_nat ebn - Z.of_nat lbn - 1))%nat with ebn by lia.
    replace (lbn + 1 + 0)%nat with (S lbn) by lia. lra.
  - apply Z.ltb_ge in E. exists la2. split; [reflexivity |]. split; [congruence |].
    rewrite Hs2. replace ebn with (S lbn) by lia. lra.
Qed.

(** ** The histogram of one event *)

Lemma bin_sums_length (bins a w : list Q) :
  length (np.bin_sums bins a w) = (length bins - 1)%nat.
Proof.
  induction bins as [|lo bins IH]; [reflexivity |].
  destruct bins as [|hi rest]; [reflexivity |].
  cbn [np.bin_sums length] in *. lia.
Qed.

Lemma bin_sums_nth_single (bins : list Q) (ev pr : Q) (i : nat) :
  (S i < length bins)%nat ->
  nth i (np.bin_sums bins [ev] [pr]) 0
  = (if np.in_bin (nth i bins 0) (nth (S i) bins 0) (S (S i) =? length bins)%nat ev
     then pr else 0) + 0.
Proof.
  revert i. induction bins as [|lo bins IH]; intros i Hi; [cbn in Hi; lia |].
  destruct bins as [|hi rest]; [cbn in Hi; lia |].
  destruct i as [|i].
  - cbn [np.bin_sums nth np.sumw length]. destruct rest; reflexivity.
  - cbn [np.bin_sums]. cbn [nth]. rewrite IH by (cbn [length] in *; lia).
    reflexivity.
Qed.

Lemma bin_sums_empty_sum (bins : list Q) : np.sum (np.bin_sums bins [] []) == 0.
Proof.
  induction bins as [|lo bins IH]; [reflexivity |].
  destruct bins as [|hi rest]; [reflexivity |].
  cbn [np.bin_sums]. rewrite sum_cons, IH. cbn. lra.
Qed.

Lemma zip_zero_nth (n : nat) (b : list Q) (i : nat) :
  length b = n -> (i < n)%nat ->
  nth i (zip_with Qplus (repeat 0 n) b) 0 == nth i b 0.
Proof.
  revert b i. induction n as [|n IH]; intros [|y b] i H Hi; try discriminate; [lia |].
  cbn [repeat zip_with]. destruct i as [|i]; cbn [nth]; [lra |].
  apply IH; [by injection H | lia].
Qed.

Lemma iadd_same_length (a b : list Q) :
  length a = length b -> np.iadd a b = Ok (zip_with Qplus a b).
Proof. intros H. unfold np.iadd. apply Nat.eqb_eq in H as ->. reflexivity. Qed.

Lemma sum_one_hot (l : list Q) (j : nat) (p : Q) :
  (j < length l)%nat ->
  (forall i, (i < length l)%nat -> nth i l 0 == if (i =? j)%nat then p else 0) ->
  np.sum l == p.
Proof.
  revert j. induction l as [|x l IH]; intros j Hj H; [cbn in Hj; lia |].
  rewrite sum_cons. destruct j as [|j].
  - pose proof (H 0%nat ltac:(cbn; lia)) as H0. cbn in H0.
    assert (Hz : np.sum l == 0).
    { clear -H. assert (H' : forall i, (i < length l)%nat -> nth i l 0 == 0).
      { intros i Hi. apply (H (S i)). cbn. lia. }
      clear H. induction l as [|y l IH]; [reflexivity |].
      rewrite sum_cons. pose proof (H' 0%nat ltac:(cbn; lia)) as Hy. cbn in Hy.
      rewrite Hy, IH; [lra |]. intros i Hi. apply (H' (S i)). cbn. lia. }
    rewrite H0, Hz. lra.
  - pose proof (H 0%nat ltac:(cbn; lia)) as H0. cbn in H0.
    rewrite H0, (IH j); [lra | cbn in Hj; lia |].
    intros i Hi. apply (H (S i)). cbn. lia.
Qed.

(** ** One event on a contiguous axis *)

Lemma for_each_id_Forall {A S : Type} (body : S -> A -> result S) (s : S) (l : list A) :
  Forall (fun x => body s x = Ok s) l -> for_each body s l = Ok s.
Proof.
  induction 1 as [|x l Hx _ IH]; [reflexivity |].
  cbn [for_each]. rewrite Hx. exact IH.
Qed.

Lemma accumulate_same_bin (tbins dt : list Q) (ev pr : Q) (j : nat) :
  contiguous_axis tbins dt -> (j < length dt)%nat ->
  bin_of (np.but_last tbins) ev = Z.of_nat j ->
  bin_of (np.but_last tbins) (ev - pr) = Z.of_nat j ->
  edge tbins j <= ev ->
  ((S j < length dt)%nat -> ev < edge tbins (S j)) ->
  ev <= edge tbins (length dt) ->
  exists arr,
    accumulate (length dt) tbins dt [ev] [pr] [ev - pr] = Ok arr
    /\ length arr = length dt
    /\ forall i, (i < length dt)%nat -> nth i arr 0 == if (i =? j)%nat then pr else 0.
Proof.
  intros Hax Hj Hbe Hbl Hlo Hhi Hend.
  pose proof (proj1 Hax) as Hlen.
  unfold accumulate. cbn [map zip_with]. rewrite Hbe, Hbl, Z.eqb_refl.
  cbn [np.select]. unfold np.histogram. rewrite (axis_monotone _ _ Hax).
  cbn [mbind result_bind rbind]. rewrite same_bin_assert_vacuous.
  cbn [mbind result_bind rbind].
  rewrite iadd_same_length by (rewrite repeat_length, bin_sums_length; lia).
  cbn [mbind result_bind rbind np.max foldl]. rewrite Z.sub_diag.
  cbn [np.range_down Z.to_nat seq map for_each].
  eexists. split; [reflexivity |]. split.
  { rewrite length_zip_with, repeat_length, bin_sums_length. lia. }
  intros i Hi.
  rewrite zip_zero_nth by (rewrite ?bin_sums_length; lia).
  rewrite bin_sums_nth_single by lia.
  unfold np.in_bin. fold (edge tbins i). fold (edge tbins (S i)).
  destruct (Nat.eqb_spec i j) as [-> | Hne].
  - apply Qle_bool_iff in Hlo as ->. cbn [andb].
    destruct (Nat.eqb_spec (S (S j)) (length tbins)) as [E | E].
    + replace (S j) with (length dt) by lia. apply Qle_bool_iff in Hend as ->. lra.
    + assert (Hlt : ev < edge tbins (S j)) by (apply Hhi; lia).
      apply Qltb_lt in Hlt as ->. lra.
  - destruct (Nat.eqb_spec (S (S i)) (length tbins)) as [E | E].
    + assert (Hji : (S j < length dt)%nat) by lia.
      pose proof (Hhi Hji) as Hlt.
      pose proof (edge_le tbins dt (S j) i Hax ltac:(lia) ltac:(lia)) as Hle.
      assert (E1 : Qle_bool (edge tbins i) ev = false) by (apply Qle_bool_gt; lra).
      rewrite E1. cbn [andb]. lra.
    + destruct (Nat.lt_ge_cases i j) as [Hij | Hij].
      * pose proof (edge_le tbins dt (S i) j Hax ltac:(lia) ltac:(lia)) as Hle.
        assert (E2 : np.Qltb ev (edge tbins (S i)) = false) by (apply Qltb_ge; lra).
        rewrite E2, andb_false_r. lra.
      * assert (Hji : (S j < length dt)%nat) by lia.
        pose proof (Hhi Hji) as Hlt.
        pose proof (edge_le tbins dt (S j) i Hax ltac:(lia) ltac:(lia)) as Hle.
        assert (E1 : Qle_bool (edge tbins i) ev = false) by (apply Qle_bool_gt; lra).
        rewrite E1. cbn [andb]. lra.
Qed.

Lemma accumulate_multi_bin (tbins dt : list Q) (ev pr : Q) (ebn lbn : nat) :
  contiguous_axis tbins dt -> (lbn < ebn)%nat -> (ebn < length dt)%nat ->
  bin_of (np.but_last tbins) ev = Z.of_nat ebn ->
  bin_of (np.but_last tbins) (ev - pr) = Z.of_nat lbn ->
  edge tbins ebn <= ev -> ev - pr <= edge tbins (S lbn) ->
  exists arr,
    accumulate (length dt) tbins dt [ev] [pr] [ev - pr] = Ok arr
    /\ length arr = length dt
    /\ np.sum arr == pr.
Proof.
  intros Hax Hlt Heb Hbe Hbl Hlo Hhi.
  pose proof (proj1 Hax) as Hlen.
  unfold accumulate. cbn [map zip_with]. rewrite Hbe, Hbl.
  replace (Z.of_nat ebn =? Z.of_nat lbn)%Z with false by (symmetry; apply Z.eqb_neq; lia).
  cbn [np.select]. unfold np.histogram. rewrite (axis_monotone _ _ Hax).
  cbn [mbind result_bind rbind]. rewrite same_bin_assert_vacuous.
  cbn [mbind result_bind rbind].
  rewrite iadd_same_length by (rewrite repeat_length, bin_sums_length; lia).
  cbn [mbind result_bind rbind np.max foldl].
  set (la0 := zip_with Qplus (repeat 0 (length dt)) (np.bin_sums tbins [] [])).
  assert (Hla0 : length la0 = length dt).
  { unfold la0. rewrite length_zip_with, repeat_length, bin_sums_length. lia. }
  assert (Hs0 : np.sum la0 == 0).
  { unfold la0. rewrite sum_zip_zero by (rewrite bin_sums_length; lia).
    apply bin_sums_empty_sum. }
  unfold np.range_down.
  destruct (Z.to_nat (Z.of_nat ebn - Z.of_nat lbn)) as [|n] eqn:En; [lia |].
  cbn [seq map for_each]. rewrite Z.sub_0_r.
  destruct (span_pass_single tbins dt ebn lbn ev (ev - pr) la0 Hax Hla0 Hlt Heb Hbe Hbl Hlo Hhi)
    as (la' & Hsp & Hl' & Hs').
  rewrite Hsp. cbn [mbind result_bind rbind].
  exists la'. split; [|split; [congruence | rewrite Hs', Hs0; lra]].
  apply for_each_id_Forall. apply Forall_forall. intros x Hx.
  apply list_elem_of_In, in_map_iff in Hx as (k & <- & Hk%in_seq).
  apply span_pass_none. apply Z.eqb_neq. lia.
Qed.

(** ** Axes built from bin centres *)

Lemma edge_lookup (tbins : list Q) (i : nat) (x : Q) :
  tbins !! i = Some x -> edge tbins i = x.
Proof. intros H. unfold edge. by apply nth_lookup_Some. Qed.

Lemma last_nth (l : list Q) : l <> [] -> last l = Some (nth (length l - 1) l 0).
Proof.
  intros H. rewrite last_lookup. replace (pred (length l)) with (length l - 1)%nat by lia.
  apply lookup_nth. destruct l; [done | cbn; lia].
Qed.

Lemma Qhalf_double (x : Q) : x == x / 2 + x / 2.
Proof. field. Qed.

Lemma bin_edges_contiguous (times dta tbins : list Q) (e0 : Q) :
  length dta = length times -> bin_edges times dta e0 = Ok tbins ->
  (forall i, (i < length times)%nat -> 0 < nth i dta 0) ->
  (forall i, (S i < length times)%nat ->
             nth i times 0 + nth i dta 0 / 2 == nth (S i) times 0 - nth (S i) dta 0 / 2) ->
  contiguous_axis tbins dta.
Proof.
  intros Hl Hb Hpos Hc.
  assert (Hne : times <> []).
  { intros ->. apply bin_edges_inv in Hb as (? & ? & ? & _ & H & _). discriminate. }
  assert (HN : (0 < length times)%nat) by (destruct times; [done | cbn; lia]).
  assert (Hed : forall i, (i < length times)%nat ->
                          edge tbins i = nth i times 0 - nth i dta 0 / 2 - e0).
  { intros i Hi. apply edge_lookup.
    apply (bin_edges_lookup times dta e0 tbins i); [done | done | |];
      apply lookup_nth; lia. }
  assert (Hel : edge tbins (length times)
                = nth (length times - 1) times 0 + nth (length times - 1) dta 0 / 2 - e0).
  { apply edge_lookup. apply (bin_edges_lookup_last times dta e0 tbins); [done | done | |].
    - by apply last_nth.
    - rewrite <- Hl. apply last_nth. intros ->. cbn in Hl. lia. }
  split; [rewrite Hl; by apply (bin_edges_length times dta e0) |].
  intros i Hi. rewrite Hl in Hi. rewrite (Hed i Hi).
  destruct (decide (S i < length times)%nat) as [Hlt | Hge].
  - rewrite (Hed (S i) Hlt). pose proof (Hc i Hlt). pose proof (Hpos i Hi).
    pose proof (Qhalf_double (nth i dta 0)). split; lra.
  - replace (S i) with (length times) by lia. rewrite Hel.
    replace (length times - 1)%nat with i by lia.
    pose proof (Hpos i Hi). pose proof (Qhalf_double (nth i dta 0)). split; lra.
Qed.

Lemma uniform_axis_contiguous (times dta tbins : list Q) (d e0 : Q) :
  0 < d ->
  (forall i x y, times !! i = Some x -> times !! S i = Some y -> y == x + d) ->
  broadcast_dt (Scalar (Some d)) times = Some dta ->
  bin_edges times dta e0 = Ok tbins ->
  contiguous_axis tbins dta
  /\ length dta = length times
  /\ forall i, (i < length times)%nat -> nth i dta 0 = d + 0.
Proof.
  intros Hd Hu Hdt Hb. destruct (broadcast_dt_scalar _ _ _ Hdt) as [Hl Hv].
  assert (Hn : forall i, (i < length times)%nat -> nth i dta 0 = d + 0).
  { intros i Hi. apply (Hv i). apply lookup_nth. lia. }
  split; [|split; [exact Hl | exact Hn]].
  apply (bin_edges_contiguous times dta tbins e0 Hl Hb).
  - intros i Hi. rewrite (Hn i Hi). lra.
  - intros i Hi. rewrite (Hn i ltac:(lia)), (Hn (S i) Hi).
    pose proof (Hu i _ _ (lookup_nth times i ltac:(lia)) (lookup_nth times (S i) Hi)).
    pose proof (Qhalf_double (d + 0)). lra.
Qed.

(** ** Conservation of the livetime of one event *)

Lemma head_nth (l : list Q) : l <> [] -> head l = Some (nth 0 l 0).
Proof. destruct l; [done | reflexivity]. Qed.

Lemma single_event_conserved (times dta tbins : list Q) (dt : option dt_value)
    (gti : option value) (e p : Q) :
  broadcast_dt (_assign_value_if_none dt (Scalar (np.median (np.diff times)))) times
    = Some dta ->
  length dta = length times ->
  bin_edges times dta e = Ok tbins ->
  contiguous_axis tbins dta ->
  0 < p -> edge tbins 0 <= e - e - p -> e - e <= edge tbins (length dta) ->
  exists arr,
    get_livetime_per_bin times [e] [p] dt gti = Ok arr
    /\ length arr = length times
    /\ np.sum arr == p
    /\ forall j, (j < length dta)%nat ->
                 edge tbins j <= e - e - p -> e - e < edge tbins (S j) ->
                 forall i, (i < length times)%nat ->
                           nth i arr 0 == if (i =? j)%nat then p else 0.
Proof.
  intros Hdt Hl Hb Hax Hp Hlo Hhi.
  pose proof (proj1 Hax) as Hlen.
  destruct (bin_edges_shape _ _ _ _ Hb) as (H2 & _ & _).
  assert (HN : (1 <= length dta)%nat) by lia.
  assert (Hne : tbins <> []) by (intros ->; cbn in H2; lia).
  rewrite (get_livetime_per_bin_unfold times [e] [p] dt gti e dta eq_refl eq_refl Hdt), Hb.
  cbn [mbind result_bind rbind map zip_with].
  assert (Hlast : last tbins = Some (edge tbins (length dta))).
  { rewrite (last_nth _ Hne). unfold edge. do 2 f_equal. lia. }
  rewrite (clip_to_axis_body _ _ _ _ _ _ H2 (head_nth _ Hne) Hlast).
  fold (edge tbins 0).
  rewrite (clip_body_inside _ _ [e - e] [p]) by (repeat constructor; lra).
  cbn [mbind result_bind rbind zip_with]. rewrite <- Hl.
  destruct (bin_of_spec tbins dta (e - e) Hax HN ltac:(lra)) as (ebn & Hbe & Heb & Hev & Hev').
  destruct (bin_of_spec tbins dta (e - e - p) Hax HN Hlo) as (lbn & Hbl & Hlb & Hlt & Hlt').
  assert (Hle : (lbn <= ebn)%nat).
  { pose proof (searchsorted_right_mono (np.but_last tbins) (e - e - p) (e - e) ltac:(lra)).
    unfold bin_of in Hbe, Hbl. lia. }
  destruct (decide (lbn = ebn)) as [-> | Hne'].
  - destruct (accumulate_same_bin tbins dta (e - e) p ebn Hax Heb Hbe Hbl Hev Hev' Hhi)
      as (arr & Hacc & Hla & Hnth).
    exists arr. split; [exact Hacc |]. split; [exact Hla |]. split.
    + apply (sum_one_hot arr ebn); [lia | by rewrite Hla].
    + intros j Hj Hj1 Hj2 i Hi.
      assert (Hb1 : bin_of (np.but_last tbins) (e - e) = Z.of_nat j).
      { apply (bin_of_unique tbins dta); [done | done | lra | intros _; lra]. }
      assert (j = ebn) as -> by lia. apply Hnth. lia.
  - destruct (accumulate_multi_bin tbins dta (e - e) p ebn lbn Hax ltac:(lia) Heb Hbe Hbl Hev)
      as (arr & Hacc & Hla & Hsum).
    { pose proof (Hlt' ltac:(lia)). lra. }
    exists arr. split; [exact Hacc |]. split; [exact Hla |]. split; [exact Hsum |].
    intros j Hj Hj1 Hj2 i Hi. exfalso.
    assert (Hb1 : bin_of (np.but_last tbins) (e - e) = Z.of_nat j).
    { apply (bin_of_unique tbins dta); [done | done | lra | intros _; lra]. }
    assert (Hb2 : bin_of (np.but_last tbins) (e - e - p) = Z.of_nat j).
    { apply (bin_of_unique tbins dta); [done | done | lra | intros _; lra]. }
    lia.
Qed.

(** C1: one event whose livetime interval lies inside a contiguous axis of
    uniform width: the livetimes of all bins add up to the prior, and when
    the interval lies inside one bin that bin gets the prior and every other
    bin gets nothing. *)
Theorem livetime_conserved (times : list Q) (d e p t0 tl : Q) (gti : option value) :
  head times = Some t0 -> last times = Some tl ->
  (forall i x y, times !! i = Some x -> times !! S i = Some y -> y == x + d) ->
  0 < d -> 0 < p ->
  t0 - d / 2 <= e - p -> e <= tl + d / 2 ->
  exists arr,
    get_livetime_per_bin times [e] [p] (Some (Scalar (Some d))) gti = Ok arr
    /\ length arr = length times
    /\ np.sum arr == p
    /\ forall j tj, times !! j = Some tj -> tj - d / 2 <= e - p -> e < tj + d / 2 ->
                    forall i, (i < length times)%nat ->
                              nth i arr 0 == if (i =? j)%nat then p else 0.
Proof.
  intros Hh Hla Hu Hd Hp Hlo Hhi.
  destruct (broadcast_dt (Scalar (Some d)) times) as [dta|] eqn:Hdt; [|discriminate].
  destruct (broadcast_dt_scalar _ _ _ Hdt) as [Hl Hv].
  assert (Hne : times <> []) by (intros ->; discriminate).
  assert (Hdl : last dta = Some (d + 0)).
  { destruct (last dta) as [x|] eqn:E.
    - rewrite last_lookup in E. by rewrite (Hv _ _ E).
    - apply last_None in E. subst dta. destruct times; [done | discriminate]. }
  pose proof (bin_edges_same_length times dta e tl (d + 0) Hl Hla Hdl) as Hb.
  set (tbins := map _ _) in Hb.
  destruct (uniform_axis_contiguous times dta tbins d e Hd Hu Hdt Hb) as (Hax & _ & Hn).
  pose proof (Qhalf_double d) as Hhalf.
  assert (Hd0 : (d + 0) / 2 == d / 2) by (unfold Qdiv; ring).
  assert (He0 : edge tbins 0 = t0 - (d + 0) / 2 - e).
  { apply edge_lookup. apply (bin_edges_lookup times dta e tbins 0 t0 (d + 0) Hl Hb).
    - by rewrite <- head_lookup.
    - rewrite lookup_nth, Hn; [done | | rewrite Hl]; destruct times; cbn; done || lia. }
  assert (HeN : edge tbins (length dta) = tl + (d + 0) / 2 - e).
  { apply edge_lookup. rewrite Hl.
    by apply (bin_edges_lookup_last times dta e tbins tl (d + 0) Hl Hb). }
  destruct (single_event_conserved times dta tbins (Some (Scalar (Some d))) gti e p
              Hdt Hl Hb Hax Hp) as (arr & Hres & Hlen & Hsum & Hone).
  { rewrite He0. lra. }
  { rewrite HeN. lra. }
  exists arr. split; [exact Hres |]. split; [exact Hlen |]. split; [exact Hsum |].
  intros j tj Hj Hj1 Hj2 i Hi.
  assert (Hjl : (j < length dta)%nat) by (rewrite Hl; by eapply lookup_lt_Some).
  assert (Hej : edge tbins j = tj - (d + 0) / 2 - e).
  { apply edge_lookup. apply (bin_edges_lookup times dta e tbins j tj (d + 0) Hl Hb Hj).
    rewrite lookup_nth, Hn; [done | lia | lia]. }
  destruct (proj2 Hax j Hjl) as [_ Hw]. rewrite (Hn j ltac:(lia)), Hej in Hw.
  apply (Hone j Hjl); [rewrite Hej; lra | lra | exact Hi].
Qed.

Lemma livetime_conserved_witness :
  exists arr,
    get_livetime_per_bin [1#2; 3#2; 5#2] [22#10] [3#2] (Some (Scalar (Some 1))) None = Ok arr
    /\ np.sum arr == 3#2.
Proof.
  destruct (livetime_conserved [1#2; 3#2; 5#2] 1 (22#10) (3#2) (1#2) (5#2) None)
    as (arr & H & _ & Hs & _).
  - reflexivity.
  - reflexivity.
  - intros [|[|[|i]]] x y Hx Hy; cbn in Hx, Hy; try discriminate;
      injection Hx as <-; injection Hy as <-; reflexivity.
  - reflexivity.
  - reflexivity.
  - vm_compute. congruence.
  - vm_compute. congruence.
  - exists arr. split; [exact H | exact Hs].
Defined.

(** ** Sums over events *)

Lemma msum_cons {X : Type} (f : X -> Q) (x : X) (l : list X) :
  msum f (x :: l) = f x + msum f l.
Proof. reflexivity. Qed.

Lemma msum_plus {X : Type} (f g : X -> Q) (l : list X) :
  msum (fun x => f x + g x) l == msum f l + msum g l.
Proof.
  induction l as [|x l IH]; [reflexivity |]. rewrite !msum_cons, IH. lra.
Qed.

Lemma msum_le {X : Type} (f g : X -> Q) (l : list X) :
  (forall x, In x l -> f x <= g x) -> msum f l <= msum g l.
Proof.
  induction l as [|x l IH]; intros H; [cbn; lra |].
  rewrite !msum_cons. pose proof (H x (or_introl eq_refl)).
  pose proof (IH (fun y Hy => H y (or_intror Hy))). lra.
Qed.

Lemma msum_nonneg {X : Type} (f : X -> Q) (l : list X) :
  (forall x, In x l -> 0 <= f x) -> 0 <= msum f l.
Proof.
  induction l as [|x l IH]; intros H; [cbn; lra |].
  rewrite msum_cons. pose proof (H x (or_introl eq_refl)).
  pose proof (IH (fun y Hy => H y (or_intror Hy))). lra.
Qed.

Lemma msum_filter_cons {X : Type} (f : X -> Q) (c : X -> bool) (x : X) (l : list X) :
  msum f (List.filter c (x :: l))
  == (if c x then f x else 0) + msum f (List.filter c l).
Proof. cbn [List.filter]. destruct (c x); [rewrite msum_cons | ]; lra. Qed.

(** ** Boolean masks over parallel arrays *)

Lemma select_zip_with {A B C : Type} (h : A -> B -> bool) (g : A -> B -> C)
    (a : list A) (b : list B) :
  np.select (zip_with h a b) (zip_with g a b)
  = map (fun x => g x.1 x.2) (List.filter (fun x => h x.1 x.2) (zip a b)).
Proof.
  revert b. induction a as [|x a IH]; intros [|y b]; try reflexivity.
  cbn [zip_with zip np.select List.filter fst snd].
  destruct (h x y); cbn [map fst snd]; by rewrite IH.
Qed.

Lemma zip_with_fst {A B : Type} (a : list A) (b : list B) :
  length a = length b -> a = zip_with (fun x _ => x) a b.
Proof.
  revert b. induction a as [|x a IH]; intros [|y b] H; try discriminate; [reflexivity |].
  cbn [zip_with]. f_equal. apply IH. by injection H.
Qed.

Lemma zip_with_snd {A B : Type} (a : list A) (b : list B) :
  length a = length b -> b = zip_with (fun _ y => y) a b.
Proof.
  revert b. induction a as [|x a IH]; intros [|y b] H; try discriminate; [reflexivity |].
  cbn [zip_with]. f_equal. apply IH. by injection H.
Qed.

Lemma map_zip_with_par {A B C D : Type} (f : C -> D) (g : A -> B -> C)
    (a : list A) (b : list B) :
  map f (zip_with g a b) = zip_with (fun x y => f (g x y)) a b.
Proof.
  revert b. induction a as [|x a IH]; intros [|y b]; try reflexivity.
  cbn [zip_with map]. by rewrite IH.
Qed.

Lemma zip_with_zip_with {A B C D E : Type} (k : C -> D -> E) (g1 : A -> B -> C)
    (g2 : A -> B -> D) (a : list A) (b : list B) :
  zip_with k (zip_with g1 a b) (zip_with g2 a b)
  = zip_with (fun x y => k (g1 x y) (g2 x y)) a b.
Proof.
  revert b. induction a as [|x a IH]; intros [|y b]; try reflexivity.
  cbn [zip_with]. by rewrite IH.
Qed.

(** ** In-place addition at index arrays *)

Lemma nth_insert_eq (l : list Q) (i : nat) (x : Q) :
  (i < length l)%nat -> nth i (<[i:=x]> l) 0 = x.
Proof. intros H. rewrite nth_lookup, list_lookup_insert_eq by done. reflexivity. Qed.

Lemma nth_insert_ne (l : list Q) (i j : nat) (x : Q) :
  i <> j -> nth j (<[i:=x]> l) 0 = nth j l 0.
Proof. intros H. by rewrite !nth_lookup, list_lookup_insert_ne. Qed.

Lemma map_result_norm_index {X : Type} (idx : X -> nat) (n : nat) (sel : list X) :
  (forall x, In x sel -> (idx x < n)%nat) ->
  np.map_result (np.norm_index n) (map (fun x => Z.of_nat (idx x)) sel) = Ok (map idx sel).
Proof.
  induction sel as [|x sel IH]; intros H; [reflexivity |].
  cbn [map np.map_result]. rewrite norm_index_nonneg by (apply H; by left).
  cbn [mbind result_bind rbind]. rewrite IH by (intros y Hy; apply H; by right).
  reflexivity.
Qed.

Lemma take_at_map {X : Type} (idx : X -> nat) (a : list Q) (sel : list X) :
  (forall x, In x sel -> (idx x < length a)%nat) ->
  np.take_at a (map (fun x => Z.of_nat (idx x)) sel)
  = Ok (map (fun x => nth (idx x) a 0) sel).
Proof.
  unfold np.take_at. induction sel as [|x sel IH]; intros H; [reflexivity |].
  cbn [map np.map_result].
  rewrite (getitem_lookup a (idx x) _ (lookup_nth a (idx x) (H x (or_introl eq_refl)))).
  cbn [mbind result_bind rbind]. rewrite IH by (intros y Hy; apply H; by right).
  reflexivity.
Qed.

Lemma put_at_bounds {X : Type} (idx : X -> nat) (val : X -> Q) (la : list Q)
    (sel : list X) :
  (forall x, In x sel -> (idx x < length la)%nat /\ 0 <= val x) ->
  forall a, length a = length la ->
    length (np.put_at a (map idx sel) (map (fun x => nth (idx x) la 0 + val x) sel))
    = length la
    /\ forall b acc,
         nth b la 0 <= nth b a 0 <= nth b la 0 + acc ->
         nth b la 0
         <= nth b (np.put_at a (map idx sel)
                     (map (fun x => nth (idx x) la 0 + val x) sel)) 0
         <= nth b la 0 + acc + msum (fun x => if (idx x =? b)%nat then val x else 0) sel.
Proof.
  induction sel as [|x sel IH]; intros H a Ha.
  - cbn [map np.put_at]. split; [done |]. intros b acc Hb. cbn. lra.
  - destruct (H x (or_introl eq_refl)) as [Hix Hvx].
    cbn [map np.put_at].
    destruct (IH (fun y Hy => H y (or_intror Hy))
                 (<[idx x := nth (idx x) la 0 + val x]> a)) as [Hlen Hbd].
    { by rewrite length_insert. }
    split; [exact Hlen |]. intros b acc Hb. rewrite msum_cons.
    destruct (Nat.eqb_spec (idx x) b) as [E | E].
    + specialize (Hbd b (acc + val x)). subst b.
      rewrite nth_insert_eq in Hbd by lia. lra.
    + specialize (Hbd b acc). rewrite nth_insert_ne in Hbd by done. lra.
Qed.

Lemma iadd_at_map_bounds {X : Type} (idx : X -> nat) (val : X -> Q) (la : list Q)
    (sel : list X) :
  (forall x, In x sel -> (idx x < length la)%nat /\ 0 <= val x) ->
  exists la',
    np.iadd_at la (map (fun x => Z.of_nat (idx x)) sel) (map val sel) = Ok la'
    /\ length la' = length la
    /\ forall b, nth b la 0 <= nth b la' 0
                 <= nth b la 0 + msum (fun x => if (idx x =? b)%nat then val x else 0) sel.
Proof.
  intros H. unfold np.iadd_at.
  rewrite map_result_norm_index by (intros x Hx; apply (H x Hx)).
  cbn [mbind result_bind rbind].
  rewrite take_at_map by (intros x Hx; apply (H x Hx)).
  cbn [mbind result_bind rbind].
  replace (zip_with Qplus (map (fun x => nth (idx x) la 0) sel) (map val sel))
    with (map (fun x => nth (idx x) la 0 + val x) sel).
  2: { clear. induction sel as [|x sel IH]; [reflexivity |]. cbn [map zip_with]. by rewrite IH. }
  destruct (put_at_bounds idx val la sel H la eq_refl) as [Hlen Hbd].
  eexists. split; [reflexivity |]. split; [exact Hlen |].
  intros b. specialize (Hbd b 0). lra.
Qed.

(** ** The bins of an event on the axis *)

Lemma on_axis_bins (tbins dt : list Q) (x : Q * Q) :
  contiguous_axis tbins dt -> (1 <= length dt)%nat -> on_axis tbins x ->
  let bS := binn (np.but_last tbins) (x.1 - x.2) in
  let bE := binn (np.but_last tbins) x.1 in
  bin_of (np.but_last tbins) (x.1 - x.2) = Z.of_nat bS
  /\ bin_of (np.but_last tbins) x.1 = Z.of_nat bE
  /\ (bS <= bE)%nat /\ (bE < length dt)%nat
  /\ edge tbins bS <= x.1 - x.2
  /\ ((S bS < length dt)%nat -> x.1 - x.2 < edge tbins (S bS))
  /\ edge tbins bE <= x.1
  /\ x.1 <= edge tbins (S bE).
Proof.
  intros Hax HN (Hp & Hlo & Hhi). cbv zeta.
  pose proof (proj1 Hax) as Hlen. rewrite Hlen in Hhi.
  replace (S (length dt) - 1)%nat with (length dt) in Hhi by lia.
  destruct (bin_of_spec tbins dt x.1 Hax HN ltac:(lra)) as (be & Hbe & Hbe1 & Hbe2 & Hbe3).
  destruct (bin_of_spec tbins dt (x.1 - x.2) Hax HN Hlo) as (bs & Hbs & Hbs1 & Hbs2 & Hbs3).
  unfold binn. rewrite Hbe, Hbs, !Nat2Z.id.
  assert (Hle : (bs <= be)%nat).
  { pose proof (searchsorted_right_mono (np.but_last tbins) (x.1 - x.2) x.1 ltac:(lra)).
    unfold bin_of in Hbe, Hbs. lia. }
  repeat split; try done.
  destruct (decide (S be < length dt)%nat) as [H | H].
  - pose proof (Hbe3 H). lra.
  - replace (S be) with (length dt) by lia. exact Hhi.
Qed.

Lemma overlap_nonneg (lo hi s e : Q) : 0 <= overlap lo hi s e.
Proof. unfold overlap. apply Q.le_max_l. Qed.

Lemma overlap_inner (lo hi s e : Q) :
  lo <= s -> e <= hi -> overlap lo hi s e == Qmax 0 (e - s).
Proof.
  intros H1 H2. unfold overlap.
  rewrite (Q.min_l e hi) by done. rewrite (Q.max_l s lo) by done. reflexivity.
Qed.

Lemma overlap_ge (lo hi s e v : Q) :
  v <= Qmin e hi - Qmax s lo -> v <= overlap lo hi s e.
Proof. intros H. unfold overlap. pose proof (Q.le_max_r 0 (Qmin e hi - Qmax s lo)). lra. Qed.

(** What one event of a span class adds to bin [b] is at most the part of
    its livetime interval that lies in the bin. *)
Lemma span_contribution_le_overlap (tbins dt : list Q) (x : Q * Q) (b : nat) :
  contiguous_axis tbins dt -> (1 <= length dt)%nat -> on_axis tbins x ->
  (b < length dt)%nat ->
  let bS := binn (np.but_last tbins) (x.1 - x.2) in
  let bE := binn (np.but_last tbins) x.1 in
  (bS < bE)%nat ->
  (if (bE =? b)%nat then x.1 - edge tbins bE else 0)
  + (if (bS =? b)%nat then edge tbins (S bS) - (x.1 - x.2) else 0)
  + (if (bS + 1 <=? b)%nat && (b <? bE)%nat then nth b dt 0 else 0)
  <= ov tbins b x.
Proof.
  intros Hax HN Hx Hb. cbv zeta.
  destruct (on_axis_bins tbins dt x Hax HN Hx) as (_ & _ & _ & HE & Hs1 & Hs2 & He1 & He2).
  set (bS := binn (np.but_last tbins) (x.1 - x.2)) in *.
  set (bE := binn (np.but_last tbins) x.1) in *.
  intros Hlt. specialize (Hs2 ltac:(lia)).
  pose proof (overlap_nonneg (edge tbins b) (edge tbins (S b)) (x.1 - x.2) x.1) as Hnn.
  unfold ov.
  destruct (Nat.eqb_spec bE b) as [E1 | E1]; destruct (Nat.eqb_spec bS b) as [E2 | E2];
    try lia.
  - replace ((bS + 1 <=? b)%nat && (b <? bE)%nat) with false
      by (symmetry; apply andb_false_iff; right; apply Nat.ltb_ge; lia).
    subst b. apply overlap_ge.
    pose proof (edge_le tbins dt (S bS) bE Hax ltac:(lia) ltac:(lia)).
    rewrite (Q.min_l x.1) by done. rewrite (Q.max_r (x.1 - x.2)) by lra. lra.
  - replace ((bS + 1 <=? b)%nat && (b <? bE)%nat) with false
      by (symmetry; apply andb_false_iff; left; apply Nat.leb_gt; lia).
    subst b. apply overlap_ge.
    pose proof (edge_le tbins dt (S bS) bE Hax ltac:(lia) ltac:(lia)).
    rewrite (Q.min_r x.1) by lra. rewrite (Q.max_l (x.1 - x.2)) by done. lra.
  - destruct ((bS + 1 <=? b)%nat && (b <? bE)%nat) eqn:E3; [|lra].
    apply andb_true_iff in E3 as [E3 E4]. apply Nat.leb_le in E3. apply Nat.ltb_lt in E4.
    apply overlap_ge.
    pose proof (edge_le tbins dt (S bS) b Hax ltac:(lia) ltac:(lia)).
    pose proof (edge_le tbins dt (S b) bE Hax ltac:(lia) ltac:(lia)).
    destruct (proj2 Hax b Hb) as [_ Hw].
    rewrite (Q.min_r x.1) by lra. rewrite (Q.max_r (x.1 - x.2)) by lra. lra.
Qed.

(** ** One pass over a span class *)

Lemma select_par (starts : list Q) (c : Z -> Z -> bool) (ev pr : list Q) :
  length ev = length pr ->
  let idxs := zip_with c (map (bin_of starts) ev)
                (map (bin_of starts) (zip_with Qminus ev pr)) in
  let sel := List.filter (fun x => c (bin_of starts x.1) (bin_of starts (x.1 - x.2)))
               (zip ev pr) in
  np.select idxs (map (bin_of starts) ev) = map (fun x => bin_of starts x.1) sel
  /\ np.select idxs (map (bin_of starts) (zip_with Qminus ev pr))
     = map (fun x => bin_of starts (x.1 - x.2)) sel
  /\ np.select idxs ev = map fst sel
  /\ np.select idxs (zip_with Qminus ev pr) = map (fun x => x.1 - x.2) sel
  /\ np.select idxs pr = map snd sel.
Proof.
  cbv zeta. revert pr. induction ev as [|e ev IH]; intros [|p pr] H; try discriminate.
  - repeat split.
  - injection H as H. destruct (IH pr H) as (I1 & I2 & I3 & I4 & I5).
    cbn [zip_with zip map np.select List.filter fst snd].
    destruct (c (bin_of starts e) (bin_of starts (e - p)));
      cbn [map fst snd]; rewrite I1, I2, I3, I4, I5; repeat split.
Qed.

Lemma zip_with_map_map {X A B C : Type} (k : A -> B -> C) (f : X -> A) (g : X -> B)
    (l : list X) :
  zip_with k (map f l) (map g l) = map (fun x => k (f x) (g x)) l.
Proof. induction l as [|x l IH]; [reflexivity |]. cbn [map zip_with]. by rewrite IH. Qed.

Lemma all_nonneg_map {X : Type} (val : X -> Q) (l : list X) :
  (forall x, In x l -> 0 <= val x) -> np.all_nonneg (map val l) = true.
Proof.
  unfold np.all_nonneg. induction l as [|x l IH]; intros H; [reflexivity |].
  cbn [map forallb]. apply andb_true_iff. split.
  - apply Qle_bool_iff, H. by left.
  - apply IH. intros y Hy. apply H. by right.
Qed.

Lemma axis_width_pos (tbins dt : list Q) (i : nat) :
  contiguous_axis tbins dt -> (i < length dt)%nat -> 0 < nth i dt 0.
Proof. intros Hax Hi. destruct (proj2 Hax i Hi) as [H1 H2]. lra. Qed.

Lemma complete_bins_unfold (dt : list Q) (l : list Z) (la : list Q) (i : Z) :
  complete_bins dt l la i
  = (w ← np.take_at dt (map (fun b => (b + i)%Z) l);
     np.iadd_at la (map (fun b => (b + i)%Z) l) w).
Proof. reflexivity. Qed.

Lemma complete_bins_loop_bounds {X : Type} (tbins dt : list Q) (bS : X -> nat)
    (sel : list X) (n : nat) :
  contiguous_axis tbins dt ->
  forall (m : nat) (la : list Q),
    length la = length dt ->
    (forall x, In x sel -> (bS x + 1 + m + n <= length dt)%nat) ->
    exists la',
      for_each (complete_bins dt (map (fun x => Z.of_nat (bS x)) sel)) la
        (map (fun k => (1 + Z.of_nat k)%Z) (seq m n)) = Ok la'
      /\ length la' = length la
      /\ forall b, nth b la 0 <= nth b la' 0
                   <= nth b la 0
                      + msum (fun x => if (bS x + 1 + m <=? b)%nat
                                          && (b <? bS x + 1 + m + n)%nat
                                       then nth b dt 0 else 0) sel.
Proof.
  intros Hax. induction n as [|n IH]; intros m la Hla Hb.
  - exists la. split; [reflexivity |]. split; [reflexivity |]. intros b.
    assert (0 <= msum (fun x => if (bS x + 1 + m <=? b)%nat && (b <? bS x + 1 + m + 0)%nat
                                then nth b dt 0 else 0) sel).
    { apply msum_nonneg. intros x _.
      replace ((bS x + 1 + m <=? b)%nat && (b <? bS x + 1 + m + 0)%nat) with false; [lra |].
      symmetry. destruct (Nat.leb_spec (bS x + 1 + m) b); [|reflexivity].
      apply Nat.ltb_ge. lia. }
    lra.
  - cbn [seq map for_each]. rewrite complete_bins_unfold.
    rewrite map_map.
    replace (map (fun x => (Z.of_nat (bS x) + (1 + Z.of_nat m))%Z) sel)
      with (map (fun x => Z.of_nat (bS x + 1 + m)) sel)
      by (apply map_ext; intros; lia).
    rewrite take_at_map by (intros x Hx; specialize (Hb x Hx); lia).
    cbn [mbind result_bind rbind].
    destruct (iadd_at_map_bounds (fun x => (bS x + 1 + m)%nat)
                (fun x => nth (bS x + 1 + m) dt 0) la sel) as (la1 & H1 & Hl1 & Hb1).
    { intros x Hx. specialize (Hb x Hx). split; [lia |].
      apply Qlt_le_weak, (axis_width_pos tbins dt); [done | lia]. }
    rewrite H1. cbn [mbind result_bind rbind].
    destruct (IH (S m) la1) as (la' & Hfe & Hl' & Hb').
    { congruence. }
    { intros x Hx. specialize (Hb x Hx). lia. }
    exists la'. split; [exact Hfe |]. split; [congruence |].
    intros b. specialize (Hb1 b). specialize (Hb' b).
    assert (Hsum :
      msum (fun x => if (bS x + 1 + m =? b)%nat then nth (bS x + 1 + m) dt 0 else 0) sel
      + msum (fun x => if (bS x + 1 + S m <=? b)%nat && (b <? bS x + 1 + S m + n)%nat
                       then nth b dt 0 else 0) sel
      <= msum (fun x => if (bS x + 1 + m <=? b)%nat && (b <? bS x + 1 + m + S n)%nat
                        then nth b dt 0 else 0) sel).
    { rewrite <- msum_plus. apply msum_le. intros x Hx. specialize (Hb x Hx).
      destruct (Nat.eqb_spec (bS x + 1 + m) b) as [E | E].
      - subst b.
        replace ((bS x + 1 + S m <=? bS x + 1 + m)%nat) with false
          by (symmetry; apply Nat.leb_gt; lia).
        replace ((bS x + 1 + m <=? bS x + 1 + m)%nat) with true
          by (symmetry; apply Nat.leb_le; lia).
        replace ((bS x + 1 + m <? bS x + 1 + m + S n)%nat) with true
          by (symmetry; apply Nat.ltb_lt; lia).
        cbn [andb]. lra.
      - destruct ((bS x + 1 + S m <=? b)%nat && (b <? bS x + 1 + S m + n)%nat) eqn:E1.
        + apply andb_true_iff in E1 as [E1 E2].
          apply Nat.leb_le in E1. apply Nat.ltb_lt in E2.
          replace ((bS x + 1 + m <=? b)%nat) with true by (symmetry; apply Nat.leb_le; lia).
          replace ((b <? bS x + 1 + m + S n)%nat) with true
            by (symmetry; apply Nat.ltb_lt; lia).
          cbn [andb]. lra.
        + destruct ((bS x + 1 + m <=? b)%nat && (b <? bS x + 1 + m + S n)%nat) eqn:E2;
            [|lra].
          apply andb_true_iff in E2 as [_ E2]. apply Nat.ltb_lt in E2.
          pose proof (axis_width_pos tbins dt b Hax ltac:(lia)). lra. }
    lra.
Qed.

Lemma span_pass_bounds (tbins dt ev pr la : list Q) (D : Z) :
  contiguous_axis tbins dt -> (1 <= length dt)%nat ->
  length ev = length pr ->
  (forall x, In x (zip ev pr) -> on_axis tbins x) ->
  length la = length dt -> (1 <= D)%Z ->
  exists la',
    span_pass (np.but_last tbins) dt
      (map (bin_of (np.but_last tbins)) ev)
      (map (bin_of (np.but_last tbins)) (zip_with Qminus ev pr))
      ev (zip_with Qminus ev pr) la D = Ok la'
    /\ length la' = length dt
    /\ forall b, (b < length dt)%nat ->
         nth b la 0 <= nth b la' 0
         <= nth b la 0
            + msum (ov tbins b) (List.filter (span_class (np.but_last tbins) D) (zip ev pr)).
Proof.
  intros Hax HN Hlen Hon Hla HD.
  pose proof (proj1 Hax) as Htl.
  set (starts := np.but_last tbins).
  set (bE := fun x : Q * Q => binn starts x.1).
  set (bS := fun x : Q * Q => binn starts (x.1 - x.2)).
  destruct (select_par starts (fun e l => (e =? l + D)%Z) ev pr Hlen)
    as (S1 & S2 & S3 & S4 & _).
  change (List.filter _ (zip ev pr)) with (List.filter (span_class starts D) (zip ev pr))
    in S1, S2, S3, S4.
  set (sel := List.filter (span_class starts D) (zip ev pr)) in *.
  assert (Hsel : forall x, In x sel ->
            on_axis tbins x /\ (bS x < bE x)%nat /\ Z.of_nat (bE x) = (Z.of_nat (bS x) + D)%Z
            /\ (bE x < length dt)%nat
            /\ bin_of starts x.1 = Z.of_nat (bE x)
            /\ bin_of starts (x.1 - x.2) = Z.of_nat (bS x)
            /\ edge tbins (bE x) <= x.1
            /\ x.1 - x.2 < edge tbins (S (bS x))).
  { intros x Hx. apply filter_In in Hx as [Hx Hc].
    pose proof (Hon x Hx) as Hox.
    destruct (on_axis_bins tbins dt x Hax HN Hox) as (B1 & B2 & B3 & B4 & B5 & B6 & B7 & B8).
    fold starts in B1, B2, B3, B4, B5, B6, B7, B8.
    fold (bS x) in B1, B3, B5, B6. fold (bE x) in B2, B3, B4, B7, B8.
    unfold span_class in Hc. apply Z.eqb_eq in Hc.
    assert ((bS x < bE x)%nat) by lia.
    split; [exact Hox |]. split; [lia |]. split; [lia |]. split; [exact B4 |].
    split; [exact B2 |]. split; [exact B1 |]. split; [exact B7 |]. apply B6. lia. }
  unfold span_pass. cbv zeta. rewrite S1, S2, S3, S4.
  assert (A1 : map (bin_of starts) (map fst sel) = map (fun x => Z.of_nat (bE x)) sel).
  { rewrite map_map. apply map_ext_in. intros x Hx. apply (Hsel x Hx). }
  assert (A2 : map (fun x : Q * Q => bin_of starts x.1) sel
               = map (fun x => Z.of_nat (bE x)) sel).
  { apply map_ext_in. intros x Hx. apply (Hsel x Hx). }
  assert (A3 : map (fun x : Q * Q => bin_of starts (x.1 - x.2)) sel
               = map (fun x => Z.of_nat (bS x)) sel).
  { apply map_ext_in. intros x Hx. apply (Hsel x Hx). }
  assert (A4 : map (np.searchsorted_right starts) (map (fun x : Q * Q => x.1 - x.2) sel)
               = map (fun x => Z.of_nat (S (bS x))) sel).
  { rewrite map_map. apply map_ext_in. intros x Hx.
    destruct (Hsel x Hx) as (_ & _ & _ & _ & _ & H & _). unfold bin_of in H. lia. }
  rewrite A1, A2, A3, A4.
  assert (Hst : forall i, (i < length dt)%nat -> nth i starts 0 = edge tbins i).
  { intros i Hi. unfold starts. rewrite but_last_nth by lia. reflexivity. }
  assert (Hsl : length starts = length dt).
  { unfold starts. rewrite but_last_length. lia. }
  (* the end bins *)
  rewrite (take_at_map bE starts sel) by (intros x Hx; rewrite Hsl; apply (Hsel x Hx)).
  cbn [mbind result_bind rbind]. rewrite zip_with_map_map.
  destruct (iadd_at_map_bounds bE (fun x => x.1 - nth (bE x) starts 0) la sel)
    as (la1 & H1 & Hl1 & Hb1).
  { intros x Hx. destruct (Hsel x Hx) as (_ & _ & _ & H4 & _ & _ & H7 & _).
    split; [lia |]. rewrite Hst by done. lra. }
  rewrite H1. cbn [mbind result_bind rbind].
  rewrite all_nonneg_map.
  2: { intros x Hx. destruct (Hsel x Hx) as (_ & _ & _ & H4 & _ & _ & H7 & _).
       rewrite Hst by done. lra. }
  cbn [py_assert mbind result_bind rbind].
  (* the start bins *)
  rewrite (take_at_map (fun x => S (bS x)) starts sel).
  2: { intros x Hx. rewrite Hsl. destruct (Hsel x Hx) as (_ & ? & _ & ? & _). lia. }
  cbn [mbind result_bind rbind]. rewrite zip_with_map_map.
  destruct (iadd_at_map_bounds bS (fun x => nth (S (bS x)) starts 0 - (x.1 - x.2)) la1 sel)
    as (la2 & H2 & Hl2 & Hb2).
  { intros x Hx. destruct (Hsel x Hx) as (_ & H2' & _ & H4 & _ & _ & _ & H8).
    split; [lia |]. rewrite Hst by lia. lra. }
  rewrite H2. cbn [mbind result_bind rbind].
  rewrite all_nonneg_map.
  2: { intros x Hx. destruct (Hsel x Hx) as (_ & H2' & _ & H4 & _ & _ & _ & H8).
       rewrite Hst by lia. lra. }
  cbn [py_assert mbind result_bind rbind].
  (* the bins in between *)
  assert (Hloop : exists la',
    (if (1 <? D)%Z
     then for_each (complete_bins dt (map (fun x => Z.of_nat (bS x)) sel)) la2 (np.range 1 D)
     else Ok la2) = Ok la'
    /\ length la' = length la2
    /\ forall b, nth b la2 0 <= nth b la' 0
                 <= nth b la2 0
                    + msum (fun x => if (bS x + 1 <=? b)%nat && (b <? bE x)%nat
                                     then nth b dt 0 else 0) sel).
  { assert (Hmono : forall b,
      msum (fun x => if (bS x + 1 + 0 <=? b)%nat
                        && (b <? bS x + 1 + 0 + Z.to_nat (D - 1))%nat
                     then nth b dt 0 else 0) sel
      <= msum (fun x => if (bS x + 1 <=? b)%nat && (b <? bE x)%nat
                        then nth b dt 0 else 0) sel).
    { intros b. apply msum_le. intros x Hx.
      destruct (Hsel x Hx) as (_ & _ & H3 & _).
      replace (bS x + 1 + 0 + Z.to_nat (D - 1))%nat with (bE x) by lia.
      replace (bS x + 1 + 0)%nat with (bS x + 1)%nat by lia. lra. }
    destruct (1 <? D)%Z eqn:E.
    - destruct (complete_bins_loop_bounds tbins dt bS sel (Z.to_nat (D - 1)) Hax 0%nat la2)
        as (la' & Hfe & Hl' & Hb').
      { congruence. }
      { intros x Hx. destruct (Hsel x Hx) as (_ & _ & H3 & H4 & _). lia. }
      exists la'. split; [exact Hfe |]. split; [exact Hl' |].
      intros b. specialize (Hb' b). specialize (Hmono b). lra.
    - exists la2. split; [reflexivity |]. split; [reflexivity |]. intros b.
      assert (0 <= msum (fun x => if (bS x + 1 <=? b)%nat && (b <? bE x)%nat
                                  then nth b dt 0 else 0) sel).
      { apply msum_nonneg. intros x Hx.
        destruct (Hsel x Hx) as (_ & _ & H3 & H4 & _).
        destruct ((bS x + 1 <=? b)%nat && (b <? bE x)%nat) eqn:E1; [|lra].
        apply andb_true_iff in E1 as [_ E1]. apply Nat.ltb_lt in E1.
        apply Qlt_le_weak, (axis_width_pos tbins dt); [done | lia]. }
      lra. }
  destruct Hloop as (la' & Hfe & Hl' & Hb').
  exists la'. split; [exact Hfe |]. split; [congruence |].
  intros b Hb. specialize (Hb1 b). specialize (Hb2 b). specialize (Hb' b).
  assert (Hsum :
    msum (fun x => if (bE x =? b)%nat then x.1 - nth (bE x) starts 0 else 0) sel
    + msum (fun x => if (bS x =? b)%nat
                     then nth (S (bS x)) starts 0 - (x.1 - x.2) else 0) sel
    + msum (fun x => if (bS x + 1 <=? b)%nat && (b <? bE x)%nat
                     then nth b dt 0 else 0) sel
    <= msum (ov tbins b) sel).
  { rewrite <- !msum_plus. apply msum_le. intros x Hx.
    destruct (Hsel x Hx) as (Hox & H2' & _ & H4 & _).
    pose proof (span_contribution_le_overlap tbins dt x b Hax HN Hox Hb H2') as Hc.
    fold starts in Hc. fold (bS x) in Hc. fold (bE x) in Hc.
    rewrite (Hst (bE x)) by done. rewrite (Hst (S (bS x))) by lia. exact Hc. }
  lra.
Qed.

(** ** Disjoint livetime intervals *)

Lemma disjoint_overlap_le (lo hi c : Q) (l : list (Q * Q)) :
  disjoint_from c l ->
  msum (fun x => overlap lo hi (x.1 - x.2) x.1) l <= Qmax 0 (hi - Qmax lo c).
Proof.
  revert c. induction l as [|x l IH]; intros c H.
  - cbn. apply Q.le_max_l.
  - destruct H as [[H1 H2] H3]. rewrite msum_cons. specialize (IH x.1 H3).
    unfold overlap in *.
    destruct (Q.max_spec lo c) as [[? ?] | [? ?]];
    destruct (Q.max_spec lo x.1) as [[? ?] | [? ?]];
    destruct (Q.max_spec (x.1 - x.2) lo) as [[? ?] | [? ?]];
    destruct (Q.min_spec x.1 hi) as [[? ?] | [? ?]];
    destruct (Q.max_spec 0 (Qmin x.1 hi - Qmax (x.1 - x.2) lo)) as [[? ?] | [? ?]];
    destruct (Q.max_spec 0 (hi - Qmax lo c)) as [[? ?] | [? ?]];
    destruct (Q.max_spec 0 (hi - Qmax lo x.1)) as [[? ?] | [? ?]];
    lra.
Qed.

Lemma disjoint_shift (c e0 : Q) (l : list (Q * Q)) :
  disjoint_from c l -> disjoint_from (c - e0) (map (fun x => (x.1 - e0, x.2)) l).
Proof.
  revert c. induction l as [|x l IH]; intros c H; [exact I |].
  destruct H as [[H1 H2] H3]. cbn [map disjoint_from fst snd].
  split; [split; lra |]. by apply IH.
Qed.

Lemma zip_map_fst {A B C : Type} (f : A -> C) (a : list A) (b : list B) :
  zip (map f a) b = map (fun x => (f x.1, x.2)) (zip a b).
Proof.
  revert b. induction a as [|x a IH]; intros [|y b]; try reflexivity.
  cbn [map zip zip_with fst snd]. f_equal. apply IH.
Qed.

(** ** The passes together *)

Lemma sumw_map (inb : Q -> bool) (sel : list (Q * Q)) :
  np.sumw inb (map fst sel) (map snd sel)
  = msum (fun x => if inb x.1 then x.2 else 0) sel.
Proof.
  induction sel as [|x sel IH]; [reflexivity |].
  cbn [map np.sumw]. rewrite IH. reflexivity.
Qed.

Lemma bin_sums_nth (bins a w : list Q) (i : nat) :
  (S i < length bins)%nat ->
  nth i (np.bin_sums bins a w) 0
  = np.sumw (np.in_bin (nth i bins 0) (nth (S i) bins 0) (S (S i) =? length bins)%nat) a w.
Proof.
  revert i. induction bins as [|lo bins IH]; intros i Hi; [cbn in Hi; lia |].
  destruct bins as [|hi rest]; [cbn in Hi; lia |].
  destruct i as [|i].
  - cbn [np.bin_sums nth length]. destruct rest; reflexivity.
  - cbn [np.bin_sums]. cbn [nth]. rewrite IH by (cbn [length] in *; lia).
    reflexivity.
Qed.

Lemma same_bin_contribution (tbins dt : list Q) (x : Q * Q) (b : nat) :
  contiguous_axis tbins dt -> (1 <= length dt)%nat -> on_axis tbins x ->
  (b < length dt)%nat ->
  bin_of (np.but_last tbins) x.1 = bin_of (np.but_last tbins) (x.1 - x.2) ->
  0 <= (if np.in_bin (edge tbins b) (edge tbins (S b)) (S (S b) =? length tbins)%nat x.1
        then x.2 else 0)
  <= ov tbins b x.
Proof.
  intros Hax HN Hx Hb Heq.
  pose proof (proj1 Hax) as Hlen.
  pose proof (overlap_nonneg (edge tbins b) (edge tbins (S b)) (x.1 - x.2) x.1) as Hnn.
  fold (ov tbins b x) in Hnn.
  destruct (np.in_bin _ _ _ x.1) eqn:E; [|lra].
  destruct (on_axis_bins tbins dt x Hax HN Hx) as (B1 & B2 & _ & B4 & B5 & _ & _ & B8).
  destruct Hx as (Hp & _ & _).
  unfold np.in_bin in E. apply andb_true_iff in E as [E1 E2].
  apply Qle_bool_iff in E1.
  assert (Hbin : bin_of (np.but_last tbins) x.1 = Z.of_nat b).
  { apply (bin_of_unique tbins dt); [done | done | done |]. intros Hlt.
    replace (S (S b) =? length tbins)%nat with false in E2
      by (symmetry; apply Nat.eqb_neq; lia).
    by apply Qltb_lt. }
  assert (HbE : binn (np.but_last tbins) x.1 = b) by (unfold binn; lia).
  assert (HbS : binn (np.but_last tbins) (x.1 - x.2) = b) by (unfold binn; lia).
  rewrite HbS in B5. rewrite HbE in B8.
  unfold ov. rewrite overlap_inner by done.
  rewrite (Q.max_r 0) by lra. lra.
Qed.

Lemma one_class_le {X : Type} (cls : Z -> X -> bool) (f : X -> Q) (x : X) (Ds : list Z) :
  (forall D D', cls D x = true -> cls D' x = true -> D = D') ->
  NoDup Ds -> 0 <= f x ->
  msum (fun D => if cls D x then f x else 0) Ds <= f x.
Proof.
  intros Hu Hnd Hf. induction Hnd as [|D Ds Hni Hnd IH]; [cbn; lra |].
  rewrite msum_cons. destruct (cls D x) eqn:E; [|lra].
  assert (Hz : msum (fun D' => if cls D' x then f x else 0) Ds <= 0).
  { clear IH. induction Ds as [|D' Ds IH]; [cbn; lra |].
    rewrite msum_cons. destruct (cls D' x) eqn:E'.
    - exfalso. apply Hni. rewrite (Hu D D' E E'). by left.
    - assert (msum (fun D'0 => if cls D'0 x then f x else 0) Ds <= 0).
      { apply IH; [intros ?; apply Hni; by right | by inversion Hnd]. }
      lra. }
  lra.
Qed.

Lemma classes_le {X : Type} (cls : Z -> X -> bool) (f : X -> Q) (l : list X) (Ds : list Z) :
  (forall x D D', cls D x = true -> cls D' x = true -> D = D') ->
  NoDup Ds -> (forall x, In x l -> 0 <= f x) ->
  msum (fun D => msum f (List.filter (cls D) l)) Ds <= msum f l.
Proof.
  intros Hu Hnd. induction l as [|x l IH]; intros Hf.
  - assert (H : msum (fun D => msum f (List.filter (cls D) [])) Ds <= 0).
    { clear. induction Ds as [|D Ds IH]; [cbn; lra |]. rewrite msum_cons. cbn in *. lra. }
    cbn in *. lra.
  - rewrite msum_cons.
    assert (H1 : msum (fun D => msum f (List.filter (cls D) (x :: l))) Ds
                 <= msum (fun D => (if cls D x then f x else 0)
                                   + msum f (List.filter (cls D) l)) Ds).
    { apply msum_le. intros D _. rewrite msum_filter_cons. lra. }
    rewrite msum_plus in H1.
    pose proof (one_class_le cls f x Ds (Hu x) Hnd (Hf x (or_introl eq_refl))).
    pose proof (IH (fun y Hy => Hf y (or_intror Hy))). lra.
Qed.

Lemma span_class_unique (starts : list Q) (x : Q * Q) (D D' : Z) :
  span_class starts D x = true -> span_class starts D' x = true -> D = D'.
Proof. unfold span_class. intros H1%Z.eqb_eq H2%Z.eqb_eq. lia. Qed.

Lemma range_down_ge_1 (m : Z) : Forall (fun D => (1 <= D)%Z) (np.range_down m).
Proof.
  unfold np.range_down. apply Forall_forall. intros D HD.
  apply list_elem_of_In, in_map_iff in HD as (k & <- & Hk%in_seq). lia.
Qed.

Lemma range_down_NoDup (m : Z) : NoDup (0%Z :: np.range_down m).
Proof.
  constructor.
  - intros H. pose proof (range_down_ge_1 m) as HF.
    rewrite Forall_forall in HF.
    specialize (HF 0%Z H). lia.
  - unfold np.range_down. generalize 0%nat as a. generalize (Z.to_nat m) as n.
    induction n as [|n IH]; intros a; [constructor |].
    cbn [seq map]. constructor; [|apply IH].
    intros H. apply list_elem_of_In, in_map_iff in H as (k & Hk & Hk'%in_seq). lia.
Qed.

Lemma passes_bounds (tbins dt ev pr : list Q) :
  contiguous_axis tbins dt -> (1 <= length dt)%nat ->
  length ev = length pr ->
  (forall x, In x (zip ev pr) -> on_axis tbins x) ->
  forall (Ds : list Z) (la : list Q),
    Forall (fun D => (1 <= D)%Z) Ds -> length la = length dt ->
    exists la',
      for_each (span_pass (np.but_last tbins) dt
                  (map (bin_of (np.but_last tbins)) ev)
                  (map (bin_of (np.but_last tbins)) (zip_with Qminus ev pr))
                  ev (zip_with Qminus ev pr)) la Ds = Ok la'
      /\ length la' = length dt
      /\ forall b, (b < length dt)%nat ->
           nth b la 0 <= nth b la' 0
           <= nth b la 0
              + msum (fun D => msum (ov tbins b)
                                 (List.filter (span_class (np.but_last tbins) D) (zip ev pr)))
                  Ds.
Proof.
  intros Hax HN Hlen Hon Ds. induction Ds as [|D Ds IH]; intros la HDs Hla.
  - exists la. split; [reflexivity |]. split; [exact Hla |]. intros b _. cbn. lra.
  - inversion HDs as [|? ? HD HDs']; subst.
    destruct (span_pass_bounds tbins dt ev pr la D Hax HN Hlen Hon Hla HD)
      as (la1 & H1 & Hl1 & Hb1).
    cbn [for_each]. rewrite H1. cbn [mbind result_bind rbind].
    destruct (IH la1 HDs' Hl1) as (la' & Hfe & Hl' & Hb').
    exists la'. split; [exact Hfe |]. split; [exact Hl' |].
    intros b Hb. specialize (Hb1 b Hb). specialize (Hb' b Hb). rewrite msum_cons. lra.
Qed.

Lemma accumulate_bounds (tbins dt ev pr : list Q) :
  contiguous_axis tbins dt -> (1 <= length dt)%nat ->
  length ev = length pr -> ev <> [] ->
  (forall x, In x (zip ev pr) -> on_axis tbins x) ->
  exists arr,
    accumulate (length dt) tbins dt ev pr (zip_with Qminus ev pr) = Ok arr
    /\ length arr = length dt
    /\ forall b, (b < length dt)%nat ->
                 0 <= nth b arr 0 <= msum (ov tbins b) (zip ev pr).
Proof.
  intros Hax HN Hlen Hne Hon.
  pose proof (proj1 Hax) as Htl.
  set (starts := np.but_last tbins).
  unfold accumulate. cbv zeta. fold starts.
  destruct (select_par starts Z.eqb ev pr Hlen) as (_ & _ & S3 & _ & S5).
  rewrite S3, S5.
  set (sel0 := List.filter _ (zip ev pr)).
  assert (Hsel0 : sel0 = List.filter (span_class starts 0) (zip ev pr)).
  { unfold sel0. apply filter_ext. intros x. unfold span_class. by rewrite Z.add_0_r. }
  unfold np.histogram. rewrite (axis_monotone _ _ Hax).
  cbn [mbind result_bind rbind]. rewrite same_bin_assert_vacuous.
  cbn [mbind result_bind rbind].
  rewrite iadd_same_length by (rewrite repeat_length, bin_sums_length; lia).
  cbn [mbind result_bind rbind].
  destruct (np.max _) as [m | e] eqn:Emax.
  2: { exfalso. destruct ev as [|e' ev]; [done |]. destruct pr as [|p' pr]; [discriminate |].
       cbn in Emax. discriminate. }
  cbn [mbind result_bind rbind].
  set (la0 := zip_with Qplus (repeat 0 (length dt)) (np.bin_sums tbins (map fst sel0) (map snd sel0))).
  assert (Hla0 : length la0 = length dt).
  { unfold la0. rewrite length_zip_with, repeat_length, bin_sums_length. lia. }
  destruct (passes_bounds tbins dt ev pr Hax HN Hlen Hon (np.range_down m) la0
              (range_down_ge_1 m) Hla0) as (arr & Hfe & Hl & Hb).
  fold starts in Hfe. exists arr. split; [exact Hfe |]. split; [exact Hl |].
  intros b Hlt. specialize (Hb b Hlt). fold starts in Hb.
  assert (H0 : nth b la0 0
               == msum (fun x => if np.in_bin (edge tbins b) (edge tbins (S b))
                                      (S (S b) =? length tbins)%nat x.1
                                 then x.2 else 0) sel0).
  { unfold la0. rewrite zip_zero_nth by (rewrite ?bin_sums_length; lia).
    rewrite bin_sums_nth by lia. rewrite sumw_map. reflexivity. }
  assert (Hin0 : forall x, In x sel0 ->
            on_axis tbins x /\ bin_of starts x.1 = bin_of starts (x.1 - x.2)).
  { intros x Hx. unfold sel0 in Hx. apply filter_In in Hx as [Hx Hc].
    split; [by apply Hon | by apply Z.eqb_eq]. }
  assert (H1 : 0 <= nth b la0 0 <= msum (ov tbins b) sel0).
  { rewrite H0. split.
    - apply msum_nonneg. intros x Hx. destruct (Hin0 x Hx) as [Ho He].
      apply (same_bin_contribution tbins dt x b Hax HN Ho Hlt He).
    - apply msum_le. intros x Hx. destruct (Hin0 x Hx) as [Ho He].
      apply (same_bin_contribution tbins dt x b Hax HN Ho Hlt He). }
  pose proof (classes_le (span_class starts) (ov tbins b) (zip ev pr) (0%Z :: np.range_down m)
                (span_class_unique starts) (range_down_NoDup m)) as Hc.
  rewrite msum_cons, <- Hsel0 in Hc.
  specialize (Hc ltac:(intros x _; apply overlap_nonneg)). lra.
Qed.

(** ** Time frames

    The binner computes in the frame of [events[0]].  The lemmas of this
    section show that its stages do not depend on the frame: with all times
    moved by the same amount, every comparison has the same outcome and every
    difference of two times the same value. *)

Lemma shifted_refl (l : list Q) : Forall2 (shifted 0) l l.
Proof. induction l; constructor; [unfold shifted; lra | done]. Qed.

Lemma Qeq_shifted (l l2 : list Q) : Forall2 Qeq l l2 -> Forall2 (shifted 0) l l2.
Proof.
  induction 1 as [|x y l l2 H _ IH]; constructor; [unfold shifted; rewrite H; lra | done].
Qed.

Lemma Qle_bool_shifted (c x y x2 y2 : Q) :
  shifted c x x2 -> shifted c y y2 -> Qle_bool x2 y2 = Qle_bool x y.
Proof.
  unfold shifted. intros Hx Hy. apply eq_true_iff_eq. rewrite !Qle_bool_iff. split; lra.
Qed.

Lemma Qltb_shifted (c x y x2 y2 : Q) :
  shifted c x x2 -> shifted c y y2 -> np.Qltb x2 y2 = np.Qltb x y.
Proof. intros Hx Hy. unfold np.Qltb. by rewrite (Qle_bool_shifted c y x y2 x2). Qed.

Lemma searchsorted_right_shifted (c : Q) (a a2 : list Q) (v v2 : Q) :
  Forall2 (shifted c) a a2 -> shifted c v v2 ->
  np.searchsorted_right a2 v2 = np.searchsorted_right a v.
Proof.
  intros Ha Hv. induction Ha as [|x x2 a a2 Hx _ IH]; [reflexivity |].
  cbn [np.searchsorted_right]. rewrite (Qle_bool_shifted c x v x2 v2 Hx Hv), IH.
  reflexivity.
Qed.

Lemma map_searchsorted_shifted (c : Q) (a a2 l l2 : list Q) :
  Forall2 (shifted c) a a2 -> Forall2 (shifted c) l l2 ->
  map (np.searchsorted_right a2) l2 = map (np.searchsorted_right a) l.
Proof.
  intros Ha. induction 1 as [|x x2 l l2 Hx _ IH]; [reflexivity |].
  cbn [map]. by rewrite (searchsorted_right_shifted c a a2 x x2 Ha Hx), IH.
Qed.

Lemma map_bin_of_shifted (c : Q) (a a2 l l2 : list Q) :
  Forall2 (shifted c) a a2 -> Forall2 (shifted c) l l2 ->
  map (bin_of a2) l2 = map (bin_of a) l.
Proof.
  intros Ha. induction 1 as [|x x2 l l2 Hx _ IH]; [reflexivity |].
  cbn [map]. unfold bin_of at 1 3.
  by rewrite (searchsorted_right_shifted c a a2 x x2 Ha Hx), IH.
Qed.

Lemma but_last_Forall2 {A B : Type} (R : A -> B -> Prop) (a : list A) (b : list B) :
  Forall2 R a b -> Forall2 R (np.but_last a) (np.but_last b).
Proof.
  intros H. unfold np.but_last. rewrite <- (Forall2_length _ _ _ H). by apply Forall2_take.
Qed.

Lemma select_Forall2 {A B : Type} (R : A -> B -> Prop) (m : list bool) (a : list A)
    (b : list B) :
  Forall2 R a b -> Forall2 R (np.select m a) (np.select m b).
Proof.
  intros H. revert m. induction H as [|x y a b Hxy _ IH]; intros [|[|] m];
    cbn [np.select]; try constructor; auto.
Qed.

Lemma zip_with_minus_shifted (c : Q) (a a2 b b2 : list Q) :
  Forall2 (shifted c) a a2 -> Forall2 (shifted c) b b2 ->
  Forall2 Qeq (zip_with Qminus a b) (zip_with Qminus a2 b2).
Proof.
  intros Ha. revert b b2. induction Ha as [|x x2 a a2 Hx _ IH]; intros b b2 Hb.
  - constructor.
  - destruct Hb as [|y y2 b b2 Hy Hb]; cbn [zip_with]; constructor; [|by apply IH].
    unfold shifted in *. lra.
Qed.

Lemma zip_with_plus_Qeq (a a2 b b2 : list Q) :
  Forall2 Qeq a a2 -> Forall2 Qeq b b2 ->
  Forall2 Qeq (zip_with Qplus a b) (zip_with Qplus a2 b2).
Proof.
  intros Ha. revert b b2. induction Ha as [|x x2 a a2 Hx _ IH]; intros b b2 Hb.
  - constructor.
  - destruct Hb as [|y y2 b b2 Hy Hb]; cbn [zip_with]; constructor; [|by apply IH].
    by rewrite Hx, Hy.
Qed.

Lemma all_nonneg_Qeq (a a2 : list Q) :
  Forall2 Qeq a a2 -> np.all_nonneg a2 = np.all_nonneg a.
Proof.
  unfold np.all_nonneg. induction 1 as [|x x2 a a2 Hx _ IH]; [reflexivity |].
  cbn [forallb]. rewrite IH. f_equal.
  apply eq_true_iff_eq. rewrite !Qle_bool_iff. by rewrite Hx.
Qed.

Lemma monotone_shifted (c : Q) (a a2 : list Q) :
  Forall2 (shifted c) a a2 -> np.monotone a2 = np.monotone a.
Proof.
  induction 1 as [|x x2 a a2 Hx Ha IH]; [reflexivity |].
  destruct Ha as [|y y2 a a2 Hy Ha]; [reflexivity |].
  cbn [np.monotone] in *. by rewrite IH, (Qle_bool_shifted c x y x2 y2 Hx Hy).
Qed.

Lemma sumw_shifted (c : Q) (inb inb2 : Q -> bool) (a a2 w w2 : list Q) :
  (forall x x2, shifted c x x2 -> inb2 x2 = inb x) ->
  Forall2 (shifted c) a a2 -> Forall2 Qeq w w2 ->
  np.sumw inb a w == np.sumw inb2 a2 w2.
Proof.
  intros Hin Ha. revert w w2. induction Ha as [|x x2 a a2 Hx _ IH]; intros w w2 Hw.
  - reflexivity.
  - destruct Hw as [|y y2 w w2 Hy Hw]; cbn [np.sumw]; [reflexivity |].
    rewrite (Hin x x2 Hx), (IH w w2 Hw). destruct (inb x); [by rewrite Hy | reflexivity].
Qed.

Lemma in_bin_shifted (c lo hi lo2 hi2 : Q) (last : bool) (x x2 : Q) :
  shifted c lo lo2 -> shifted c hi hi2 -> shifted c x x2 ->
  np.in_bin lo2 hi2 last x2 = np.in_bin lo hi last x.
Proof.
  intros Hlo Hhi Hx. unfold np.in_bin.
  rewrite (Qle_bool_shifted c lo x lo2 x2 Hlo Hx).
  rewrite (Qle_bool_shifted c x hi x2 hi2 Hx Hhi).
  by rewrite (Qltb_shifted c x hi x2 hi2 Hx Hhi).
Qed.

Lemma bin_sums_shifted (c : Q) (bins bins2 a a2 w w2 : list Q) :
  Forall2 (shifted c) bins bins2 -> Forall2 (shifted c) a a2 -> Forall2 Qeq w w2 ->
  Forall2 Qeq (np.bin_sums bins a w) (np.bin_sums bins2 a2 w2).
Proof.
  intros Hb Ha Hw. induction Hb as [|lo lo2 bins bins2 Hlo Hb IH]; [constructor |].
  destruct Hb as [|hi hi2 rest rest2 Hhi Hrest]; [constructor |].
  cbn [np.bin_sums] in *. constructor; [|exact IH].
  apply (sumw_shifted c); [|done | done].
  intros x x2 Hx. destruct Hrest; by apply (in_bin_shifted c).
Qed.

Lemma histogram_shifted (c : Q) (a a2 bins bins2 w w2 expo : list Q) :
  Forall2 (shifted c) bins bins2 -> Forall2 (shifted c) a a2 -> Forall2 Qeq w w2 ->
  np.histogram a bins w = Ok expo ->
  exists expo2, np.histogram a2 bins2 w2 = Ok expo2 /\ Forall2 Qeq expo expo2.
Proof.
  intros Hb Ha Hw. unfold np.histogram. rewrite (monotone_shifted c bins bins2 Hb).
  destruct (np.monotone bins); [|discriminate]. intros [= <-].
  eexists. split; [reflexivity |]. by apply (bin_sums_shifted c).
Qed.

(** ** Arrays that agree entry by entry *)

Lemma getitem_Forall2 {A B : Type} (R : A -> B -> Prop) (a : list A) (b : list B)
    (i : Z) (x : A) :
  Forall2 R a b -> np.getitem a i = Ok x ->
  exists y, np.getitem b i = Ok y /\ R x y.
Proof.
  intros H. unfold np.getitem. rewrite <- (Forall2_length _ _ _ H).
  destruct (np.norm_index (length a) i) as [k|]; [|discriminate].
  cbn [mbind result_bind rbind].
  destruct (a !! k) as [x'|] eqn:E; [|discriminate]. intros [= <-].
  destruct (Forall2_lookup_l _ _ _ _ _ H E) as (y & -> & Hy). by exists y.
Qed.

Lemma take_at_Forall2 {A B : Type} (R : A -> B -> Prop) (a : list A) (b : list B)
    (idx : list Z) (r : list A) :
  Forall2 R a b -> np.take_at a idx = Ok r ->
  exists r2, np.take_at b idx = Ok r2 /\ Forall2 R r r2.
Proof.
  intros H. unfold np.take_at. revert r. induction idx as [|i idx IH]; intros r Hr.
  - injection Hr as <-. exists []. by split.
  - cbn [np.map_result] in *.
    apply bind_Ok_inv in Hr as (x & Hx & Hr). apply bind_Ok_inv in Hr as (xs & Hxs & Hr).
    injection Hr as <-.
    destruct (getitem_Forall2 R a b i x H Hx) as (y & -> & Hy).
    destruct (IH xs Hxs) as (ys & -> & Hys).
    exists (y :: ys). split; [reflexivity | by constructor].
Qed.

Lemma put_at_Qeq (a a2 : list Q) (ks : list nat) (v v2 : list Q) :
  Forall2 Qeq a a2 -> Forall2 Qeq v v2 ->
  Forall2 Qeq (np.put_at a ks v) (np.put_at a2 ks v2).
Proof.
  intros Ha Hv. revert a a2 Ha ks.
  induction Hv as [|x x2 v v2 Hx _ IH]; intros a a2 Ha [|k ks]; cbn [np.put_at]; try done.
  apply IH. by apply Forall2_insert.
Qed.

Lemma iadd_at_Qeq (a a2 : list Q) (idx : list Z) (v v2 r : list Q) :
  Forall2 Qeq a a2 -> Forall2 Qeq v v2 ->
  np.iadd_at a idx v = Ok r ->
  exists r2, np.iadd_at a2 idx v2 = Ok r2 /\ Forall2 Qeq r r2.
Proof.
  intros Ha Hv. unfold np.iadd_at. rewrite <- (Forall2_length _ _ _ Ha). intros H.
  apply bind_Ok_inv in H as (ks & -> & H). apply bind_Ok_inv in H as (old & Hold & H).
  injection H as <-. cbn [mbind result_bind rbind].
  destruct (take_at_Forall2 Qeq a a2 idx old Ha Hold) as (old2 & -> & Ho).
  eexists. split; [reflexivity |].
  apply put_at_Qeq; [done |]. by apply zip_with_plus_Qeq.
Qed.

Lemma iadd_Qeq (a b b2 r : list Q) :
  Forall2 Qeq b b2 -> np.iadd a b = Ok r ->
  exists r2, np.iadd a b2 = Ok r2 /\ Forall2 Qeq r r2.
Proof.
  intros Hb. unfold np.iadd. rewrite <- (Forall2_length _ _ _ Hb).
  destruct (length a =? length b)%nat.
  - intros [= <-]. eexists. split; [reflexivity |].
    apply zip_with_plus_Qeq; [|done]. clear. induction a; by constructor.
  - destruct Hb as [|y y2 b b2 Hy Hb]; [discriminate |].
    destruct Hb; [|discriminate]. intros [= <-]. eexists. split; [reflexivity |].
    clear -Hy. induction a as [|x a IH]; cbn [map]; constructor; [by rewrite Hy | done].
Qed.

Lemma for_each_rel {A S : Type} (R : S -> S -> Prop) (body body2 : S -> A -> result S)
    (l : list A) :
  (forall s s2 x t, R s s2 -> body s x = Ok t -> exists t2, body2 s2 x = Ok t2 /\ R t t2) ->
  forall s s2 t, R s s2 -> for_each body s l = Ok t ->
                 exists t2, for_each body2 s2 l = Ok t2 /\ R t t2.
Proof.
  intros Hb. induction l as [|x l IH]; intros s s2 t Hs H.
  - injection H as <-. by exists s2.
  - cbn [for_each] in *. apply bind_Ok_inv in H as (s' & Hs' & H).
    destruct (Hb s s2 x s' Hs Hs') as (s2' & -> & Hs2').
    cbn [mbind result_bind rbind]. by apply (IH s' s2' t).
Qed.

Lemma py_assert_Ok (b : bool) (u : unit) : py_assert b = Ok u -> b = true.
Proof. by destruct b. Qed.

Lemma span_pass_shifted (c : Q) (st st2 dt : list Q) (eb lb : list Z)
    (ev ev2 lts lts2 la la2 : list Q) (D : Z) (t : list Q) :
  Forall2 (shifted c) st st2 -> Forall2 (shifted c) ev ev2 ->
  Forall2 (shifted c) lts lts2 -> Forall2 Qeq la la2 ->
  span_pass st dt eb lb ev lts la D = Ok t ->
  exists t2, span_pass st2 dt eb lb ev2 lts2 la2 D = Ok t2 /\ Forall2 Qeq t t2.
Proof.
  intros Hst Hev Hlts Hla. unfold span_pass. cbv zeta.
  set (idxs := zip_with (fun e l => (e =? l + D)%Z) eb lb).
  pose proof (select_Forall2 (shifted c) idxs ev ev2 Hev) as Heg.
  pose proof (select_Forall2 (shifted c) idxs lts lts2 Hlts) as Hlg.
  rewrite (map_bin_of_shifted c st st2 _ _ Hst Heg).
  rewrite (map_searchsorted_shifted c st st2 _ _ Hst Hlg).
  intros H.
  apply bind_Ok_inv in H as (tb1 & Ht1 & H).
  apply bind_Ok_inv in H as (la1 & Hl1 & H).
  apply bind_Ok_inv in H as (u1 & Hu1 & H).
  apply bind_Ok_inv in H as (tb2 & Ht2 & H).
  apply bind_Ok_inv in H as (la3 & Hl3 & H).
  apply bind_Ok_inv in H as (u2 & Hu2 & H).
  destruct (take_at_Forall2 (shifted c) st st2 _ tb1 Hst Ht1) as (tb1' & -> & Hb1).
  cbn [mbind result_bind rbind].
  pose proof (zip_with_minus_shifted c _ _ _ _ Heg Hb1) as Hv1.
  destruct (iadd_at_Qeq la la2 _ _ _ la1 Hla Hv1 Hl1) as (la1' & -> & Hla1).
  cbn [mbind result_bind rbind].
  rewrite (all_nonneg_Qeq _ _ Hv1), (py_assert_Ok _ _ Hu1).
  cbn [py_assert mbind result_bind rbind].
  destruct (take_at_Forall2 (shifted c) st st2 _ tb2 Hst Ht2) as (tb2' & -> & Hb2).
  cbn [mbind result_bind rbind].
  pose proof (zip_with_minus_shifted c _ _ _ _ Hb2 Hlg) as Hv2.
  destruct (iadd_at_Qeq la1 la1' _ _ _ la3 Hla1 Hv2 Hl3) as (la3' & -> & Hla3).
  cbn [mbind result_bind rbind].
  rewrite (all_nonneg_Qeq _ _ Hv2), (py_assert_Ok _ _ Hu2).
  cbn [py_assert mbind result_bind rbind].
  destruct (1 <? D)%Z.
  - refine (for_each_rel (Forall2 Qeq) _ _ _ _ la3 la3' t Hla3 H).
    intros s s2 i t' Hs. rewrite !complete_bins_unfold. intros Hc.
    apply bind_Ok_inv in Hc as (w & -> & Hc). cbn [mbind result_bind rbind].
    apply (iadd_at_Qeq s s2 _ w w t' Hs); [|done].
    clear. induction w; by constructor.
  - injection H as <-. by exists la3'.
Qed.

(** With the edges, the events and the starts of the livetimes moved by the
    same amount, the last stage returns the same array. *)
Lemma accumulate_shifted (c : Q) (n : nat) (tbins tbins2 dt ev ev2 pr pr2 lts lts2 arr : list Q) :
  Forall2 (shifted c) tbins tbins2 -> Forall2 (shifted c) ev ev2 ->
  Forall2 Qeq pr pr2 -> Forall2 (shifted c) lts lts2 ->
  accumulate n tbins dt ev pr lts = Ok arr ->
  exists arr2, accumulate n tbins2 dt ev2 pr2 lts2 = Ok arr2 /\ Forall2 Qeq arr arr2.
Proof.
  intros Htb Hev Hpr Hlts. unfold accumulate. cbv zeta.
  pose proof (but_last_Forall2 _ _ _ Htb) as Hst.
  rewrite (map_bin_of_shifted c _ _ _ _ Hst Hev).
  rewrite (map_bin_of_shifted c _ _ _ _ Hst Hlts).
  set (fp := zip_with Z.eqb _ _). intros H.
  apply bind_Ok_inv in H as (expo & Hh & H).
  apply bind_Ok_inv in H as (u & _ & H).
  apply bind_Ok_inv in H as (la & Hla & H).
  apply bind_Ok_inv in H as (m & -> & H).
  destruct (histogram_shifted c _ _ tbins tbins2 _ _ expo Htb
              (select_Forall2 _ fp _ _ Hev) (select_Forall2 _ fp _ _ Hpr) Hh)
    as (expo2 & -> & Hexpo).
  cbn [mbind result_bind rbind]. rewrite same_bin_assert_vacuous.
  cbn [mbind result_bind rbind].
  destruct (iadd_Qeq _ _ _ la Hexpo Hla) as (la2 & -> & Hla2).
  cbn [mbind result_bind rbind].
  refine (for_each_rel (Forall2 Qeq) _ _ _ _ la la2 arr Hla2 H).
  intros s s2 D t Hs. by apply (span_pass_shifted c).
Qed.

Lemma head_Forall2 {A B : Type} (R : A -> B -> Prop) (a : list A) (b : list B) (x : A) :
  Forall2 R a b -> head a = Some x -> exists y, head b = Some y /\ R x y.
Proof. intros [|x' y a' b' Hxy _]; [discriminate |]. intros [= <-]. by exists y. Qed.

Lemma last_Forall2 {A B : Type} (R : A -> B -> Prop) (a : list A) (b : list B) (x : A) :
  Forall2 R a b -> last a = Some x -> exists y, last b = Some y /\ R x y.
Proof.
  intros H. rewrite !last_lookup, <- (Forall2_length _ _ _ H). by apply Forall2_lookup_l.
Qed.

Lemma clip_single_shifted (c f l f2 l2 e e2 p p2 s s2 : Q) :
  shifted c f f2 -> shifted c l l2 -> shifted c e e2 -> p == p2 -> shifted c s s2 ->
  Forall2 (shifted c) (clip_body f l f [e] [p] [s]).1.1 (clip_body f2 l2 f2 [e2] [p2] [s2]).1.1
  /\ Forall2 Qeq (clip_body f l f [e] [p] [s]).1.2 (clip_body f2 l2 f2 [e2] [p2] [s2]).1.2
  /\ Forall2 (shifted c) (clip_body f l f [e] [p] [s]).2 (clip_body f2 l2 f2 [e2] [p2] [s2]).2.
Proof.
  intros Hf Hl He Hp Hs. rewrite !clip_body_single.
  rewrite (Qltb_shifted c f e f2 e2 Hf He), (Qltb_shifted c s l s2 l2 Hs Hl).
  destruct (np.Qltb f e && np.Qltb s l); [|repeat split; constructor].
  cbv zeta. rewrite (Qltb_shifted c s f s2 f2 Hs Hf).
  rewrite (Qltb_shifted c l e l2 e2 Hl He).
  assert (Hfe : shifted c (f + eps) (f2 + eps)) by (unfold shifted in *; lra).
  destruct (np.Qltb s f).
  - rewrite (Qltb_shifted c (f + eps) l (f2 + eps) l2 Hfe Hl).
    destruct (np.Qltb (f + eps) l && np.Qltb l e); cbn [fst snd];
      repeat split; repeat constructor; unfold shifted in *; lra.
  - rewrite (Qltb_shifted c s l s2 l2 Hs Hl).
    destruct (np.Qltb s l && np.Qltb l e); cbn [fst snd];
      repeat split; repeat constructor; unfold shifted in *; lra.
Qed.

Lemma clip_body_shifted (c f l f2 l2 : Q) (ev ev2 : list Q) :
  shifted c f f2 -> shifted c l l2 -> Forall2 (shifted c) ev ev2 ->
  forall pr pr2 lts lts2,
    Forall2 Qeq pr pr2 -> Forall2 (shifted c) lts lts2 ->
    length ev = length pr -> length ev = length lts ->
    Forall2 (shifted c) (clip_body f l f ev pr lts).1.1 (clip_body f2 l2 f2 ev2 pr2 lts2).1.1
    /\ Forall2 Qeq (clip_body f l f ev pr lts).1.2 (clip_body f2 l2 f2 ev2 pr2 lts2).1.2
    /\ Forall2 (shifted c) (clip_body f l f ev pr lts).2 (clip_body f2 l2 f2 ev2 pr2 lts2).2.
Proof.
  intros Hf Hl Hev. induction Hev as [|e e2 ev ev2 He _ IH]; intros pr pr2 lts lts2 Hpr Hlts H1 H2.
  - destruct Hpr; [|discriminate]. destruct Hlts; [|discriminate].
    rewrite !clip_body_nil. repeat split; constructor.
  - destruct Hpr as [|p p2 pr pr2 Hp Hpr]; [discriminate |].
    destruct Hlts as [|s s2 lts lts2 Hs Hlts]; [discriminate |].
    injection H1 as H1. injection H2 as H2.
    rewrite (clip_body_cons f l f e p s), (clip_body_cons f2 l2 f2 e2 p2 s2).
    destruct (IH pr pr2 lts lts2 Hpr Hlts H1 H2) as (I1 & I2 & I3).
    destruct (clip_single_shifted c f l f2 l2 e e2 p p2 s s2 Hf Hl He Hp Hs) as (J1 & J2 & J3).
    unfold app3. cbn [fst snd]. repeat split; by apply Forall2_app.
Qed.

Lemma bin_edges_shifted (times dta : list Q) (e0 e0' : Q) (tbins : list Q) :
  bin_edges times dta e0 = Ok tbins ->
  exists tbins2,
    bin_edges times dta e0' = Ok tbins2 /\ Forall2 (shifted (e0' - e0)) tbins tbins2.
Proof.
  intros H. apply bin_edges_inv in H as (lefts & tl & dl & Hb & Htl & Hdl & _ & ->).
  unfold bin_edges. rewrite Hb. cbn [mbind result_bind rbind].
  rewrite (getitem_last _ _ Htl). cbn [mbind result_bind rbind].
  rewrite (getitem_last _ _ Hdl). cbn [mbind result_bind rbind].
  eexists. split; [reflexivity |].
  generalize (lefts ++ [tl + dl / 2]). intros L.
  induction L as [|x L IH]; cbn [map]; constructor; [unfold shifted; lra | exact IH].
Qed.

Lemma map_frame_shifted (e0 e0' : Q) (evs : list Q) :
  Forall2 (shifted (e0' - e0)) (map (fun e => e - e0) evs) (map (fun e => e - e0') evs).
Proof. induction evs as [|x evs IH]; cbn [map]; constructor; [unfold shifted; lra | exact IH]. Qed.

Lemma Qeq_refl_list (l : list Q) : Forall2 Qeq l l.
Proof. induction l; by constructor. Qed.

Lemma zip_with_minus_frame (c : Q) (a a2 b : list Q) :
  Forall2 (shifted c) a a2 ->
  Forall2 (shifted c) (zip_with Qminus a b) (zip_with Qminus a2 b).
Proof.
  intros Ha. revert b. induction Ha as [|x x2 a a2 Hx _ IH]; intros [|y b];
    cbn [zip_with]; constructor; [unfold shifted in *; lra | apply IH].
Qed.

(** The stages after the choice of the time frame give the same array in
    every frame. *)
Lemma binner_frame (times dta evs prs : list Q) (e0 e0' : Q) (arr : list Q) :
  length evs = length prs ->
  (tbins ← bin_edges times dta e0;
   '(ev_fl, pr_fl, livetime_starts) ←
      clip_to_axis tbins (map (fun e => e - e0) evs) prs
        (zip_with Qminus (map (fun e => e - e0) evs) prs);
   accumulate (length times) tbins dta ev_fl pr_fl livetime_starts) = Ok arr ->
  exists arr2,
    (tbins ← bin_edges times dta e0';
     '(ev_fl, pr_fl, livetime_starts) ←
        clip_to_axis tbins (map (fun e => e - e0') evs) prs
          (zip_with Qminus (map (fun e => e - e0') evs) prs);
     accumulate (length times) tbins dta ev_fl pr_fl livetime_starts) = Ok arr2
    /\ Forall2 Qeq arr arr2.
Proof.
  intros Hlen H.
  apply bind_Ok_inv in H as (tbins & Hb & H).
  destruct (bin_edges_shape _ _ _ _ Hb) as (H2 & [f Hf] & [l Hl]).
  destruct (bin_edges_shifted times dta e0 e0' tbins Hb) as (tbins2 & Hb2 & Htb).
  destruct (head_Forall2 _ _ _ _ Htb Hf) as (f2 & Hf2 & Hff).
  destruct (last_Forall2 _ _ _ _ Htb Hl) as (l2 & Hl2 & Hll).
  assert (H22 : (2 <= length tbins2)%nat) by (by rewrite <- (Forall2_length _ _ _ Htb)).
  rewrite (clip_to_axis_body _ _ _ _ _ _ H2 Hf Hl) in H.
  rewrite Hb2. cbn [mbind result_bind rbind] in *.
  rewrite (clip_to_axis_body _ _ _ _ _ _ H22 Hf2 Hl2). cbn [mbind result_bind rbind].
  pose proof (map_frame_shifted e0 e0' evs) as Hev.
  destruct (clip_body_shifted (e0' - e0) f l f2 l2 _ _ Hff Hll Hev prs prs _ _
              (Qeq_refl_list prs) (zip_with_minus_frame _ _ _ prs Hev))
    as (C1 & C2 & C3).
  { by rewrite length_map. }
  { rewrite length_zip_with, length_map. lia. }
  destruct (clip_body f l f _ _ _) as [[ev pr] lts].
  destruct (clip_body f2 l2 f2 _ _ _) as [[ev2 pr2] lts2].
  cbn [fst snd] in *.
  by apply (accumulate_shifted (e0' - e0) _ tbins tbins2 dta ev ev2 pr pr2 lts lts2).
Qed.

(** ** Livetime per bin and bin width *)

Lemma bin_edges_edge (times dta tbins : list Q) (e0 : Q) (i : nat) :
  length dta = length times -> bin_edges times dta e0 = Ok tbins ->
  (i < length times)%nat ->
  edge tbins i = nth i times 0 - nth i dta 0 / 2 - e0.
Proof.
  intros Hl Hb Hi. apply edge_lookup.
  apply (bin_edges_lookup times dta e0 tbins i); [done | done | |]; apply lookup_nth; lia.
Qed.

Lemma bin_edges_edge_last (times dta tbins : list Q) (e0 : Q) :
  length dta = length times -> bin_edges times dta e0 = Ok tbins -> times <> [] ->
  edge tbins (length times)
  = nth (length times - 1) times 0 + nth (length times - 1) dta 0 / 2 - e0.
Proof.
  intros Hl Hb Hne. apply edge_lookup.
  apply (bin_edges_lookup_last times dta e0 tbins); [done | done | |].
  - by apply last_nth.
  - rewrite <- Hl. apply last_nth. intros ->. destruct times; [done | discriminate].
Qed.

Lemma disjoint_from_In (c : Q) (l : list (Q * Q)) (x : Q * Q) :
  disjoint_from c l -> In x l -> c <= x.1 - x.2 /\ 0 <= x.2.
Proof.
  revert c. induction l as [|y l IH]; intros c H Hx; [destruct Hx |].
  destruct H as [[H1 H2] H3]. destruct Hx as [-> | Hx]; [done |].
  destruct (IH y.1 H3 Hx) as [H4 H5]. split; lra.
Qed.

Lemma Forall2_shift (P : Q -> Q -> Prop) (e0 : Q) (events priors : list Q) :
  length events = length priors ->
  (forall x, In x (zip events priors) -> P (x.1 - e0) x.2) ->
  Forall2 P (map (fun e => e - e0) events) priors.
Proof.
  revert priors. induction events as [|e ev IH]; intros [|p pr] Hlen H; try discriminate.
  - constructor.
  - cbn [map]. constructor.
    + apply (H (e, p)). by left.
    + apply IH; [by injection Hlen |]. intros x Hx. apply H. by right.
Qed.

Lemma nth_Forall2_Qeq (a b : list Q) (i : nat) :
  Forall2 Qeq a b -> nth i a 0 == nth i b 0.
Proof.
  intros H. revert i. induction H as [|x y a b Hxy _ IH]; intros [|i]; cbn [nth];
    try reflexivity; [exact Hxy | apply IH].
Qed.

(** [accumulate_bounds] for starts of livetimes that are equal to
    [event - prior] as numbers, as the clipping stage leaves them. *)
Lemma accumulate_bounds_starts (tbins dt ev pr lts : list Q) :
  contiguous_axis tbins dt -> (1 <= length dt)%nat ->
  length ev = length pr -> ev <> [] ->
  (forall x, In x (zip ev pr) -> on_axis tbins x) ->
  Forall2 (shifted 0) (zip_with Qminus ev pr) lts ->
  exists arr,
    accumulate (length dt) tbins dt ev pr lts = Ok arr
    /\ length arr = length dt
    /\ forall b, (b < length dt)%nat ->
                 0 <= nth b arr 0 <= msum (ov tbins b) (zip ev pr).
Proof.
  intros Hax HN Hlen Hne Hon Hlts.
  destruct (accumulate_bounds tbins dt ev pr Hax HN Hlen Hne Hon) as (arr0 & H0 & Hl0 & Hb0).
  destruct (accumulate_shifted 0 _ tbins tbins dt ev ev pr pr _ lts arr0
              (shifted_refl _) (shifted_refl _) (Qeq_refl_list _) Hlts H0)
    as (arr & Harr & Heq).
  exists arr. split; [exact Harr |].
  split; [by rewrite <- (Forall2_length _ _ _ Heq) |].
  intros b Hb. rewrite <- (nth_Forall2_Qeq _ _ b Heq). by apply Hb0.
Qed.

Lemma eps_pos : 0 < eps.
Proof. reflexivity. Qed.

Lemma overlap_sub (lo hi s e s' e' : Q) :
  s <= s' -> e' <= e -> overlap lo hi s' e' <= overlap lo hi s e.
Proof.
  intros H1 H2. unfold overlap.
  destruct (Q.min_spec e' hi) as [[? ?] | [? ?]];
  destruct (Q.max_spec s' lo) as [[? ?] | [? ?]];
  destruct (Q.min_spec e hi) as [[? ?] | [? ?]];
  destruct (Q.max_spec s lo) as [[? ?] | [? ?]];
  destruct (Q.max_spec 0 (Qmin e' hi - Qmax s' lo)) as [[? ?] | [? ?]];
  destruct (Q.max_spec 0 (Qmin e hi - Qmax s lo)) as [[? ?] | [? ?]]; lra.
Qed.

(** What the clipping stage leaves of events with non-negative priors, when
    no clamped interval is turned around: intervals on the axis, each inside
    the interval it comes from. *)
Lemma clip_body_sound (f l : Q) (ev : list Q) :
  forall pr,
    length ev = length pr ->
    (forall x, In x (zip ev pr) ->
       0 <= x.2
       /\ (f < x.1 -> x.1 - x.2 < l ->
           (x.1 - x.2 < f -> f + eps <= x.1)
           /\ (l < x.1 -> x.1 - x.2 <= l - eps)
           /\ (x.1 - x.2 < f -> l < x.1 -> f + eps <= l - eps))) ->
    let r := clip_body f l f ev pr (zip_with Qminus ev pr) in
    length r.1.1 = length r.1.2
    /\ Forall2 (shifted 0) (zip_with Qminus r.1.1 r.1.2) r.2
    /\ (forall x, In x (zip r.1.1 r.1.2) -> 0 <= x.2 /\ f <= x.1 - x.2 /\ x.1 <= l)
    /\ (forall lo hi,
          msum (fun x => overlap lo hi (x.1 - x.2) x.1) (zip r.1.1 r.1.2)
          <= msum (fun x => overlap lo hi (x.1 - x.2) x.1) (zip ev pr))
    /\ (Exists (fun x => f < x.1 /\ x.1 - x.2 < l) (zip ev pr) -> r.1.1 <> []).
Proof.
  pose proof eps_pos as Heps.
  induction ev as [|e ev IH]; intros [|p pr] Hlen Hc; try discriminate.
  - cbv zeta. rewrite clip_body_nil. cbn [fst snd zip zip_with].
    split; [reflexivity |]. split; [constructor |]. split; [intros x [] |].
    split; [intros lo hi; apply Qle_refl |]. intros H. inversion H.
  - injection Hlen as Hlen. cbv zeta. cbn [zip_with].
    rewrite clip_body_cons.
    destruct (IH pr Hlen (fun x Hx => Hc x (or_intror Hx))) as (I1 & I2 & I3 & I4 & I5).
    destruct (Hc (e, p) (or_introl eq_refl)) as [Hp Hk]. cbn [fst snd] in Hp, Hk.
    destruct (clip_body f l f ev pr (zip_with Qminus ev pr)) as [[ev' pr'] lts'].
    cbn [fst snd] in I1, I2, I3, I4, I5.
    rewrite clip_body_single.
    destruct (np.Qltb f e) eqn:E1; [apply Qltb_lt in E1 | apply Qltb_ge in E1].
    2: { cbn [andb]. rewrite app3_nil_l. cbn [fst snd].
         split; [exact I1 |]. split; [exact I2 |]. split; [exact I3 |]. split.
         - intros lo hi. cbn [zip zip_with]. rewrite msum_cons.
           pose proof (overlap_nonneg lo hi (e - p) e). specialize (I4 lo hi). cbn [fst snd]. lra.
         - intros H. apply I5. cbn [zip zip_with] in H.
           apply Exists_cons in H as [[H _] | H]; [cbn [fst] in H; lra | exact H]. }
    destruct (np.Qltb (e - p) l) eqn:E2; [apply Qltb_lt in E2 | apply Qltb_ge in E2].
    2: { cbn [andb]. rewrite app3_nil_l. cbn [fst snd].
         split; [exact I1 |]. split; [exact I2 |]. split; [exact I3 |]. split.
         - intros lo hi. cbn [zip zip_with]. rewrite msum_cons.
           pose proof (overlap_nonneg lo hi (e - p) e). specialize (I4 lo hi). cbn [fst snd]. lra.
         - intros H. apply I5. cbn [zip zip_with] in H.
           apply Exists_cons in H as [[_ H] | H]; [cbn [fst snd] in H; lra | exact H]. }
    destruct (Hk E1 E2) as (K1 & K2 & K3).
    cbn [andb]. cbv zeta.
    assert (Hgoal : forall e' p' s',
              0 <= p' -> f <= e' - p' -> e' <= l -> e - p <= e' - p' -> e' <= e ->
              s' == e' - p' ->
              let r := app3 ([e'], [p'], [s']) (ev', pr', lts') in
              length r.1.1 = length r.1.2
              /\ Forall2 (shifted 0) (zip_with Qminus r.1.1 r.1.2) r.2
              /\ (forall x, In x (zip r.1.1 r.1.2) -> 0 <= x.2 /\ f <= x.1 - x.2 /\ x.1 <= l)
              /\ (forall lo hi,
                    msum (fun x => overlap lo hi (x.1 - x.2) x.1) (zip r.1.1 r.1.2)
                    <= msum (fun x => overlap lo hi (x.1 - x.2) x.1) (zip (e :: ev) (p :: pr)))
              /\ (Exists (fun x => f < x.1 /\ x.1 - x.2 < l) (zip (e :: ev) (p :: pr))
                  -> r.1.1 <> [])).
    { intros e' p' s' G1 G2 G3 G4 G5 G6. cbv zeta. unfold app3. cbn [fst snd app].
      split; [cbn [length]; by rewrite I1 |].
      split; [cbn [zip_with]; constructor; [unfold shifted; lra | exact I2] |].
      split.
      { intros x [<- | Hx]; [cbn [fst snd]; repeat split; lra | by apply I3]. }
      split; [|discriminate].
      intros lo hi. cbn [zip zip_with]. rewrite !msum_cons. cbn [fst snd].
      pose proof (overlap_sub lo hi (e - p) e (e' - p') e' G4 G5). specialize (I4 lo hi).
      lra. }
    destruct (np.Qltb (e - p) f) eqn:E3; [apply Qltb_lt in E3 | apply Qltb_ge in E3].
    + specialize (K1 E3).
      destruct (np.Qltb l e) eqn:E4; [apply Qltb_lt in E4 | apply Qltb_ge in E4].
      * specialize (K3 E3 E4).
        assert (E5 : np.Qltb (f + eps) l = true) by (apply Qltb_lt; lra).
        rewrite E5. cbn [andb]. apply Hgoal; lra.
      * rewrite andb_false_r. apply Hgoal; lra.
    + rewrite (proj2 (Qltb_lt _ _) E2).
      destruct (np.Qltb l e) eqn:E4; [apply Qltb_lt in E4 | apply Qltb_ge in E4].
      * specialize (K2 E4). cbn [andb]. apply Hgoal; lra.
      * cbn [andb]. apply Hgoal; lra.
Qed.

(** Closed comparisons of rational constants, under closed premises. *)
Ltac decide_Q :=
  lazymatch goal with
  | |- _ /\ _ => split; decide_Q
  | |- _ -> _ =>
      let H := fresh in
      intros H;
      first [ exfalso; vm_compute in H; congruence
            | exfalso; vm_compute in H; apply H; reflexivity
            | clear H; decide_Q ]
  | |- _ => first [ vm_compute; congruence | vm_compute; reflexivity ]
  end.

(** C3, as the code has it: on a contiguous axis, for events with
    non-negative priors whose livetime intervals follow one another without
    overlap, the function returns an array with
    [0 <= livetime_array[i] <= dt[i]] for every bin.  The events may lie
    outside of the axis or stick out of it, so that lines 72-89 drop or clamp
    them.  Two things are asked of them: one event at least reaches into the
    axis (otherwise nothing is returned), and no clamped interval is turned
    around: an interval cut at the first edge ends at least 1e-9 after it, and
    an interval cut at the last edge starts at least 1e-9 before it. *)
Theorem livetime_within_bin_width (times events priors dta : list Q)
    (dt : option dt_value) (gti : option value) (e0 c first_edge last_edge : Q) :
  length events = length priors ->
  head events = Some e0 ->
  broadcast_dt (_assign_value_if_none dt (Scalar (np.median (np.diff times)))) times
    = Some dta ->
  length dta = length times -> times <> [] ->
  (forall i, (i < length times)%nat -> 0 < nth i dta 0) ->
  (forall i, (S i < length times)%nat ->
             nth i times 0 + nth i dta 0 / 2 == nth (S i) times 0 - nth (S i) dta 0 / 2) ->
  first_edge = nth 0 times 0 - nth 0 dta 0 / 2 ->
  last_edge = nth (length times - 1) times 0 + nth (length times - 1) dta 0 / 2 ->
  disjoint_from c (zip events priors) ->
  Forall (fun x => first_edge < x.1 -> x.1 - x.2 < last_edge ->
                   (x.1 - x.2 < first_edge -> first_edge + eps <= x.1)
                   /\ (last_edge < x.1 -> x.1 - x.2 <= last_edge - eps)
                   /\ (x.1 - x.2 < first_edge -> last_edge < x.1 ->
                       first_edge + eps <= last_edge - eps))
         (zip events priors) ->
  Exists (fun x => first_edge < x.1 /\ x.1 - x.2 < last_edge) (zip events priors) ->
  exists arr,
    get_livetime_per_bin times events priors dt gti = Ok arr
    /\ length arr = length times
    /\ forall i, (i < length times)%nat -> 0 <= nth i arr 0 <= nth i dta 0.
Proof.
  intros Hlen Hh Hdt Hl Hne Hpos Hcont Hfirst Hlast Hdis Hin Hex.
  assert (HN : (1 <= length times)%nat) by (destruct times; [done | cbn; lia]).
  destruct (bin_edges times dta e0) as [tbins | err] eqn:Hb.
  2: { exfalso.
       destruct (last times) as [tl|] eqn:E1; [|by apply last_None in E1].
       destruct (last dta) as [dl|] eqn:E2.
       - by rewrite (bin_edges_same_length _ _ _ _ _ Hl E1 E2) in Hb.
       - apply last_None in E2. subst dta. cbn in Hl. lia. }
  pose proof (bin_edges_contiguous times dta tbins e0 Hl Hb Hpos Hcont) as Hax.
  pose proof (proj1 Hax) as Htl.
  pose proof (bin_edges_edge times dta tbins e0 0 Hl Hb ltac:(lia)) as He0.
  pose proof (bin_edges_edge_last times dta tbins e0 Hl Hb Hne) as HeN.
  rewrite <- Hfirst in He0. rewrite <- Hlast in HeN.
  assert (Htne : tbins <> []) by (intros ->; cbn in Htl; lia).
  assert (Hlastt : last tbins = Some (edge tbins (length times))).
  { rewrite (last_nth _ Htne). unfold edge. do 2 f_equal. lia. }
  rewrite List.Forall_forall in Hin.
  rewrite (get_livetime_per_bin_unfold _ _ _ _ _ e0 dta Hlen Hh Hdt), Hb.
  cbn [mbind result_bind rbind].
  assert (Htwo : (2 <= length tbins)%nat) by lia.
  rewrite (clip_to_axis_body _ _ _ _ _ _ Htwo (head_nth _ Htne) Hlastt).
  fold (edge tbins 0).
  assert (Hlm : length (map (fun e => e - e0) events) = length priors)
    by (by rewrite length_map).
  destruct (clip_body_sound (edge tbins 0) (edge tbins (length times))
              (map (fun e => e - e0) events) priors Hlm)
    as (S1 & S2 & S3 & S4 & S5).
  { intros x Hx. rewrite zip_map_fst in Hx. apply in_map_iff in Hx as (y & <- & Hy).
    destruct (disjoint_from_In _ _ _ Hdis Hy) as [_ H5]. cbn [fst snd].
    split; [exact H5 |]. rewrite He0, HeN. intros K1 K2.
    destruct (Hin y Hy ltac:(lra) ltac:(lra)) as (G1 & G2 & G3).
    split; [intros; pose proof (G1 ltac:(lra)); lra |].
    split; [intros; pose proof (G2 ltac:(lra)); lra |].
    intros ? ?. pose proof (G3 ltac:(lra) ltac:(lra)). lra. }
  destruct (clip_body _ _ _ _ _ _) as [[ev' pr'] lts']. cbn [fst snd] in S1, S2, S3, S4, S5.
  cbn [mbind result_bind rbind]. rewrite <- Hl.
  assert (HN' : (1 <= length dta)%nat) by lia.
  destruct (accumulate_bounds_starts tbins dta ev' pr' lts' Hax HN' S1)
    as (arr & Hacc & Hla & Hbd).
  { apply S5. rewrite zip_map_fst. apply Exists_exists in Hex as (y & Hy & Hy1 & Hy2).
    apply Exists_exists. exists (y.1 - e0, y.2). split.
    - apply list_elem_of_In, in_map_iff. exists y. split; [done | by apply list_elem_of_In].
    - cbn [fst snd]. rewrite He0, HeN. split; lra. }
  { intros x Hx. destruct (S3 x Hx) as (G1 & G2 & G3).
    unfold on_axis. rewrite Htl.
    replace (S (length dta) - 1)%nat with (length times) by lia. done. }
  { exact S2. }
  exists arr. split; [exact Hacc |]. split; [congruence |].
  intros i Hi. destruct (Hbd i Hi) as [Hb1 Hb2].
  split; [exact Hb1 |].
  pose proof (S4 (edge tbins i) (edge tbins (S i))) as Hsub.
  pose proof (disjoint_overlap_le (edge tbins i) (edge tbins (S i)) (c - e0)
                _ (disjoint_shift _ e0 _ Hdis)) as Hov.
  rewrite zip_map_fst in Hsub.
  assert (Hb2' : nth i arr 0
                 <= msum (fun x : Q * Q => overlap (edge tbins i) (edge tbins (S i))
                                             (x.1 - x.2) x.1) (zip ev' pr'))
    by exact Hb2.
  destruct (proj2 Hax i Hi) as [Hlt Hw].
  destruct (Q.max_spec (edge tbins i) (c - e0)) as [[? ?] | [? ?]];
  destruct (Q.max_spec 0 (edge tbins (S i) - Qmax (edge tbins i) (c - e0)))
    as [[? ?] | [? ?]]; lra.
Qed.

Lemma livetime_within_bin_width_witness :
  exists arr,
    get_livetime_per_bin [1#2; 3#2; 5#2]
      [-1; 4#10; 16#10; 35#10; 5] [1#2; 1; 1; 1; 1]
      (Some (Scalar (Some 1))) None = Ok arr
    /\ forall i, (i < 3)%nat -> 0 <= nth i arr 0 <= nth i [1 + 0; 1 + 0; 1 + 0] 0.
Proof.
  destruct (livetime_within_bin_width [1#2; 3#2; 5#2]
              [-1; 4#10; 16#10; 35#10; 5] [1#2; 1; 1; 1; 1]
              [1 + 0; 1 + 0; 1 + 0] (Some (Scalar (Some 1))) None (-1) (-2)
              ((1#2) - (1 + 0) / 2) ((5#2) + (1 + 0) / 2))
    as (arr & H & _ & Hb).
  - reflexivity.
  - reflexivity.
  - reflexivity.
  - reflexivity.
  - discriminate.
  - intros [|[|[|i]]] Hi; cbn in Hi; try lia; vm_compute; reflexivity.
  - intros [|[|i]] Hi; cbn in Hi; try lia; vm_compute; reflexivity.
  - reflexivity.
  - reflexivity.
  - cbn [zip zip_with disjoint_from fst snd]. decide_Q.
  - cbn [zip zip_with]. repeat (apply List.Forall_cons; [cbn [fst snd]; decide_Q |]).
    apply List.Forall_nil.
  - cbn [zip zip_with]. right. left. cbn [fst snd]. decide_Q.
  - exists arr. split; [exact H | exact Hb].
Defined.

(** Against C3 as stated: three events in one bin of width 1, sorted, with
    non-negative priors that overlap, give a livetime of 1.2. *)
Lemma overlapping_priors_exceed_bin_width :
  exists arr,
    get_livetime_per_bin [1#2] [1#2; 6#10; 7#10] [4#10; 4#10; 4#10]
      (Some (Scalar (Some 1))) None = Ok arr
    /\ arrays_eq arr [6#5]
    /\ Forall (fun p => 0 <= p) [4#10; 4#10; 4#10]
    /\ ~ (nth 0 arr 0 <= 1 + (1#1000000000)).
Proof.
  eexists. split; [vm_compute; reflexivity |].
  split; [repeat constructor; reflexivity |].
  split; [repeat constructor; vm_compute; congruence |].
  vm_compute. intros H. apply H. reflexivity.
Qed.

(** ** Events at the ends of the axis *)

Lemma overlap_shift_le (c lo hi l e lo' hi' l' e' : Q) :
  lo' == lo - c -> hi' == hi - c -> l' == l - c -> e' == e - c ->
  overlap lo' hi' l' e' <= overlap lo hi l e.
Proof.
  intros H1 H2 H3 H4. unfold overlap.
  destruct (Q.min_spec e' hi') as [[? ?] | [? ?]];
  destruct (Q.max_spec l' lo') as [[? ?] | [? ?]];
  destruct (Q.min_spec e hi) as [[? ?] | [? ?]];
  destruct (Q.max_spec l lo) as [[? ?] | [? ?]];
  destruct (Q.max_spec 0 (Qmin e' hi' - Qmax l' lo')) as [[? ?] | [? ?]];
  destruct (Q.max_spec 0 (Qmin e hi - Qmax l lo)) as [[? ?] | [? ?]]; lra.
Qed.

Lemma msum_map {X Y : Type} (f : Y -> Q) (g : X -> Y) (l : list X) :
  msum f (map g l) = msum (fun x => f (g x)) l.
Proof. unfold msum. by rewrite map_map. Qed.

Lemma sum_Forall2_Qeq (a b : list Q) : Forall2 Qeq a b -> np.sum a == np.sum b.
Proof.
  induction 1 as [|x y a b Hxy _ IH]; [reflexivity |]. rewrite !sum_cons, Hxy, IH. reflexivity.
Qed.

(** One event on the axis: the livetimes add up to its prior. *)
Lemma accumulate_single_sum (tbins dta : list Q) (ev p : Q) :
  contiguous_axis tbins dta -> (1 <= length dta)%nat ->
  0 <= p -> edge tbins 0 <= ev - p -> ev <= edge tbins (length dta) ->
  exists arr,
    accumulate (length dta) tbins dta [ev] [p] [ev - p] = Ok arr
    /\ length arr = length dta
    /\ np.sum arr == p.
Proof.
  intros Hax HN Hp Hlo Hhi.
  destruct (bin_of_spec tbins dta ev Hax HN ltac:(lra)) as (ebn & Hbe & Heb & Hev & Hev').
  destruct (bin_of_spec tbins dta (ev - p) Hax HN Hlo) as (lbn & Hbl & Hlb & Hlt & Hlt').
  assert (Hle : (lbn <= ebn)%nat).
  { pose proof (searchsorted_right_mono (np.but_last tbins) (ev - p) ev ltac:(lra)).
    unfold bin_of in Hbe, Hbl. lia. }
  destruct (decide (lbn = ebn)) as [-> | Hne'].
  - destruct (accumulate_same_bin tbins dta ev p ebn Hax Heb Hbe Hbl Hev Hev' Hhi)
      as (arr & Hacc & Hla & Hnth).
    exists arr. split; [exact Hacc |]. split; [exact Hla |].
    apply (sum_one_hot arr ebn); [lia | by rewrite Hla].
  - destruct (accumulate_multi_bin tbins dta ev p ebn lbn Hax ltac:(lia) Heb Hbe Hbl Hev)
      as (arr & Hacc & Hla & Hsum).
    { pose proof (Hlt' ltac:(lia)). lra. }
    by exists arr.
Qed.

Lemma msum_app {X : Type} (f : X -> Q) (a b : list X) :
  msum f (a ++ b) == msum f a + msum f b.
Proof.
  induction a as [|x a IH]; [cbn [app]; change (msum f []) with 0; lra |].
  cbn [app]. rewrite !msum_cons, IH. lra.
Qed.

Lemma sum_nth (a : list Q) : np.sum a == msum (fun i => nth i a 0) (seq 0 (length a)).
Proof.
  induction a as [|x a IH]; [reflexivity |].
  cbn [length seq]. rewrite sum_cons, msum_cons, <- seq_shift, msum_map. cbn [nth].
  rewrite IH. reflexivity.
Qed.

(** Sums that agree, of terms that are ordered, have equal terms. *)
Lemma msum_eq_pointwise {X : Type} (f g : X -> Q) (l : list X) :
  (forall x, In x l -> f x <= g x) -> msum f l == msum g l ->
  forall x, In x l -> f x == g x.
Proof.
  induction l as [|y l IH]; intros Hle Heq x Hx; [destruct Hx |].
  rewrite !msum_cons in Heq.
  pose proof (Hle y (or_introl eq_refl)) as Hy.
  pose proof (msum_le f g l (fun z Hz => Hle z (or_intror Hz))) as Hl.
  destruct Hx as [<- | Hx]; [lra |].
  apply IH; [intros z Hz; apply Hle; by right | lra | exact Hx].
Qed.

(** The bins of a contiguous axis cut an interval into parts that add up to
    the part of the interval that lies on the axis. *)
Lemma overlap_partition (tbins dt : list Q) (s e : Q) (n : nat) :
  contiguous_axis tbins dt -> (n <= length dt)%nat -> s <= e ->
  msum (fun i => overlap (edge tbins i) (edge tbins (S i)) s e) (seq 0 n)
  == Qmax 0 (Qmin e (edge tbins n) - Qmax s (edge tbins 0)).
Proof.
  intros Hax Hn Hse. induction n as [|n IH].
  - change (msum _ (seq 0 0)) with 0.
    destruct (Q.min_spec e (edge tbins 0)) as [[? ?] | [? ?]];
    destruct (Q.max_spec s (edge tbins 0)) as [[? ?] | [? ?]];
    destruct (Q.max_spec 0 (Qmin e (edge tbins 0) - Qmax s (edge tbins 0)))
      as [[? ?] | [? ?]]; lra.
  - rewrite seq_S, msum_app, (IH ltac:(lia)). cbn [Nat.add].
    rewrite msum_cons. change (msum _ []) with 0.
    pose proof (edge_le tbins dt 0 n Hax ltac:(lia) ltac:(lia)) as H0.
    pose proof (edge_le tbins dt n (S n) Hax ltac:(lia) ltac:(lia)) as H1.
    unfold overlap.
    destruct (Q.min_spec e (edge tbins n)) as [[? ?] | [? ?]];
    destruct (Q.min_spec e (edge tbins (S n))) as [[? ?] | [? ?]];
    destruct (Q.max_spec s (edge tbins 0)) as [[? ?] | [? ?]];
    destruct (Q.max_spec s (edge tbins n)) as [[? ?] | [? ?]];
    destruct (Q.max_spec 0 (Qmin e (edge tbins n) - Qmax s (edge tbins 0)))
      as [[? ?] | [? ?]];
    destruct (Q.max_spec 0 (Qmin e (edge tbins (S n)) - Qmax s (edge tbins n)))
      as [[? ?] | [? ?]];
    destruct (Q.max_spec 0 (Qmin e (edge tbins (S n)) - Qmax s (edge tbins 0)))
      as [[? ?] | [? ?]]; lra.
Qed.

Lemma overlap_shift (c lo hi l e lo' hi' l' e' : Q) :
  lo' == lo - c -> hi' == hi - c -> l' == l - c -> e' == e - c ->
  overlap lo' hi' l' e' == overlap lo hi l e.
Proof.
  intros H1 H2 H3 H4. apply Qle_antisym.
  - by apply (overlap_shift_le c).
  - apply (overlap_shift_le (- c)); lra.
Qed.

(** One event as the clipping stage leaves it, with the start [s] of its
    livetime and its end [e] on the axis: the livetimes add up to [e - s], and
    every bin gets the part of [[s, e]] that lies in it. *)
Lemma accumulate_single_clamped (tbins dta : list Q) (e p s : Q) :
  contiguous_axis tbins dta -> (1 <= length dta)%nat ->
  edge tbins 0 <= s -> e <= edge tbins (length dta) -> s <= e -> p == e - s ->
  exists arr,
    accumulate (length dta) tbins dta [e] [p] [s] = Ok arr
    /\ length arr = length dta
    /\ np.sum arr == e - s
    /\ forall b, (b < length dta)%nat ->
                 nth b arr 0 == overlap (edge tbins b) (edge tbins (S b)) s e.
Proof.
  intros Hax HN Hlo Hhi Hse Hp.
  destruct (accumulate_single_sum tbins dta e p Hax HN ltac:(lra) ltac:(lra) Hhi)
    as (arr0 & H0 & Hl0 & Hs0).
  destruct (accumulate_bounds tbins dta [e] [p] Hax HN eq_refl ltac:(discriminate))
    as (arr1 & H1 & _ & Hb1).
  { intros x [<- | []]. unfold on_axis. cbn [fst snd]. rewrite (proj1 Hax).
    replace (S (length dta) - 1)%nat with (length dta) by lia. repeat split; lra. }
  cbn [zip_with] in H1. rewrite H0 in H1. injection H1 as <-.
  destruct (accumulate_shifted 0 (length dta) tbins tbins dta [e] [e] [p] [p] [e - p] [s] arr0
              (shifted_refl _) (shifted_refl _) (Qeq_refl_list _)) as (arr & Harr & Heq);
    [repeat constructor; unfold shifted; lra | exact H0 |].
  exists arr. split; [exact Harr |].
  split; [by rewrite <- (Forall2_length _ _ _ Heq) |].
  split; [rewrite <- (sum_Forall2_Qeq _ _ Heq); lra |].
  assert (Hle : forall b, In b (seq 0 (length dta)) ->
                          nth b arr0 0 <= overlap (edge tbins b) (edge tbins (S b)) s e).
  { intros b Hb. apply in_seq in Hb. destruct (Hb1 b ltac:(lia)) as [_ G2].
    cbn [zip zip_with] in G2. rewrite msum_cons in G2. unfold ov in G2. cbn [fst snd] in G2.
    change (msum _ []) with 0 in G2.
    pose proof (overlap_sub (edge tbins b) (edge tbins (S b)) s e (e - p) e
                  ltac:(lra) ltac:(lra)).
    lra. }
  assert (Hsum : msum (fun b => nth b arr0 0) (seq 0 (length dta))
                 == msum (fun b => overlap (edge tbins b) (edge tbins (S b)) s e)
                      (seq 0 (length dta))).
  { rewrite <- Hl0 at 1. rewrite <- sum_nth, Hs0.
    rewrite (overlap_partition tbins dta s e (length dta) Hax ltac:(lia) Hse).
    rewrite (Q.min_l e) by done. rewrite (Q.max_l s) by done.
    rewrite Q.max_r by lra. lra. }
  intros b Hb. rewrite <- (nth_Forall2_Qeq _ _ b Heq).
  apply (msum_eq_pointwise _ _ _ Hle Hsum). apply in_seq. lia.
Qed.

(** An event that the range filter drops, at the head of the event list:
    what is returned is computed from the other events, in the frame of the
    dropped one. *)
Lemma dropped_head (times events priors dta tbins : list Q) (e p f l : Q)
    (dt : option dt_value) (gti : option value) :
  length events = length priors ->
  broadcast_dt (_assign_value_if_none dt (Scalar (np.median (np.diff times)))) times
    = Some dta ->
  bin_edges times dta e = Ok tbins ->
  head tbins = Some f -> last tbins = Some l ->
  e - e <= f \/ l <= e - e - p ->
  get_livetime_per_bin times (e :: events) (p :: priors) dt gti
  = (tbins ← bin_edges times dta e;
     '(ev_fl, pr_fl, livetime_starts) ←
        clip_to_axis tbins (map (fun x => x - e) events) priors
          (zip_with Qminus (map (fun x => x - e) events) priors);
     accumulate (length times) tbins dta ev_fl pr_fl livetime_starts).
Proof.
  intros Hlen Hdt Hb Hf Hl Hout.
  rewrite (get_livetime_per_bin_unfold _ _ _ _ _ e dta) by (cbn [length head]; congruence).
  rewrite Hb. cbn [mbind result_bind rbind].
  destruct (bin_edges_shape _ _ _ _ Hb) as (H2 & _ & _).
  rewrite !(clip_to_axis_body _ _ _ _ _ _ H2 Hf Hl).
  cbn [map zip_with]. rewrite clip_body_cons, clip_body_single.
  destruct Hout as [Ho | Ho].
  - apply Qltb_ge in Ho as ->. cbn [andb]. by rewrite app3_nil_l.
  - apply Qltb_ge in Ho as ->. rewrite andb_false_r. by rewrite app3_nil_l.
Qed.
Lemma axis_edges (times dta : list Q) (e0 first_edge last_edge : Q) :
  length dta = length times -> times <> [] ->
  first_edge = nth 0 times 0 - nth 0 dta 0 / 2 ->
  last_edge = nth (length times - 1) times 0 + nth (length times - 1) dta 0 / 2 ->
  exists tbins,
    bin_edges times dta e0 = Ok tbins
    /\ (2 <= length tbins)%nat
    /\ head tbins = Some (first_edge - e0)
    /\ last tbins = Some (last_edge - e0)
    /\ edge tbins 0 = first_edge - e0
    /\ edge tbins (length times) = last_edge - e0.
Proof.
  intros Hl Hne Hfirst Hlast.
  assert (HN : (1 <= length times)%nat) by (destruct times; [done | cbn; lia]).
  destruct (bin_edges times dta e0) as [tbins | err] eqn:Hb.
  2: { exfalso.
       destruct (last times) as [tl|] eqn:E1; [|by apply last_None in E1].
       destruct (last dta) as [dl|] eqn:E2.
       - by rewrite (bin_edges_same_length _ _ _ _ _ Hl E1 E2) in Hb.
       - apply last_None in E2. subst dta. cbn in Hl. lia. }
  pose proof (bin_edges_length _ _ _ _ Hl Hb) as Htl.
  pose proof (bin_edges_edge times dta tbins e0 0 Hl Hb ltac:(lia)) as He0.
  pose proof (bin_edges_edge_last times dta tbins e0 Hl Hb Hne) as HeN.
  rewrite <- Hfirst in He0. rewrite <- Hlast in HeN.
  assert (Htne : tbins <> []) by (intros ->; cbn in Htl; lia).
  exists tbins. split; [reflexivity |]. split; [lia |].
  split; [by rewrite (head_nth _ Htne), <- He0 |].
  split; [|done].
  rewrite (last_nth _ Htne), <- HeN. unfold edge. do 2 f_equal. lia.
Qed.

(** What the clipping stage makes of one event that reaches into the axis:
    the event from [lo] to [hi]. *)
Lemma clip_single_clamped (f l E p S lo hi : Q) :
  f < E -> S < l ->
  (S < f -> lo == f + eps) -> (f <= S -> lo == S) ->
  (l < E -> hi == l - eps) -> (E <= l -> hi == E) ->
  lo <= hi -> S == E - p ->
  exists E' P' S',
    clip_body f l f [E] [p] [S] = ([E'], [P'], [S'])
    /\ E' == hi /\ S' == lo /\ P' == hi - lo.
Proof.
  intros Hk1 Hk2 Hlo1 Hlo2 Hhi1 Hhi2 Hlh HS. pose proof eps_pos as Heps.
  rewrite clip_body_single.
  rewrite (proj2 (Qltb_lt f E) Hk1), (proj2 (Qltb_lt S l) Hk2). cbn [andb]. cbv zeta.
  destruct (np.Qltb S f) eqn:E3; [apply Qltb_lt in E3 | apply Qltb_ge in E3];
    (destruct (np.Qltb l E) eqn:E4; [apply Qltb_lt in E4 | apply Qltb_ge in E4]).
  - pose proof (Hlo1 E3). pose proof (Hhi1 E4).
    rewrite (proj2 (Qltb_lt (f + eps) l) ltac:(lra)). cbn [andb].
    do 3 eexists. split; [reflexivity |]. repeat split; lra.
  - pose proof (Hlo1 E3). pose proof (Hhi2 E4). rewrite andb_false_r.
    do 3 eexists. split; [reflexivity |]. repeat split; lra.
  - pose proof (Hlo2 E3). pose proof (Hhi1 E4).
    rewrite (proj2 (Qltb_lt S l) Hk2). cbn [andb].
    do 3 eexists. split; [reflexivity |]. repeat split; lra.
  - pose proof (Hlo2 E3). pose proof (Hhi2 E4). rewrite andb_false_r.
    do 3 eexists. split; [reflexivity |]. repeat split; lra.
Qed.

(** Two event lists that differ in one event, when the clipping stage makes
    the same of the two events: the later stages return the same array. *)
Lemma clip_replace (n : nat) (tbins dta : list Q) (f l : Q) (evA prA evB prB : list Q)
    (E p E2 p2 E' P' S' E2' P2' S2' : Q) (arr : list Q) :
  length evA = length prA ->
  clip_body f l f [E] [p] [E - p] = ([E'], [P'], [S']) ->
  clip_body f l f [E2] [p2] [E2 - p2] = ([E2'], [P2'], [S2']) ->
  E' == E2' -> P' == P2' -> S' == S2' ->
  ('(ev_fl, pr_fl, livetime_starts) ←
      Ok (clip_body f l f (evA ++ E :: evB) (prA ++ p :: prB)
            (zip_with Qminus (evA ++ E :: evB) (prA ++ p :: prB)));
   accumulate n tbins dta ev_fl pr_fl livetime_starts) = Ok arr ->
  exists arr2,
    ('(ev_fl, pr_fl, livetime_starts) ←
        Ok (clip_body f l f (evA ++ E2 :: evB) (prA ++ p2 :: prB)
              (zip_with Qminus (evA ++ E2 :: evB) (prA ++ p2 :: prB)));
     accumulate n tbins dta ev_fl pr_fl livetime_starts) = Ok arr2
    /\ Forall2 Qeq arr arr2.
Proof.
  intros Hlen H1 H2 HE HP HS.
  rewrite !(zip_with_app Qminus evA _ prA _ Hlen). cbn [zip_with].
  rewrite !clip_body_app by (by rewrite ?length_zip_with, ?Hlen, ?Nat.min_id).
  rewrite (clip_body_cons f l f E), (clip_body_cons f l f E2), H1, H2.
  destruct (clip_body f l f evA prA (zip_with Qminus evA prA)) as [[a1 a2] a3].
  destruct (clip_body f l f evB prB (zip_with Qminus evB prB)) as [[b1 b2] b3].
  unfold app3. cbn [fst snd mbind result_bind rbind app].
  apply (accumulate_shifted 0); try apply shifted_refl.
  - apply Forall2_app; [apply shifted_refl |].
    constructor; [unfold shifted; lra | apply shifted_refl].
  - apply Forall2_app; [apply Qeq_refl_list |]. constructor; [exact HP | apply Qeq_refl_list].
  - apply Forall2_app; [apply shifted_refl |].
    constructor; [unfold shifted; lra | apply shifted_refl].
Qed.

Lemma arrays_eq_trans (a b c : list Q) : arrays_eq a b -> arrays_eq b c -> arrays_eq a c.
Proof.
  unfold arrays_eq. intros H. revert c. induction H as [|x y a b Hxy _ IH]; intros c Hc.
  - exact Hc.
  - destruct c as [|z c]; inversion Hc; subst. constructor; [by etransitivity | by apply IH].
Qed.

(** Two events that the clipping stage turns into the same interval
    [[lo, hi]] can stand for one another in the event list. *)
Lemma clamped_events_exchange (times dta : list Q) (dt : option dt_value)
    (gti : option value) (first_edge last_edge : Q)
    (ev1 ev2 pr1 pr2 : list Q) (ea pa eb pb lo hi : Q) (arr : list Q) :
  broadcast_dt (_assign_value_if_none dt (Scalar (np.median (np.diff times)))) times
    = Some dta ->
  length dta = length times -> times <> [] ->
  first_edge = nth 0 times 0 - nth 0 dta 0 / 2 ->
  last_edge = nth (length times - 1) times 0 + nth (length times - 1) dta 0 / 2 ->
  length ev1 = length pr1 -> length ev2 = length pr2 ->
  first_edge < ea -> ea - pa < last_edge ->
  (ea - pa < first_edge -> lo == first_edge + eps) -> (first_edge <= ea - pa -> lo == ea - pa) ->
  (last_edge < ea -> hi == last_edge - eps) -> (ea <= last_edge -> hi == ea) ->
  first_edge < eb -> eb - pb < last_edge ->
  (eb - pb < first_edge -> lo == first_edge + eps) -> (first_edge <= eb - pb -> lo == eb - pb) ->
  (last_edge < eb -> hi == last_edge - eps) -> (eb <= last_edge -> hi == eb) ->
  lo <= hi ->
  get_livetime_per_bin times (ev1 ++ ea :: ev2) (pr1 ++ pa :: pr2) dt gti = Ok arr ->
  exists arr',
    get_livetime_per_bin times (ev1 ++ eb :: ev2) (pr1 ++ pb :: pr2) dt gti = Ok arr'
    /\ arrays_eq arr arr'.
Proof.
  intros Hdt Hl Hne Hfirst Hlast Hl1 Hl2 A1 A2 A3 A4 A5 A6 B1 B2 B3 B4 B5 B6 Hlh H.
  assert (Hla : length (ev1 ++ ea :: ev2) = length (pr1 ++ pa :: pr2))
    by (rewrite !length_app; cbn [length]; lia).
  assert (Hlb : length (ev1 ++ eb :: ev2) = length (pr1 ++ pb :: pr2))
    by (rewrite !length_app; cbn [length]; lia).
  destruct (head (ev1 ++ ea :: ev2)) as [e0a|] eqn:Hha; [|by destruct ev1].
  destruct (head (ev1 ++ eb :: ev2)) as [e0b|] eqn:Hhb; [|by destruct ev1].
  rewrite (get_livetime_per_bin_unfold _ _ _ _ _ e0a dta Hla Hha Hdt) in H.
  rewrite (get_livetime_per_bin_unfold _ _ _ _ _ e0b dta Hlb Hhb Hdt).
  destruct (axis_edges times dta e0a first_edge last_edge Hl Hne Hfirst Hlast)
    as (tbins & Hb & Htl & Hhd & Hlast' & _).
  rewrite Hb in H. cbn [mbind result_bind rbind] in H.
  rewrite (clip_to_axis_body _ _ _ _ _ _ Htl Hhd Hlast') in H.
  rewrite map_app in H. cbn [map] in H.
  destruct (clip_single_clamped (first_edge - e0a) (last_edge - e0a) (ea - e0a) pa
              (ea - e0a - pa) (lo - e0a) (hi - e0a))
    as (Ea & Pa & Sa & Hca & Ha1 & Ha2 & Ha3);
    [lra | lra | intros; rewrite A3; lra | intros; rewrite A4; lra
    | intros; rewrite A5; lra | intros; rewrite A6; lra | lra | reflexivity |].
  destruct (clip_single_clamped (first_edge - e0a) (last_edge - e0a) (eb - e0a) pb
              (eb - e0a - pb) (lo - e0a) (hi - e0a))
    as (Eb & Pb & Sb & Hcb & Hb1 & Hb2 & Hb3);
    [lra | lra | intros; rewrite B3; lra | intros; rewrite B4; lra
    | intros; rewrite B5; lra | intros; rewrite B6; lra | lra | reflexivity |].
  destruct (clip_replace (length times) tbins dta (first_edge - e0a) (last_edge - e0a)
              (map (fun e => e - e0a) ev1) pr1 (map (fun e => e - e0a) ev2) pr2
              (ea - e0a) pa (eb - e0a) pb Ea Pa Sa Eb Pb Sb arr)
    as (arr1 & H1 & Heq1);
    [by rewrite length_map | exact Hca | exact Hcb | lra | lra | lra | exact H |].
  assert (H1' :
    (tbins ← bin_edges times dta e0a;
     '(ev_fl, pr_fl, livetime_starts) ←
        clip_to_axis tbins (map (fun e => e - e0a) (ev1 ++ eb :: ev2)) (pr1 ++ pb :: pr2)
          (zip_with Qminus (map (fun e => e - e0a) (ev1 ++ eb :: ev2)) (pr1 ++ pb :: pr2));
     accumulate (length times) tbins dta ev_fl pr_fl livetime_starts) = Ok arr1).
  { rewrite Hb. cbn [mbind result_bind rbind].
    rewrite (clip_to_axis_body _ _ _ _ _ _ Htl Hhd Hlast').
    rewrite map_app. cbn [map]. exact H1. }
  destruct (binner_frame times dta _ _ e0a e0b arr1 Hlb H1') as (arr2 & H2 & Heq2).
  exists arr2. split; [exact H2 |]. by apply (arrays_eq_trans _ arr1).
Qed.

(** C6: what an event at the ends of the axis contributes to the returned
    array.  On a contiguous axis, an event that reaches into the axis is
    counted from [lo] to [hi], where [lo] is the start of its livetime, or
    [first_edge + 1e-9] when the livetime starts before the first edge, and
    [hi] is the event time, or [last_edge - 1e-9] when the event lies after
    the last edge: the returned livetimes add up to [hi - lo], and every bin
    gets the part of [[lo, hi]] that lies in it (an interval shorter than
    the 1e-9 that is cut off, for which [lo <= hi] fails, is left out).
    Among other events, such an event counts as the event at [hi] with the
    prior [hi - lo] does: the one can be put in the place of the other.
    An event that ends at or before the first edge, or whose livetime starts
    at or after the last edge, contributes nothing: the array is the one
    that is returned without it.  When the dropped event is [events[0]] the two
    calls work in different time frames and the arrays agree as numbers. *)
Theorem boundary_handling (times dta : list Q) (dt : option dt_value) (gti : option value)
    (first_edge last_edge : Q) :
  broadcast_dt (_assign_value_if_none dt (Scalar (np.median (np.diff times)))) times
    = Some dta ->
  length dta = length times -> times <> [] ->
  (forall i, (i < length times)%nat -> 0 < nth i dta 0) ->
  (forall i, (S i < length times)%nat ->
             nth i times 0 + nth i dta 0 / 2 == nth (S i) times 0 - nth (S i) dta 0 / 2) ->
  first_edge = nth 0 times 0 - nth 0 dta 0 / 2 ->
  last_edge = nth (length times - 1) times 0 + nth (length times - 1) dta 0 / 2 ->
  (forall e p lo hi,
      0 <= p -> first_edge < e -> e - p < last_edge ->
      (e - p < first_edge -> lo = first_edge + eps) ->
      (first_edge <= e - p -> lo = e - p) ->
      (last_edge < e -> hi = last_edge - eps) ->
      (e <= last_edge -> hi = e) ->
      lo <= hi ->
      exists arr,
        get_livetime_per_bin times [e] [p] dt gti = Ok arr
        /\ length arr = length times
        /\ np.sum arr == hi - lo
        /\ forall i, (i < length times)%nat ->
             nth i arr 0
             == overlap (nth i times 0 - nth i dta 0 / 2)
                        (nth i times 0 + nth i dta 0 / 2) lo hi)
  /\ (forall events1 events2 priors1 priors2 e p lo hi,
        length events1 = length priors1 -> length events2 = length priors2 ->
        0 <= p -> first_edge < e -> e - p < last_edge ->
        (e - p < first_edge -> lo = first_edge + eps) ->
        (first_edge <= e - p -> lo = e - p) ->
        (last_edge < e -> hi = last_edge - eps) ->
        (e <= last_edge -> hi = e) ->
        lo < hi ->
        (forall arr,
           get_livetime_per_bin times (events1 ++ e :: events2) (priors1 ++ p :: priors2)
             dt gti = Ok arr ->
           exists arr',
             get_livetime_per_bin times (events1 ++ hi :: events2)
               (priors1 ++ (hi - lo) :: priors2) dt gti = Ok arr'
             /\ arrays_eq arr arr')
        /\ (forall arr',
              get_livetime_per_bin times (events1 ++ hi :: events2)
                (priors1 ++ (hi - lo) :: priors2) dt gti = Ok arr' ->
              exists arr,
                get_livetime_per_bin times (events1 ++ e :: events2)
                  (priors1 ++ p :: priors2) dt gti = Ok arr
                /\ arrays_eq arr' arr))
  /\ (forall events1 events2 priors1 priors2 e p,
        length events1 = length priors1 -> length events2 = length priors2 ->
        e <= first_edge \/ last_edge <= e - p ->
        (events1 <> [] ->
         get_livetime_per_bin times (events1 ++ e :: events2) (priors1 ++ p :: priors2) dt gti
         = get_livetime_per_bin times (events1 ++ events2) (priors1 ++ priors2) dt gti)
        /\ (forall arr,
              get_livetime_per_bin times (events1 ++ e :: events2) (priors1 ++ p :: priors2)
                dt gti = Ok arr ->
              exists arr',
                get_livetime_per_bin times (events1 ++ events2) (priors1 ++ priors2) dt gti
                = Ok arr'
                /\ arrays_eq arr arr')
        /\ (forall arr',
              get_livetime_per_bin times (events1 ++ events2) (priors1 ++ priors2) dt gti
              = Ok arr' ->
              exists arr,
                get_livetime_per_bin times (events1 ++ e :: events2) (priors1 ++ p :: priors2)
                  dt gti = Ok arr
                /\ arrays_eq arr' arr)).
Proof.
  intros Hdt Hl Hne Hpos Hcont Hfirst Hlast.
  pose proof eps_pos as Heps.
  split; [|split].
  - intros e p lo hi Hp Hk1 Hk2 Hlo1 Hlo2 Hhi1 Hhi2 Hlh.
    destruct (axis_edges times dta e first_edge last_edge Hl Hne Hfirst Hlast)
      as (tbins & Hb & Htl & Hhd & Hla & He0 & HeN).
    pose proof (bin_edges_contiguous times dta tbins e Hl Hb Hpos Hcont) as Hax.
    assert (HN' : (1 <= length dta)%nat) by (rewrite Hl; destruct times; [done | cbn; lia]).
    assert (Hfin : forall E P S,
              P == E - S -> S == lo - e -> E == hi - e ->
              exists arr,
                accumulate (length times) tbins dta [E] [P] [S] = Ok arr
                /\ length arr = length times
                /\ np.sum arr == hi - lo
                /\ forall i, (i < length times)%nat ->
                     nth i arr 0
                     == overlap (nth i times 0 - nth i dta 0 / 2)
                                (nth i times 0 + nth i dta 0 / 2) lo hi).
    { intros E P S HP HS HE.
      assert (Hlo : first_edge <= lo).
      { destruct (Qlt_le_dec (e - p) first_edge) as [H | H];
          [rewrite (Hlo1 H) | rewrite (Hlo2 H)]; lra. }
      assert (Hhi : hi <= last_edge).
      { destruct (Qlt_le_dec last_edge e) as [H | H];
          [rewrite (Hhi1 H) | rewrite (Hhi2 H)]; lra. }
      destruct (accumulate_single_clamped tbins dta E P S Hax HN')
        as (arr & Hacc & Hlen & Hsum & Hbd).
      { rewrite He0. lra. }
      { rewrite Hl, HeN. lra. }
      { lra. }
      { exact HP. }
      rewrite Hl in Hacc, Hlen, Hbd.
      exists arr. split; [exact Hacc |]. split; [exact Hlen |].
      split; [rewrite Hsum; lra |].
      intros i Hi. rewrite (Hbd i Hi).
      pose proof (bin_edges_edge times dta tbins e i Hl Hb Hi) as Hei.
      destruct (proj2 Hax i ltac:(lia)) as [_ Hw].
      pose proof (Qhalf_double (nth i dta 0)) as Hhalf.
      rewrite Hei in Hw. rewrite Hei.
      apply (overlap_shift e); lra. }
    rewrite (get_livetime_per_bin_unfold times [e] [p] dt gti e dta eq_refl eq_refl Hdt), Hb.
    cbn [mbind result_bind rbind map zip_with].
    rewrite (clip_to_axis_body _ _ _ _ _ _ Htl Hhd Hla), clip_body_single.
    rewrite (proj2 (Qltb_lt (first_edge - e) (e - e)) ltac:(lra)).
    rewrite (proj2 (Qltb_lt (e - e - p) (last_edge - e)) ltac:(lra)).
    cbn [andb]. cbv zeta.
    destruct (np.Qltb (e - e - p) (first_edge - e)) eqn:E3;
      [apply Qltb_lt in E3 | apply Qltb_ge in E3];
      (destruct (np.Qltb (last_edge - e) (e - e)) eqn:E4;
       [apply Qltb_lt in E4 | apply Qltb_ge in E4]).
    + assert (Hlo : lo == first_edge + eps) by (rewrite (Hlo1 ltac:(lra)); reflexivity). assert (Hhi : hi == last_edge - eps) by (rewrite (Hhi1 ltac:(lra)); reflexivity).
      rewrite (proj2 (Qltb_lt (first_edge - e + eps) (last_edge - e)) ltac:(lra)).
      cbn [andb mbind result_bind rbind]. apply Hfin; lra.
    + assert (Hlo : lo == first_edge + eps) by (rewrite (Hlo1 ltac:(lra)); reflexivity). assert (Hhi : hi == e) by (rewrite (Hhi2 ltac:(lra)); reflexivity).
      rewrite andb_false_r. cbn [mbind result_bind rbind]. apply Hfin; lra.
    + assert (Hlo : lo == e - p) by (rewrite (Hlo2 ltac:(lra)); reflexivity). assert (Hhi : hi == last_edge - eps) by (rewrite (Hhi1 ltac:(lra)); reflexivity).
      rewrite (proj2 (Qltb_lt (e - e - p) (last_edge - e)) ltac:(lra)).
      cbn [andb mbind result_bind rbind]. apply Hfin; lra.
    + assert (Hlo : lo == e - p) by (rewrite (Hlo2 ltac:(lra)); reflexivity). assert (Hhi : hi == e) by (rewrite (Hhi2 ltac:(lra)); reflexivity).
      rewrite andb_false_r. cbn [mbind result_bind rbind]. apply Hfin; lra.
  - intros ev1 ev2 pr1 pr2 e p lo hi Hl1 Hl2 Hp Hk1 Hk2 Hlo1 Hlo2 Hhi1 Hhi2 Hlh.
    assert (Q1 : e - p < first_edge -> lo == first_edge + eps)
      by (intros H; rewrite (Hlo1 H); reflexivity).
    assert (Q2 : first_edge <= e - p -> lo == e - p)
      by (intros H; rewrite (Hlo2 H); reflexivity).
    assert (Q3 : last_edge < e -> hi == last_edge - eps)
      by (intros H; rewrite (Hhi1 H); reflexivity).
    assert (Q4 : e <= last_edge -> hi == e)
      by (intros H; rewrite (Hhi2 H); reflexivity).
    assert (Hlo : first_edge <= lo).
    { destruct (Qlt_le_dec (e - p) first_edge) as [H | H];
        [rewrite (Q1 H) | rewrite (Q2 H)]; lra. }
    assert (Hhi : hi <= last_edge).
    { destruct (Qlt_le_dec last_edge e) as [H | H];
        [rewrite (Q3 H) | rewrite (Q4 H)]; lra. }
    split; intros arr H.
    + apply (clamped_events_exchange times dta dt gti first_edge last_edge
               ev1 ev2 pr1 pr2 e p hi (hi - lo) lo hi arr Hdt Hl Hne Hfirst Hlast Hl1 Hl2);
        [exact Hk1 | exact Hk2 | exact Q1 | exact Q2 | exact Q3 | exact Q4
        | lra | lra | intros; lra | intros; lra | intros; lra | intros; lra | lra | exact H].
    + apply (clamped_events_exchange times dta dt gti first_edge last_edge
               ev1 ev2 pr1 pr2 hi (hi - lo) e p lo hi arr Hdt Hl Hne Hfirst Hlast Hl1 Hl2);
        [lra | lra | intros; lra | intros; lra | intros; lra | intros; lra
        | exact Hk1 | exact Hk2 | exact Q1 | exact Q2 | exact Q3 | exact Q4 | lra | exact H].
  - intros ev1 ev2 pr1 pr2 e p Hl1 Hl2 Hout.
    destruct ev1 as [|e1 ev1].
    + destruct pr1; [|discriminate]. cbn [app]. split; [done |].
      destruct (axis_edges times dta e first_edge last_edge Hl Hne Hfirst Hlast)
        as (tbins & Hb & Htl & Hhd & Hla & _).
      rewrite (dropped_head times ev2 pr2 dta tbins e p _ _ dt gti Hl2 Hdt Hb Hhd Hla)
        by (destruct Hout; [left | right]; lra).
      destruct ev2 as [|e2 ev2].
      * destruct pr2; [|discriminate]. rewrite Hb. cbn [mbind result_bind rbind map zip_with].
        rewrite (clip_to_axis_body _ _ _ _ _ _ Htl Hhd Hla), clip_body_nil.
        cbn [mbind result_bind rbind]. rewrite accumulate_nil.
        split; intros arr H; discriminate.
      * rewrite (get_livetime_per_bin_unfold times (e2 :: ev2) pr2 dt gti e2 dta Hl2 eq_refl Hdt).
        split; intros arr H.
        -- by apply (binner_frame times dta (e2 :: ev2) pr2 e e2 arr Hl2).
        -- by apply (binner_frame times dta (e2 :: ev2) pr2 e2 e arr Hl2).
    + assert (Heq :
        get_livetime_per_bin times ((e1 :: ev1) ++ e :: ev2) (pr1 ++ p :: pr2) dt gti
        = get_livetime_per_bin times ((e1 :: ev1) ++ ev2) (pr1 ++ pr2) dt gti).
      { destruct (axis_edges times dta e1 first_edge last_edge Hl Hne Hfirst Hlast)
          as (tbins & Hb & Htl & Hhd & Hla & _).
        pose proof Hl1 as Hl1'. cbn [length] in Hl1'.
        rewrite (get_livetime_per_bin_unfold _ _ _ _ _ e1 dta) by
          (rewrite ?length_app; cbn [length app head]; done || lia).
        rewrite (get_livetime_per_bin_unfold _ ((e1 :: ev1) ++ ev2) _ _ _ e1 dta) by
          (rewrite ?length_app; cbn [length app head]; done || lia).
        rewrite Hb. cbn [mbind result_bind rbind].
        rewrite !(clip_to_axis_body _ _ _ _ _ _ Htl Hhd Hla).
        rewrite (clip_body_dropped_middle _ _ (fun x => x - e1)); [reflexivity | done |].
        destruct Hout; [left | right]; lra. }
      split; [intros _; exact Heq |].
      rewrite Heq. split; intros arr H; exists arr; (split; [exact H | apply Qeq_refl_list]).
Qed.

Lemma boundary_handling_witness :
  (exists arr,
      get_livetime_per_bin [1#2; 3#2; 5#2] [4#10] [1] (Some (Scalar (Some 1))) None = Ok arr
      /\ np.sum arr == (4#10) - ((1#2) - (1 + 0) / 2 + eps))
  /\ (exists arr,
        get_livetime_per_bin [1#2; 3#2; 5#2] [4] [5] (Some (Scalar (Some 1))) None = Ok arr
        /\ np.sum arr == ((5#2) + (1 + 0) / 2 - eps) - ((1#2) - (1 + 0) / 2 + eps))
  /\ (exists arr arr',
        get_livetime_per_bin [1#2; 3#2; 5#2] ([] ++ [22#10]) ([] ++ [3#2])
          (Some (Scalar (Some 1))) None = Ok arr'
        /\ get_livetime_per_bin [1#2; 3#2; 5#2] ([] ++ 10 :: [22#10]) ([] ++ 1 :: [3#2])
             (Some (Scalar (Some 1))) None = Ok arr
        /\ arrays_eq arr' arr)
  /\ (exists arr arr',
        get_livetime_per_bin [1#2; 3#2; 5#2] ([16#10] ++ (35#10) :: []) ([1] ++ 1 :: [])
          (Some (Scalar (Some 1))) None = Ok arr
        /\ get_livetime_per_bin [1#2; 3#2; 5#2]
             ([16#10] ++ ((5#2) + (1 + 0) / 2 - eps) :: [])
             ([1] ++ ((5#2) + (1 + 0) / 2 - eps - ((35#10) - 1)) :: [])
             (Some (Scalar (Some 1))) None = Ok arr'
        /\ arrays_eq arr arr').
Proof.
  destruct (boundary_handling [1#2; 3#2; 5#2] [1 + 0; 1 + 0; 1 + 0]
              (Some (Scalar (Some 1))) None ((1#2) - (1 + 0) / 2) ((5#2) + (1 + 0) / 2))
    as (HA & HC & HB).
  - reflexivity.
  - reflexivity.
  - discriminate.
  - intros [|[|[|i]]] Hi; cbn in Hi; try lia; vm_compute; reflexivity.
  - intros [|[|i]] Hi; cbn in Hi; try lia; vm_compute; reflexivity.
  - reflexivity.
  - reflexivity.
  - split; [|split; [|split]].
    + destruct (HA (4#10) 1 ((1#2) - (1 + 0) / 2 + eps) (4#10)) as (arr & H & _ & Hs & _);
        [decide_Q | decide_Q | decide_Q | decide_Q | decide_Q | decide_Q | decide_Q
        | decide_Q |].
      exists arr. split; [exact H | exact Hs].
    + destruct (HA 4 5 ((1#2) - (1 + 0) / 2 + eps) ((5#2) + (1 + 0) / 2 - eps))
        as (arr & H & _ & Hs & _);
        [decide_Q | decide_Q | decide_Q | decide_Q | decide_Q | decide_Q | decide_Q
        | decide_Q |].
      exists arr. split; [exact H | exact Hs].
    + destruct (HB [] [22#10] [] [3#2] 10 1 eq_refl eq_refl) as (_ & _ & H3).
      { right. decide_Q. }
      assert (exists a,
                 get_livetime_per_bin [1#2; 3#2; 5#2] ([] ++ [22#10]) ([] ++ [3#2])
                   (Some (Scalar (Some 1))) None = Ok a) as [a Ha].
      { vm_compute. eexists. reflexivity. }
      destruct (H3 a Ha) as (arr & Harr & Heq).
      exists arr, a. split; [exact Ha |]. split; [exact Harr | exact Heq].
    + destruct (HC [16#10] [] [1] [] (35#10) 1 ((35#10) - 1) ((5#2) + (1 + 0) / 2 - eps)
                  eq_refl eq_refl) as [H1 _];
        [decide_Q | decide_Q | decide_Q | decide_Q | decide_Q | decide_Q | decide_Q
        | decide_Q |].
      assert (exists a,
                 get_livetime_per_bin [1#2; 3#2; 5#2] ([16#10] ++ (35#10) :: [])
                   ([1] ++ 1 :: []) (Some (Scalar (Some 1))) None = Ok a) as [a Ha].
      { vm_compute. eexists. reflexivity. }
      destruct (H1 a Ha) as (arr' & Harr & Heq).
      exists a, arr'. split; [exact Ha |]. split; [exact Harr | exact Heq].
Defined.

(** * Further properties of the module *)

(** ** The shape of the result *)

Lemma put_at_length {A : Type} (a : list A) (ks : list nat) (vs : list A) :
  length (np.put_at a ks vs) = length a.
Proof.
  revert a vs. induction ks as [|k ks IH]; intros a [|v vs]; try reflexivity.
  cbn [np.put_at]. rewrite IH. apply length_insert.
Qed.

Lemma iadd_at_length (a : list Q) (idx : list Z) (v a' : list Q) :
  np.iadd_at a idx v = Ok a' -> length a' = length a.
Proof.
  unfold np.iadd_at. intros H.
  apply bind_Ok_inv in H as (ks & _ & H). apply bind_Ok_inv in H as (old & _ & H).
  injection H as <-. apply put_at_length.
Qed.

Lemma iadd_length (a b a' : list Q) : np.iadd a b = Ok a' -> length a' = length a.
Proof.
  unfold np.iadd. destruct (length a =? length b)%nat eqn:E.
  - intros [= <-]. apply Nat.eqb_eq in E. rewrite length_zip_with. lia.
  - destruct b as [|y [|z b]]; try discriminate. intros [= <-]. apply length_map.
Qed.

Lemma for_each_invariant {A S : Type} (P : S -> Prop) (body : S -> A -> result S)
    (l : list A) :
  (forall s x s', P s -> body s x = Ok s' -> P s') ->
  forall s s', P s -> for_each body s l = Ok s' -> P s'.
Proof.
  intros Hstep. induction l as [|x l IH]; intros s s' Hs H.
  - injection H as <-. exact Hs.
  - cbn [for_each] in H. apply bind_Ok_inv in H as (s1 & H1 & H).
    apply (IH s1 s' (Hstep s x s1 Hs H1) H).
Qed.

Lemma complete_bins_length (dt : list Q) (l : list Z) (la : list Q) (i : Z) (la' : list Q) :
  complete_bins dt l la i = Ok la' -> length la' = length la.
Proof.
  rewrite complete_bins_unfold. intros H. apply bind_Ok_inv in H as (w & _ & H).
  by apply iadd_at_length in H.
Qed.

Lemma span_pass_length (starts dt : list Q) (ev_bin lts_bin : list Z) (ev lts la : list Q)
    (bd : Z) (la' : list Q) :
  span_pass starts dt ev_bin lts_bin ev lts la bd = Ok la' -> length la' = length la.
Proof.
  unfold span_pass. intros H.
  apply bind_Ok_inv in H as (t1 & _ & H). apply bind_Ok_inv in H as (la1 & H1 & H).
  apply bind_Ok_inv in H as (u1 & _ & H). apply bind_Ok_inv in H as (t2 & _ & H).
  apply bind_Ok_inv in H as (la2 & H2 & H). apply bind_Ok_inv in H as (u2 & _ & H).
  apply iadd_at_length in H1, H2.
  destruct (1 <? bd)%Z.
  - apply (for_each_invariant (fun s => length s = length la) _ _) in H; [done | | congruence].
    intros s i s' Hs Hi. apply complete_bins_length in Hi. congruence.
  - injection H as <-. congruence.
Qed.

Lemma accumulate_length (n : nat) (tbins dt ev pr lts arr : list Q) :
  accumulate n tbins dt ev pr lts = Ok arr -> length arr = n.
Proof.
  unfold accumulate. intros H.
  apply bind_Ok_inv in H as (expo & _ & H). apply bind_Ok_inv in H as (u' & _ & H).
  apply bind_Ok_inv in H as (la0 & H0 & H). apply bind_Ok_inv in H as (m & _ & H).
  apply iadd_length in H0. rewrite repeat_length in H0.
  apply (for_each_invariant (fun s => length s = n) _ _) in H; [done | | done].
  intros s bd s' Hs Hbd. apply span_pass_length in Hbd. congruence.
Qed.

(** What is returned is what the last stage returns, on a zero array of the
    length of [times]. *)
Lemma get_livetime_per_bin_Ok_inv (times events priors : list Q)
    (dt : option dt_value) (gti : option value) (arr : list Q) :
  get_livetime_per_bin times events priors dt gti = Ok arr ->
  exists tbins dta ev pr lts,
    accumulate (length times) tbins dta ev pr lts = Ok arr.
Proof.
  unfold get_livetime_per_bin. intros H.
  apply bind_Ok_inv in H as (u & _ & H). apply bind_Ok_inv in H as (e0 & _ & H).
  destruct (broadcast_dt _ times) as [dta|].
  2: { apply bind_Ok_inv in H as (tl & _ & H). discriminate. }
  apply bind_Ok_inv in H as (tbins & _ & H).
  apply bind_Ok_inv in H as ([[ev pr] lts] & _ & H).
  by exists tbins, dta, ev, pr, lts.
Qed.

(** The docstring promises "an array of the same length as times": whenever
    the function returns, this is the length of what it returns, for every
    kind of [dt]. *)
Theorem result_has_length_of_times (times events priors : list Q)
    (dt : option dt_value) (gti : option value) (arr : list Q) :
  get_livetime_per_bin times events priors dt gti = Ok arr ->
  length arr = length times.
Proof.
  intros H. apply get_livetime_per_bin_Ok_inv in H as (tbins & dta & ev & pr & lts & H).
  by apply accumulate_length in H.
Qed.

Lemma result_has_length_of_times_witness :
  exists arr,
    get_livetime_per_bin [1#2; 3#2; 5#2] [22#10] [3#2] None None = Ok arr
    /\ length arr = 3%nat.
Proof.
  eexists. split; [vm_compute; reflexivity |].
  apply (result_has_length_of_times [1#2; 3#2; 5#2] [22#10] [3#2] None None).
  vm_compute. reflexivity.
Defined.

(** ** Degenerate time axes *)

(** With an empty [times] the function never returns: whatever the other
    arguments are, it ends in an exception. *)
Theorem empty_time_axis_raises (events priors : list Q) (dt : option dt_value)
    (gti : option value) :
  exists e, get_livetime_per_bin [] events priors dt gti = Raise e.
Proof.
  unfold get_livetime_per_bin.
  destruct (py_assert _) as [u | e]; [|by exists e]. cbn [mbind result_bind rbind].
  destruct (np.getitem events 0) as [e0 | e]; [|by exists e].
  cbn [mbind result_bind rbind].
  destruct (broadcast_dt _ []) as [dta|].
  - unfold bin_edges.
    destruct (np.broadcast2 _ _ _) as [lefts | e]; [|by exists e].
    cbn [mbind result_bind rbind]. rewrite getitem_nil. by exists IndexError.
  - rewrite getitem_nil. by exists IndexError.
Qed.


(** ** The wrappers *)

Lemma get_exposure_from_uf_is_binner (time uf_events uf_priors : list Q)
    (dt : option dt_value) (gti : option value) :
  get_exposure_from_uf time uf_events uf_priors dt gti
  = get_livetime_per_bin time uf_events uf_priors dt gti.
Proof. unfold get_exposure_from_uf, get_livetime_per_bin. destruct dt; reflexivity. Qed.

(** A light curve file without one of the keys "time", "lc", "dt" or "GTI"
    makes [correct_lightcurve] fail with a KeyError. *)
Theorem missing_key_raises (contents : gmap string value) (uf_events uf_priors : list Q)
    (expo_limit : Q) :
  contents !! "time" = None \/ contents !! "lc" = None
  \/ contents !! "dt" = None \/ contents !! "GTI" = None ->
  correct_lightcurve contents uf_events uf_priors expo_limit = Raise KeyError.
Proof.
  intros H. unfold correct_lightcurve, get_key.
  destruct (contents !! "time"); [|reflexivity]. cbn [mbind result_bind rbind].
  destruct (contents !! "lc"); [|reflexivity]. cbn [mbind result_bind rbind].
  destruct (contents !! "dt"); [|reflexivity]. cbn [mbind result_bind rbind].
  destruct (contents !! "GTI"); [|reflexivity].
  destruct H as [H | [H | [H | H]]]; discriminate.
Qed.

Lemma missing_key_raises_witness :
  correct_lightcurve (<["time" := VArray [1#2]]> (<["lc" := VArray [10]]> ∅))
    [1#2] [1#10] (1#10000000) = Raise KeyError.
Proof. apply missing_key_raises. right. right. left. reflexivity. Defined.

(** When the binner fails, [correct_lightcurve] fails with the same error and
    returns no dictionary. *)
Theorem binner_failure_propagates (contents : gmap string value)
    (uf_events uf_priors : list Q) (expo_limit : Q)
    (time : list Q) (lc_v dt_v gti : value) (dt : dt_value) (e : exn) :
  contents !! "time" = Some (VArray time) ->
  contents !! "lc" = Some lc_v ->
  contents !! "dt" = Some dt_v ->
  contents !! "GTI" = Some gti ->
  as_dt dt_v = Ok dt ->
  get_livetime_per_bin time uf_events uf_priors (Some dt) (Some gti) = Raise e ->
  correct_lightcurve contents uf_events uf_priors expo_limit = Raise e.
Proof.
  intros Ht Hl Hd Hg Hdt He. unfold correct_lightcurve, get_key.
  rewrite Ht, Hl, Hd, Hg. cbn [mbind result_bind rbind as_array].
  rewrite Hdt. cbn [mbind result_bind rbind].
  unfold get_exposure_from_uf. cbn [_assign_value_if_none]. rewrite He. reflexivity.
Qed.

Lemma binner_failure_propagates_witness :
  correct_lightcurve
    (<["time" := VArray [1#2; 3#2; 5#2]]> (<["lc" := VArray [10; 20; 30]]>
       (<["dt" := VFloat 1]> (<["GTI" := VGti [(0, 3)]]> ∅))))
    [10; 11] [1; 2#5] (1#10000000) = Raise ValueError.
Proof.
  eapply binner_failure_propagates;
    [reflexivity | reflexivity | reflexivity | reflexivity | reflexivity
    | vm_compute; reflexivity].
Defined.

(** ** The assertions inside the binner *)

Lemma bind_no_assert {A B : Type} (c : result A) (k : A -> result B) :
  c <> Raise AssertionError ->
  (forall a, c = Ok a -> k a <> Raise AssertionError) ->
  (x ← c; k x) <> Raise AssertionError.
Proof.
  destruct c as [a | e]; cbn [mbind result_bind rbind]; intros H1 H2;
    [by apply H2 | intros [= ->]; by apply H1].
Qed.

Lemma norm_index_no_assert (n : nat) (i : Z) : np.norm_index n i <> Raise AssertionError.
Proof.
  unfold np.norm_index.
  destruct (_ && _); [discriminate |]. destruct (_ && _); discriminate.
Qed.

Lemma getitem_no_assert {A : Type} (a : list A) (i : Z) :
  np.getitem a i <> Raise AssertionError.
Proof.
  unfold np.getitem. apply bind_no_assert; [apply norm_index_no_assert |].
  intros k _. destruct (a !! k); discriminate.
Qed.

Lemma map_result_no_assert {A B : Type} (f : A -> result B) (l : list A) :
  (forall x, f x <> Raise AssertionError) -> np.map_result f l <> Raise AssertionError.
Proof.
  intros Hf. induction l as [|x l IH]; [discriminate |].
  cbn [np.map_result]. apply bind_no_assert; [apply Hf |]. intros y _.
  apply bind_no_assert; [exact IH | discriminate].
Qed.

Lemma take_at_no_assert {A : Type} (a : list A) (idx : list Z) :
  np.take_at a idx <> Raise AssertionError.
Proof. apply map_result_no_assert. intros i. apply getitem_no_assert. Qed.

Lemma iadd_at_no_assert (a : list Q) (idx : list Z) (v : list Q) :
  np.iadd_at a idx v <> Raise AssertionError.
Proof.
  unfold np.iadd_at.
  apply bind_no_assert; [apply map_result_no_assert, norm_index_no_assert |]. intros ks _.
  apply bind_no_assert; [apply take_at_no_assert | discriminate].
Qed.

Lemma for_each_no_assert {A S : Type} (body : S -> A -> result S) (l : list A) :
  Forall (fun x => forall s, body s x <> Raise AssertionError) l ->
  forall s, for_each body s l <> Raise AssertionError.
Proof.
  induction 1 as [|x l Hx _ IH]; intros s; [discriminate |].
  cbn [for_each]. apply bind_no_assert; [apply Hx |]. intros s' _. apply IH.
Qed.

(** The start of the bin of [x] is not after [x]. *)
Lemma getitem_bin_of_le (starts : list Q) (x y : Q) :
  (0 <= bin_of starts x)%Z -> np.getitem starts (bin_of starts x) = Ok y -> y <= x.
Proof.
  unfold bin_of. intros H0 H.
  pose proof (searchsorted_right_range starts x) as Hr.
  remember (Z.to_nat (np.searchsorted_right starts x - 1)) as k eqn:Hk.
  assert (E : (np.searchsorted_right starts x - 1 = Z.of_nat k)%Z) by lia.
  rewrite E in H. unfold np.getitem in H.
  rewrite norm_index_nonneg in H by lia. cbn [mbind result_bind rbind] in H.
  destruct (starts !! k) as [z|] eqn:El; [|discriminate]. injection H as <-.
  apply (nth_lookup_Some _ _ 0) in El. rewrite <- El.
  apply searchsorted_right_below. lia.
Qed.

(** The edge that [searchsorted] points to lies after [x]. *)
Lemma getitem_searchsorted_gt (starts : list Q) (x y : Q) :
  np.getitem starts (np.searchsorted_right starts x) = Ok y -> x < y.
Proof.
  intros H. pose proof (searchsorted_right_range starts x) as Hr.
  destruct (decide (np.searchsorted_right starts x < Z.of_nat (length starts))%Z) as [Hlt | Hge].
  - pose proof (searchsorted_right_above starts x Hlt) as Hab.
    remember (Z.to_nat (np.searchsorted_right starts x)) as k eqn:Hk.
    assert (E : (np.searchsorted_right starts x = Z.of_nat k)%Z) by lia.
    rewrite E in H. unfold np.getitem in H.
    rewrite norm_index_nonneg in H by lia. cbn [mbind result_bind rbind] in H.
    destruct (starts !! k) as [z|] eqn:El; [|discriminate]. injection H as <-.
    apply (nth_lookup_Some _ _ 0) in El. by rewrite <- El.
  - exfalso. unfold np.getitem, np.norm_index in H.
    replace (np.searchsorted_right starts x <? Z.of_nat (length starts))%Z with false in H
      by (symmetry; apply Z.ltb_ge; lia).
    replace (np.searchsorted_right starts x <? 0)%Z with false in H
      by (symmetry; apply Z.ltb_ge; lia).
    rewrite !andb_false_r in H. discriminate.
Qed.

Lemma take_bins_nonneg (starts evs tb : list Q) :
  Forall (fun x => (0 <= bin_of starts x)%Z) evs ->
  np.take_at starts (map (bin_of starts) evs) = Ok tb ->
  np.all_nonneg (zip_with Qminus evs tb) = true.
Proof.
  intros HF. revert tb. induction HF as [|x evs Hx _ IH]; intros tb H; [reflexivity |].
  unfold np.take_at in H. cbn [map np.map_result] in H.
  apply bind_Ok_inv in H as (y & Hy & H). apply bind_Ok_inv in H as (ys & Hys & H).
  injection H as <-. unfold np.all_nonneg. cbn [zip_with forallb].
  apply andb_true_iff. split.
  - apply Qle_bool_iff. pose proof (getitem_bin_of_le starts x y Hx Hy). lra.
  - by apply IH.
Qed.

Lemma take_next_edges_nonneg (starts lts tb : list Q) :
  np.take_at starts (map (np.searchsorted_right starts) lts) = Ok tb ->
  np.all_nonneg (zip_with Qminus tb lts) = true.
Proof.
  revert tb. induction lts as [|x lts IH]; intros tb H.
  - injection H as <-. reflexivity.
  - unfold np.take_at in H. cbn [map np.map_result] in H.
    apply bind_Ok_inv in H as (y & Hy & H). apply bind_Ok_inv in H as (ys & Hys & H).
    injection H as <-. unfold np.all_nonneg. cbn [zip_with forallb].
    apply andb_true_iff. split.
    + apply Qle_bool_iff. pose proof (getitem_searchsorted_gt starts x y Hy). lra.
    + by apply IH.
Qed.

(** An event that a pass with [bin_diff >= 1] selects lies in a bin of the
    axis: its bin is at least one after a bin index, which is at least -1. *)
Lemma span_selected_bin_nonneg (starts : list Q) (D : Z) (ev lts : list Q) :
  (1 <= D)%Z ->
  Forall (fun x => (0 <= bin_of starts x)%Z)
    (np.select (zip_with (fun e l => (e =? l + D)%Z)
                  (map (bin_of starts) ev) (map (bin_of starts) lts)) ev).
Proof.
  intros HD. revert lts. induction ev as [|e ev IH]; intros [|l lts];
    cbn [map zip_with np.select]; try constructor.
  destruct (bin_of starts e =? bin_of starts l + D)%Z eqn:E; [|apply IH].
  constructor; [|apply IH].
  apply Z.eqb_eq in E. pose proof (searchsorted_right_range starts l).
  unfold bin_of in *. lia.
Qed.

(** The two "Invalid boundaries" assertions of the loop (lines 121 and 128)
    never fail: an event that a pass with [bin_diff >= 1] selects lies in a
    bin of the axis, the start of that bin is not after the event, and the
    edge after the bin in which the livetime starts is after that start.  A
    pass can fail on an index, never on an assertion. *)
Theorem loop_assertions_never_fail (starts dt ev lts la : list Q) (D : Z) :
  (1 <= D)%Z ->
  span_pass starts dt (map (bin_of starts) ev) (map (bin_of starts) lts) ev lts la D
  <> Raise AssertionError.
Proof.
  intros HD. unfold span_pass. cbv zeta.
  apply bind_no_assert; [apply take_at_no_assert |]. intros tb1 H1.
  apply bind_no_assert; [apply iadd_at_no_assert |]. intros la1 _.
  rewrite (take_bins_nonneg _ _ _ (span_selected_bin_nonneg starts D ev lts HD) H1).
  cbn [py_assert mbind result_bind rbind].
  apply bind_no_assert; [apply take_at_no_assert |]. intros tb2 H2.
  apply bind_no_assert; [apply iadd_at_no_assert |]. intros la2 _.
  rewrite (take_next_edges_nonneg _ _ _ H2).
  cbn [py_assert mbind result_bind rbind].
  destruct (1 <? D)%Z; [|discriminate].
  apply for_each_no_assert. apply List.Forall_forall. intros i _ s.
  rewrite complete_bins_unfold.
  apply bind_no_assert; [apply take_at_no_assert |]. intros w _. apply iadd_at_no_assert.
Qed.

Lemma loop_assertions_never_fail_witness :
  span_pass [0; 1; 2] [1; 1; 1] (map (bin_of [0; 1; 2]) [22#10]) (map (bin_of [0; 1; 2]) [7#10])
    [22#10] [7#10] [0; 0; 0] 2
  <> Raise AssertionError.
Proof. apply loop_assertions_never_fail. lia. Defined.

(** ** Livetime and the time spent in a bin *)

(** On a contiguous axis, for events with non-negative priors whose livetime
    intervals lie on the axis (they may overlap one another), the function
    returns, no bin gets a negative livetime, and no bin gets more than the
    time that the livetime intervals of the events spend in it. *)
Theorem livetime_nonnegative_and_covered (times events priors dta : list Q)
    (dt : option dt_value) (gti : option value) (e0 first_edge last_edge : Q) :
  length events = length priors ->
  head events = Some e0 ->
  broadcast_dt (_assign_value_if_none dt (Scalar (np.median (np.diff times)))) times
    = Some dta ->
  length dta = length times -> times <> [] ->
  (forall i, (i < length times)%nat -> 0 < nth i dta 0) ->
  (forall i, (S i < length times)%nat ->
             nth i times 0 + nth i dta 0 / 2 == nth (S i) times 0 - nth (S i) dta 0 / 2) ->
  first_edge = nth 0 times 0 - nth 0 dta 0 / 2 ->
  last_edge = nth (length times - 1) times 0 + nth (length times - 1) dta 0 / 2 ->
  Forall (fun x => 0 <= x.2 /\ first_edge <= x.1 - x.2 /\ first_edge < x.1
                   /\ x.1 - x.2 < last_edge /\ x.1 <= last_edge)
         (zip events priors) ->
  exists arr,
    get_livetime_per_bin times events priors dt gti = Ok arr
    /\ length arr = length times
    /\ forall i, (i < length times)%nat ->
         0 <= nth i arr 0
         <= msum (fun x => overlap (nth i times 0 - nth i dta 0 / 2)
                             (nth i times 0 + nth i dta 0 / 2) (x.1 - x.2) x.1)
              (zip events priors).
Proof.
  intros Hlen Hh Hdt Hl Hne Hpos Hcont Hfirst Hlast Hin.
  assert (HN : (1 <= length times)%nat) by (destruct times; [done | cbn; lia]).
  destruct (bin_edges times dta e0) as [tbins | err] eqn:Hb.
  2: { exfalso.
       destruct (last times) as [tl|] eqn:E1; [|by apply last_None in E1].
       destruct (last dta) as [dl|] eqn:E2.
       - by rewrite (bin_edges_same_length _ _ _ _ _ Hl E1 E2) in Hb.
       - apply last_None in E2. subst dta. cbn in Hl. lia. }
  pose proof (bin_edges_contiguous times dta tbins e0 Hl Hb Hpos Hcont) as Hax.
  pose proof (proj1 Hax) as Htl.
  pose proof (bin_edges_edge times dta tbins e0 0 Hl Hb ltac:(lia)) as He0.
  pose proof (bin_edges_edge_last times dta tbins e0 Hl Hb Hne) as HeN.
  rewrite <- Hfirst in He0. rewrite <- Hlast in HeN.
  assert (Htne : tbins <> []) by (intros ->; cbn in Htl; lia).
  assert (Hlastt : last tbins = Some (edge tbins (length times))).
  { rewrite (last_nth _ Htne). unfold edge. do 2 f_equal. lia. }
  rewrite List.Forall_forall in Hin.
  rewrite (get_livetime_per_bin_unfold _ _ _ _ _ e0 dta Hlen Hh Hdt), Hb.
  cbn [mbind result_bind rbind].
  assert (Htwo : (2 <= length tbins)%nat) by lia.
  rewrite (clip_to_axis_body _ _ _ _ _ _ Htwo (head_nth _ Htne) Hlastt).
  fold (edge tbins 0).
  rewrite clip_body_inside.
  2: { apply Forall2_shift; [done |]. intros x Hx.
       destruct (Hin x Hx) as (H0 & H1 & H2 & H3 & H4).
       rewrite He0, HeN. repeat split; lra. }
  cbn [mbind result_bind rbind]. rewrite <- Hl.
  assert (HN' : (1 <= length dta)%nat) by lia.
  assert (Hlm : length (map (fun e => e - e0) events) = length priors)
    by (by rewrite length_map).
  destruct (accumulate_bounds tbins dta (map (fun e => e - e0) events) priors Hax HN' Hlm)
    as (arr & Hacc & Hla & Hbd).
  { destruct events; [discriminate | discriminate]. }
  { intros x Hx. rewrite zip_map_fst in Hx. apply in_map_iff in Hx as (y & <- & Hy).
    destruct (Hin y Hy) as (H0 & H1 & H2 & H3 & H4).
    unfold on_axis. cbn [fst snd]. rewrite Htl.
    replace (S (length dta) - 1)%nat with (length times) by lia.
    rewrite He0, HeN. repeat split; lra. }
  exists arr. split; [exact Hacc |]. split; [congruence |].
  intros i Hi. destruct (Hbd i Hi) as [Hb1 Hb2].
  split; [exact Hb1 |].
  rewrite zip_map_fst, msum_map in Hb2.
  eapply Qle_trans; [exact Hb2 |].
  apply msum_le. intros x _. unfold ov. cbn [fst snd].
  rewrite Hl in Hi.
  pose proof (bin_edges_edge times dta tbins e0 i Hl Hb Hi) as Hei.
  rewrite <- Hl in Hi. destruct (proj2 Hax i Hi) as [_ Hw].
  pose proof (Qhalf_double (nth i dta 0)) as Hhalf.
  rewrite Hei in Hw. rewrite Hei.
  apply (overlap_shift_le e0); lra.
Qed.

Lemma livetime_nonnegative_and_covered_witness :
  exists arr,
    get_livetime_per_bin [1#2; 3#2] [1#2; 6#10; 16#10] [4#10; 4#10; 1]
      (Some (Scalar (Some 1))) None = Ok arr
    /\ forall i, (i < 2)%nat ->
         0 <= nth i arr 0
         <= msum (fun x => overlap (nth i [1#2; 3#2] 0 - nth i [1 + 0; 1 + 0] 0 / 2)
                             (nth i [1#2; 3#2] 0 + nth i [1 + 0; 1 + 0] 0 / 2)
                             (x.1 - x.2) x.1)
              (zip [1#2; 6#10; 16#10] [4#10; 4#10; 1]).
Proof.
  destruct (livetime_nonnegative_and_covered [1#2; 3#2] [1#2; 6#10; 16#10] [4#10; 4#10; 1]
              [1 + 0; 1 + 0] (Some (Scalar (Some 1))) None (1#2)
              ((1#2) - (1 + 0) / 2) ((3#2) + (1 + 0) / 2))
    as (arr & H & _ & Hb).
  - reflexivity.
  - reflexivity.
  - reflexivity.
  - reflexivity.
  - discriminate.
  - intros [|[|i]] Hi; cbn in Hi; try lia; vm_compute; reflexivity.
  - intros [|i] Hi; cbn in Hi; try lia; vm_compute; reflexivity.
  - reflexivity.
  - reflexivity.
  - repeat constructor; vm_compute; congruence.
  - exists arr. split; [exact H | exact Hb].
Defined.

(** ** The exposure limit *)

(** With a positive [expo_limit], a light curve with one rate per time bin
    and a [dt] that is a float or has one width per bin is corrected to finite
    rates only: a bin whose exposure is zero would give [inf] or [nan], and
    it is below the limit and set to zero. *)
Theorem corrected_rates_are_finite (contents : gmap string value)
    (uf_events uf_priors : list Q) (expo_limit : Q) (outdata : gmap string value)
    (time lc : list Q) :
  correct_lightcurve contents uf_events uf_priors expo_limit = Ok outdata ->
  contents !! "time" = Some (VArray time) ->
  contents !! "lc" = Some (VArray lc) ->
  length lc = length time ->
  (forall a, contents !! "dt" = Some (VArray a) -> length a = length time) ->
  0 < expo_limit ->
  exists newlc,
    outdata !! "lc" = Some (VRates newlc)
    /\ length newlc = length time
    /\ forall i r, newlc !! i = Some r -> exists q, r = Some q.
Proof.
  unfold correct_lightcurve, get_key. intros H Et El Hlen Hdta Hlim.
  rewrite Et, El in H. cbn [mbind result_bind rbind] in H.
  destruct (contents !! "dt") as [dv|] eqn:Ed; [|discriminate].
  cbn [mbind result_bind rbind] in H.
  destruct (contents !! "GTI") as [gv|] eqn:Eg; [|discriminate].
  cbn [mbind result_bind rbind as_array] in H.
  apply bind_Ok_inv in H as (dt & Hdt & H).
  apply bind_Ok_inv in H as (expo & Hexpo & H).
  cbn [mbind result_bind rbind] in H.
  apply bind_Ok_inv in H as (ratio & Hratio & H).
  apply bind_Ok_inv in H as (newlc0 & Hnew0 & H).
  apply bind_Ok_inv in H as (newlc & Hnew & H).
  injection H as <-.
  unfold get_exposure_from_uf in Hexpo. cbn [_assign_value_if_none] in Hexpo.
  apply get_livetime_per_bin_Ok_inv in Hexpo as (tbins & dta & ev & pr & lts & Hacc).
  apply accumulate_length in Hacc.
  assert (Hle : length lc = length expo) by congruence.
  rewrite broadcast2_same_length in Hratio by done. injection Hratio as <-.
  assert (Hlr : length (zip_with fdiv lc expo) = length time)
    by (rewrite length_zip_with; lia).
  assert (Hshape : match dt with
                   | Array a => length a = length (zip_with fdiv lc expo)
                   | Scalar _ => True end).
  { destruct dv; try discriminate; injection Hdt as <-; [done |].
    rewrite Hlr. by apply Hdta. }
  assert (Hdt_at : forall i, (i < length time)%nat -> exists d, dt_at dt i = Some d).
  { intros i Hi. destruct dv; try discriminate; injection Hdt as <-; cbn [dt_at].
    - by eexists.
    - apply lookup_lt_is_Some. rewrite (Hdta a eq_refl). exact Hi. }
  assert (Hl0 : length newlc0 = length time).
  { destruct dt as [[d|] | a]; cbn [times_dt] in Hnew0.
    - injection Hnew0 as <-. by rewrite length_map.
    - injection Hnew0 as <-. by rewrite length_map.
    - rewrite broadcast2_same_length in Hnew0 by done. injection Hnew0 as <-.
      rewrite length_zip_with. lia. }
  unfold mask_assign_scalar in Hnew.
  destruct (length (map _ expo) =? length newlc0)%nat eqn:E; [|discriminate].
  injection Hnew as <-.
  exists (np.assign_scalar (map (fun e => np.Qltb e expo_limit) expo) newlc0 (Some 0)).
  split; [by rewrite lookup_insert_ne, lookup_insert_eq |].
  split; [by rewrite assign_scalar_length |].
  intros i r Hr.
  assert (Hi : (i < length time)%nat).
  { apply lookup_lt_Some in Hr. rewrite assign_scalar_length in Hr. lia. }
  destruct (lookup_lt_is_Some_2 lc i ltac:(lia)) as [l Hl].
  destruct (lookup_lt_is_Some_2 expo i ltac:(lia)) as [x Hx].
  destruct (Hdt_at i Hi) as [d Hd].
  assert (Hq : zip_with fdiv lc expo !! i = Some (fdiv l x)).
  { by rewrite lookup_zip_with, Hl; cbn; rewrite Hx. }
  destruct (times_dt_lookup _ _ _ _ _ _ Hnew0 Hshape Hq Hd) as [_ Hn].
  rewrite (assign_scalar_lookup _ _ (Some 0) i (np.Qltb x expo_limit) (fmul (fdiv l x) d))
    in Hr; [| by rewrite list_lookup_fmap, Hx | exact Hn].
  injection Hr as <-.
  destruct (np.Qltb x expo_limit) eqn:Eb; [by eexists |].
  apply Qltb_ge in Eb. unfold fdiv.
  destruct (Qeq_bool x 0) eqn:E0.
  - apply Qeq_bool_iff in E0. lra.
  - cbn [fmul]. by eexists.
Qed.

Lemma corrected_rates_are_finite_witness :
  exists outdata newlc,
    correct_lightcurve
      (<["time" := VArray [1#2; 3#2; 5#2]]> (<["lc" := VArray [10; 20; 30]]>
         (<["dt" := VFloat 1]> (<["GTI" := VGti [(0, 3)]]> ∅))))
      [12#10] [1#2] (1#10000000) = Ok outdata
    /\ outdata !! "lc" = Some (VRates newlc)
    /\ forall i r, newlc !! i = Some r -> exists q, r = Some q.
Proof.
  assert (exists o,
             correct_lightcurve
               (<["time" := VArray [1#2; 3#2; 5#2]]> (<["lc" := VArray [10; 20; 30]]>
                  (<["dt" := VFloat 1]> (<["GTI" := VGti [(0, 3)]]> ∅))))
               [12#10] [1#2] (1#10000000) = Ok o) as [o Ho].
  { vm_compute. eexists. reflexivity. }
  destruct (corrected_rates_are_finite _ _ _ _ _ [1#2; 3#2; 5#2] [10; 20; 30] Ho)
    as (newlc & H1 & _ & H2).
  - reflexivity.
  - reflexivity.
  - reflexivity.
  - intros a Ha. discriminate Ha.
  - reflexivity.
  - exists o, newlc. split; [exact Ho |]. split; [exact H1 | exact H2].
Defined.

(** ** Moving the origin of time *)

Lemma zip_with_minus_translate (c : Q) (a b : list Q) :
  Forall2 (shifted (- c)) (zip_with Qminus a b)
    (zip_with Qminus (map (fun t => t + c) a) b).
Proof.
  revert b. induction a as [|x a IH]; intros [|y b]; cbn [map zip_with]; constructor;
    [unfold shifted; lra | apply IH].
Qed.

Lemma last_map {A B : Type} (f : A -> B) (l : list A) (x : A) :
  last l = Some x -> last (map f l) = Some (f x).
Proof.
  rewrite !last_lookup, length_map. intros H.
  change (map f l) with (f <$> l). by rewrite list_lookup_fmap, H.
Qed.

(** Only the times relative to one another matter: with [times] and
    [events] moved by the same amount [c] (and a [dt] with one width per
    bin), the function returns the same livetimes. *)
Theorem time_translation_invariance (times events priors dta : list Q) (c : Q)
    (gti : option value) (arr : list Q) :
  length dta = length times ->
  get_livetime_per_bin times events priors (Some (Array dta)) gti = Ok arr ->
  exists arr',
    get_livetime_per_bin (map (fun t => t + c) times) (map (fun e => e + c) events) priors
      (Some (Array dta)) gti = Ok arr'
    /\ arrays_eq arr arr'.
Proof.
  intros Hl H.
  assert (Hlen : length events = length priors).
  { unfold get_livetime_per_bin in H. destruct (length events =? length priors)%nat eqn:E;
      [by apply Nat.eqb_eq in E | discriminate]. }
  destruct events as [|e0 events].
  { unfold get_livetime_per_bin in H. rewrite Hlen in H. rewrite Nat.eqb_refl in H.
    cbn [py_assert mbind result_bind rbind] in H. by rewrite getitem_nil in H. }
  rewrite (get_livetime_per_bin_unfold times _ _ (Some (Array dta)) _ e0 dta Hlen eq_refl eq_refl)
    in H.
  rewrite (get_livetime_per_bin_unfold _ (map (fun e => e + c) (e0 :: events)) _
             (Some (Array dta)) _ (e0 + c) dta) by (rewrite ?length_map; done).
  apply bind_Ok_inv in H as (tbins & Hb & H).
  destruct (bin_edges_shape _ _ _ _ Hb) as (H2 & [f Hf] & [l Hla]).
  pose proof Hb as Hb'.
  apply bin_edges_inv in Hb' as (lefts & tl & dl & _ & Htl & Hdl & _ & _).
  rewrite (bin_edges_same_length times dta e0 tl dl Hl Htl Hdl) in Hb.
  injection Hb as Hb.
  rewrite (bin_edges_same_length (map (fun t => t + c) times) dta (e0 + c) (tl + c) dl
             ltac:(by rewrite length_map) (last_map (fun t => t + c) times tl Htl) Hdl).
  cbn [mbind result_bind rbind].
  set (tbins2 := map (fun x => x - (e0 + c)) _).
  assert (Htb : Forall2 (shifted 0) tbins tbins2).
  { subst tbins tbins2. rewrite !map_app. cbn [map].
    apply Forall2_app; [|repeat constructor; unfold shifted; lra].
    pose proof (zip_with_minus_translate c times (map (fun d => d / 2) dta)) as Hz.
    revert Hz. generalize (zip_with Qminus times (map (fun d => d / 2) dta)).
    generalize (zip_with Qminus (map (fun t => t + c) times) (map (fun d => d / 2) dta)).
    intros L2 L1 Hz. induction Hz as [|x y L1 L2 Hxy _ IH]; cbn [map]; constructor;
      [unfold shifted in *; lra | exact IH]. }
  destruct (head_Forall2 _ _ _ _ Htb Hf) as (f2 & Hf2 & Hff).
  destruct (last_Forall2 _ _ _ _ Htb Hla) as (l2 & Hl2 & Hll).
  assert (H22 : (2 <= length tbins2)%nat) by (by rewrite <- (Forall2_length _ _ _ Htb)).
  rewrite (clip_to_axis_body _ _ _ _ _ _ H2 Hf Hla) in H.
  rewrite (clip_to_axis_body _ _ _ _ _ _ H22 Hf2 Hl2).
  cbn [mbind result_bind rbind] in *.
  assert (Hev : Forall2 (shifted 0) (map (fun e => e - e0) (e0 :: events))
                  (map (fun e => e - (e0 + c)) (map (fun e => e + c) (e0 :: events)))).
  { generalize (e0 :: events). intros L. induction L as [|x L IH]; cbn [map]; constructor;
      [unfold shifted; lra | exact IH]. }
  destruct (clip_body_shifted 0 f l f2 l2 _ _ Hff Hll Hev priors priors _ _
              (Qeq_refl_list priors) (zip_with_minus_frame _ _ _ priors Hev))
    as (C1 & C2 & C3).
  { by rewrite length_map. }
  { rewrite length_zip_with, length_map. lia. }
  destruct (clip_body f l f _ _ _) as [[ev pr] lts].
  destruct (clip_body f2 l2 f2 _ _ _) as [[ev2 pr2] lts2].
  cbn [fst snd] in *. rewrite length_map.
  by apply (accumulate_shifted 0 _ tbins tbins2 dta ev ev2 pr pr2 lts lts2).
Qed.

Lemma time_translation_invariance_witness :
  exists arr arr',
    get_livetime_per_bin [1#2; 3#2; 5#2] [22#10] [3#2] (Some (Array [1; 1; 1])) None = Ok arr
    /\ get_livetime_per_bin (map (fun t => t + 1000) [1#2; 3#2; 5#2])
         (map (fun e => e + 1000) [22#10]) [3#2] (Some (Array [1; 1; 1])) None = Ok arr'
    /\ arrays_eq arr arr'.
Proof.
  assert (exists a,
             get_livetime_per_bin [1#2; 3#2; 5#2] [22#10] [3#2] (Some (Array [1; 1; 1])) None
             = Ok a) as [a Ha].
  { vm_compute. eexists. reflexivity. }
  destruct (time_translation_invariance [1#2; 3#2; 5#2] [22#10] [3#2] [1; 1; 1] 1000 None a
              eq_refl Ha) as (arr' & H & Heq).
  exists a, arr'. split; [exact Ha |]. split; [exact H | exact Heq].
Defined.
